(** * Hybrid URL risk scoring: a shallow embedding of the backend

    The development follows the Python backend module by module:
    [app/utils/validators.py], [app/models/url_features.py],
    [app/services/api_checker.py], [app/services/scorer.py] and the
    [/scan] route of [app/main.py].

    Conventions of the embedding.
    - A Python [str] is a list of code points, each below 256 (Latin-1), so
      Rocq's [ascii] is the character type and the character predicates
      ([isspace], [isdigit], ...) are Python's on that range.
    - Python numbers that stay integral are [Z] or [nat]; the scores, which
      Python computes in binary floating point, are exact rationals [Q];
      the entropies, which need [math.log2], are real numbers [R].
    - A dict read with [.get(key, default)] is a record whose field is an
      [option]: [None] is the absent key.
    - A call that may raise returns [raising A].
    - Functions of packages outside the repository ([tldextract],
      [ipaddress], the three HTTP providers) are parameters: the class
      [Externals] and the network answer passed to [scan_url]. *)

From Stdlib Require Import List String Ascii NArith ZArith QArith Qabs Lia Psatz Reals Bool.
From Stdlib Require Import DecimalString Permutation.
Import ListNotations.

Definition str := list ascii.
Coercion list_ascii_of_string : string >-> list.

Close Scope Q_scope.
Close Scope R_scope.
Open Scope string_scope.
Open Scope list_scope.
Open Scope Z_scope.

(** ** Calls that may raise *)

Inductive raising (A : Type) : Type :=
| Raise (msg : str)
| Return (a : A).
Arguments Raise {A} msg.
Arguments Return {A} a.

Definition bind {A B : Type} (m : raising A) (k : A -> raising B) : raising B :=
match m with
| Raise msg => Raise msg
| Return a => k a
end.

Notation "x <- m ;; k" := (bind m (fun x => k))
(at level 61, m at next level, right associativity).
Notation "' pat <- m ;; k" := (bind m (fun x => let 'pat := x in k))
(at level 61, pat pattern, m at next level, right associativity).

(** ** Python's [str] methods, on code points below 256 *)

Module Py.

Definition code (c : ascii) : N := N_of_ascii c.

Definition in_range (lo hi : N) (c : ascii) : bool :=
  (lo <=? code c)%N && (code c <=? hi)%N.

Definition is_code (n : N) (c : ascii) : bool := (code c =? n)%N.

(** [c.isspace()] *)
Definition isspace (c : ascii) : bool :=
  in_range 9 13 c || in_range 28 32 c || is_code 133 c || is_code 160 c.

Definition ascii_digit (c : ascii) : bool := in_range 48 57 c.
Definition ascii_upper (c : ascii) : bool := in_range 65 90 c.
Definition ascii_lower (c : ascii) : bool := in_range 97 122 c.
Definition ascii_alpha (c : ascii) : bool := ascii_upper c || ascii_lower c.
Definition isascii (c : ascii) : bool := (code c <? 128)%N.

(** [c.isdigit()]: the ASCII digits and the superscripts 2, 3 and 1 *)
Definition isdigit (c : ascii) : bool :=
  ascii_digit c || is_code 178 c || is_code 179 c || is_code 185 c.

(** [c.isupper()]; above code point 255, where these strings stop,
    [str.isupper] also holds of characters that are no letters. *)
Definition isupper (c : ascii) : bool :=
  ascii_upper c || in_range 192 214 c || in_range 216 222 c.

(** [c.isalpha()] *)
Definition isalpha (c : ascii) : bool :=
  ascii_alpha c || is_code 170 c || is_code 181 c || is_code 186 c
  || in_range 192 214 c || in_range 216 246 c || in_range 248 255 c.

(** [c.isalnum()]: letters, digits and the vulgar fractions *)
Definition isalnum (c : ascii) : bool :=
  isalpha c || isdigit c || in_range 188 190 c.

Definition lower_char (c : ascii) : ascii :=
  if isupper c then ascii_of_N (code c + 32) else c.

(** [s.lower()] *)
Definition lower (s : str) : str := map lower_char s.

Fixpoint eqb (s t : str) : bool :=
  match s, t with
  | [], [] => true
  | c :: s', d :: t' => Ascii.eqb c d && eqb s' t'
  | _, _ => false
  end.

(** [len(s)] *)
Definition len (s : str) : nat := List.length s.

(** [not s] *)
Definition is_empty (s : str) : bool :=
  match s with [] => true | _ => false end.

(** [s.lstrip(chars)], the set of characters given as a predicate *)
Fixpoint lstrip_by (p : ascii -> bool) (s : str) : str :=
  match s with
  | [] => []
  | c :: r => if p c then lstrip_by p r else s
  end.

Definition rstrip_by (p : ascii -> bool) (s : str) : str :=
  rev (lstrip_by p (rev s)).

(** [s.strip()] *)
Definition strip (s : str) : str := rstrip_by isspace (lstrip_by isspace s).

(** [s.startswith(prefix)] *)
Fixpoint startswith (prefix s : str) : bool :=
  match prefix, s with
  | [], _ => true
  | p :: prefix', c :: s' => Ascii.eqb p c && startswith prefix' s'
  | _ :: _, [] => false
  end.

(** [c in s] for a single character *)
Definition has_char (c : ascii) (s : str) : bool := existsb (Ascii.eqb c) s.

(** [sub in s] *)
Fixpoint contains (sub s : str) : bool :=
  startswith sub s
  || match s with
     | [] => false
     | _ :: s' => contains sub s'
     end.

(** [s.find(c)]: [None] stands for -1 *)
Fixpoint find (c : ascii) (s : str) : option nat :=
  match s with
  | [] => None
  | d :: r => if Ascii.eqb d c then Some 0%nat else option_map S (find c r)
  end.

(** [s.find(c, start)] *)
Definition find_from (c : ascii) (start : nat) (s : str) : option nat :=
  option_map (Nat.add start) (find c (skipn start s)).

(** [s.rfind(c)] *)
Definition rfind (c : ascii) (s : str) : option nat :=
  option_map (fun i => (len s - 1 - i)%nat) (find c (rev s)).

(** [s.count(c)] *)
Definition count (c : ascii) (s : str) : nat := count_occ ascii_dec s c.

(** [s.split(sep)] for a single-character separator *)
Fixpoint split (sep : ascii) (s : str) : list str :=
  match s with
  | [] => [[]]
  | c :: r =>
      if Ascii.eqb c sep then [] :: split sep r
      else match split sep r with
           | h :: t => (c :: h) :: t
           | [] => [[c]]
           end
  end.

(** [s.partition(sep)]: what stands before and after the first [sep];
    the whole string and the empty one when there is none *)
Definition partition (sep : ascii) (s : str) : str * bool * str :=
  match find sep s with
  | Some i => (firstn i s, true, skipn (S i) s)
  | None => (s, false, [])
  end.

(** [s.rpartition(sep)[2]] *)
Definition rpartition_last (sep : ascii) (s : str) : str :=
  match rfind sep s with
  | Some i => skipn (S i) s
  | None => s
  end.

(** [sep.join(parts)] *)
Fixpoint join (sep : str) (parts : list str) : str :=
  match parts with
  | [] => []
  | [p] => p
  | p :: rest => p ++ sep ++ join sep rest
  end.

(** [str(n)] for an integer *)
Definition str_of_int (n : Z) : str :=
  list_ascii_of_string (NilZero.string_of_int (Z.to_int n)).

(** [max(xs, default=0)] on naturals *)
Definition max_default0 (xs : list nat) : nat := fold_right Nat.max 0%nat xs.

End Py.

(** ** Regular expressions of the [re] module

  Only what the patterns of the backend use: character classes,
  concatenation, alternation, repetition.  Matching is by derivatives, which
  decides membership in the language; the patterns are only ever used for
  their truth value. *)

Module Re.

Inductive re : Type :=
| Void
| Eps
| Cls (p : ascii -> bool)
| Cat (r1 r2 : re)
| Alt (r1 r2 : re)
| Star (r : re).

Fixpoint nullable (r : re) : bool :=
  match r with
  | Void => false
  | Eps => true
  | Cls _ => false
  | Cat r1 r2 => nullable r1 && nullable r2
  | Alt r1 r2 => nullable r1 || nullable r2
  | Star _ => true
  end.

Definition cat (r1 r2 : re) : re :=
  match r1, r2 with
  | Void, _ => Void
  | _, Void => Void
  | Eps, _ => r2
  | _, Eps => r1
  | _, _ => Cat r1 r2
  end.

Definition alt (r1 r2 : re) : re :=
  match r1, r2 with
  | Void, _ => r2
  | _, Void => r1
  | _, _ => Alt r1 r2
  end.

Fixpoint deriv (c : ascii) (r : re) : re :=
  match r with
  | Void => Void
  | Eps => Void
  | Cls p => if p c then Eps else Void
  | Cat r1 r2 =>
      if nullable r1 then alt (cat (deriv c r1) r2) (deriv c r2)
      else cat (deriv c r1) r2
  | Alt r1 r2 => alt (deriv c r1) (deriv c r2)
  | Star r1 => cat (deriv c r1) (Star r1)
  end.

(** The whole of [s] is in the language of [r]. *)
Fixpoint matches (r : re) (s : str) : bool :=
  match s with
  | [] => nullable r
  | c :: s' => matches (deriv c r) s'
  end.

Definition chr (c : ascii) : re := Cls (Ascii.eqb c).
Definition opt (r : re) : re := Alt Eps r.
Definition plus (r : re) : re := Cat r (Star r).

(** [r{n}] *)
Fixpoint times (n : nat) (r : re) : re :=
  match n with
  | O => Eps
  | S n' => Cat r (times n' r)
  end.

(** [r{0,n}] *)
Fixpoint upto (n : nat) (r : re) : re :=
  match n with
  | O => Eps
  | S n' => opt (Cat r (upto n' r))
  end.

(** [r{m,n}] and [r{m,}] *)
Definition range (m n : nat) (r : re) : re := Cat (times m r) (upto (n - m) r).
Definition at_least (m : nat) (r : re) : re := Cat (times m r) (Star r).

Definition any : re := Cls (fun _ => true).
(** [.] matches everything but a newline. *)
Definition dot : re := Cls (fun c => negb (Py.is_code 10 c)).
(** [\d] on a [str] pattern: the decimal digits, which below 256 are 0-9. *)
Definition digit : re := Cls Py.ascii_digit.

Definition drop_final_newline (s : str) : option str :=
  match rev s with
  | c :: r => if Py.is_code 10 c then Some (rev r) else None
  | [] => None
  end.

(** [re.match('^' r '$', s)]: [$] stands at the end or before a final newline. *)
Definition match_dollar (r : re) (s : str) : bool :=
  matches r s
  || match drop_final_newline s with
     | Some s' => matches r s'
     | None => false
     end.

(** [re.match(r '\Z', s)] with [r] anchored at the start: the whole string. *)
Definition match_Z (r : re) (s : str) : bool := matches r s.

(** [re.search(r, s)] for a pattern without anchors *)
Definition search (r : re) (s : str) : bool :=
  matches (Cat (Star any) (Cat r (Star any))) s.

End Re.

(** ** Packages outside the repository

  [tldextract.extract] splits a URL into (subdomain, domain, suffix) with
  the public suffix list, and [ipaddress.ip_address] parses an address;
  both may raise.  The backend only calls them, so they are operations of a
  class. *)

Module Tldextract.
Record ExtractResult : Type := {
  subdomain : str;
  domain : str;
  suffix : str
}.
End Tldextract.

Inductive ip_version : Type := IPv4 | IPv6.

Class Externals : Type := {
tldextract_extract : str -> raising Tldextract.ExtractResult;
ipaddress_ip_address : str -> raising ip_version
}.

(** ** [urllib.parse] (CPython 3.11) *)

Module Urllib.

Record ParseResult : Type := {
  scheme : str;
  netloc : str;
  path : str;
  params : str;
  query : str;
  fragment : str
}.

Definition uses_params : list str :=
  [ []; "ftp" : str; "hdl" : str; "prospero" : str; "http" : str;
    "imap" : str; "https" : str; "shttp" : str; "rtsp" : str;
    "rtspu" : str; "sip" : str; "sips" : str; "mms" : str; "sftp" : str;
    "tel" : str ].

Definition scheme_chars (c : ascii) : bool :=
  Py.ascii_alpha c || Py.ascii_digit c || Py.has_char c "+-.".

Definition _WHATWG_C0_CONTROL_OR_SPACE (c : ascii) : bool :=
  (Py.code c <=? 32)%N.

Definition _UNSAFE_URL_BYTES_TO_REMOVE (c : ascii) : bool :=
  Py.is_code 9 c || Py.is_code 13 c || Py.is_code 10 c.

Definition _splitparams (url : str) : str * str :=
  if Py.has_char "/" url then
    match Py.rfind "/" url with
    | Some j =>
        match Py.find_from ";" j url with
        | Some i => (firstn i url, skipn (S i) url)
        | None => (url, [])
        end
    | None => (url, [])
    end
  else
    match Py.find ";" url with
    | Some i => (firstn i url, skipn (S i) url)
    | None => (firstn (Py.len url - 1) url, url)
    end.

Definition _splitnetloc (url : str) (start : nat) : str * str :=
  let delim :=
    fold_left
      (fun delim c =>
         match Py.find_from c start url with
         | Some wdelim => Nat.min delim wdelim
         | None => delim
         end)
      ("/?#" : str) (Py.len url) in
  (firstn (delim - start) (skipn start url), skipn delim url).

Definition ipvfuture : Re.re :=
  Re.Cat (Re.chr "v")
    (Re.Cat (Re.plus (Re.Cls (fun c => Py.in_range 97 102 c
                                        || Py.in_range 65 70 c
                                        || Py.ascii_digit c)))
       (Re.Cat (Re.chr ".") (Re.plus Re.dot))).

Definition _check_bracketed_host `{Externals} (hostname : str) : raising unit :=
  if Py.startswith "v" hostname then
    if negb (Re.match_Z ipvfuture hostname)
    then Raise "IPvFuture address is invalid"
    else Return tt
  else
    ip <- ipaddress_ip_address hostname ;;
    match ip with
    | IPv4 => Raise "An IPv4 address cannot be in brackets"
    | IPv6 => Return tt
    end.

Definition _check_bracketed_netloc `{Externals} (netloc : str) : raising unit :=
  let hostname_and_port := Py.rpartition_last "@" netloc in
  let '(before_bracket, have_open_br, bracketed) :=
    Py.partition "[" hostname_and_port in
  if have_open_br then
    if negb (Py.is_empty before_bracket) then Raise "Invalid IPv6 URL"
    else
      let '(hostname, _, port) := Py.partition "]" bracketed in
      if negb (Py.is_empty port) && negb (Py.startswith ":" port)
      then Raise "Invalid IPv6 URL"
      else _check_bracketed_host hostname
  else
    let '(hostname, _, _) := Py.partition ":" hostname_and_port in
    _check_bracketed_host hostname.

(** [_checknetloc] only raises when NFKC normalisation of a non-ASCII
    netloc produces one of [/?#@:]; no code point below 256 normalises to
    a string holding one, so on this character range it returns. *)
Definition _checknetloc (netloc : str) : raising unit := Return tt.

(** The scheme of [urlsplit]: the text before the first colon when it is
    made of scheme characters and starts with an ASCII letter.  The result
    is (scheme, rest of the url). *)
Definition split_scheme (url : str) : str * str :=
  match Py.find ":" url with
  | Some i =>
      if (0 <? i)%nat
         && match url with
            | c :: _ => Py.isascii c && Py.isalpha c
            | [] => false
            end
         && forallb scheme_chars (firstn i url)
      then (Py.lower (firstn i url), skipn (S i) url)
      else ([], url)
  | None => ([], url)
  end.

(** The netloc of [urlsplit], with its checks of brackets.  The result is
    (netloc, rest of the url). *)
Definition split_netloc `{Externals} (url : str) : raising (str * str) :=
  if Py.eqb (firstn 2 url) "//" then
    let '(netloc, url) := _splitnetloc url 2 in
    if (Py.has_char "[" netloc && negb (Py.has_char "]" netloc))
       || (Py.has_char "]" netloc && negb (Py.has_char "[" netloc))
    then Raise "Invalid IPv6 URL"
    else if Py.has_char "[" netloc && Py.has_char "]" netloc
         then _ <- _check_bracketed_netloc netloc ;; Return (netloc, url)
         else Return (netloc, url)
  else Return ([], url).

(** [url.split(c, 1)] when [c in url], else the url and the empty string *)
Definition split_off (c : ascii) (url : str) : str * str :=
  if Py.has_char c url
  then let '(a, _, b) := Py.partition c url in (a, b)
  else (url, []).

(** The first two steps of [urlsplit]: leading control characters and
spaces stripped, then tabs and line breaks removed. *)
Definition cleaned (url : str) : str :=
  filter (fun c => negb (_UNSAFE_URL_BYTES_TO_REMOVE c))
    (Py.lstrip_by _WHATWG_C0_CONTROL_OR_SPACE url).

(** [urlsplit(url)] with the default [scheme=''] and [allow_fragments=True];
    the result is (scheme, netloc, url, query, fragment). *)
Definition urlsplit `{Externals} (url : str)
  : raising (str * str * str * str * str) :=
  let url := Py.lstrip_by _WHATWG_C0_CONTROL_OR_SPACE url in
  let url := filter (fun c => negb (_UNSAFE_URL_BYTES_TO_REMOVE c)) url in
  let '(scheme, url) := split_scheme url in
  '(netloc, url) <- split_netloc url ;;
  let '(url, fragment) := split_off "#" url in
  let '(url, query) := split_off "?" url in
  _ <- _checknetloc netloc ;;
  Return (scheme, netloc, url, query, fragment).

Definition urlparse `{Externals} (url : str) : raising ParseResult :=
  '(scheme, netloc, url, query, fragment) <- urlsplit url ;;
  let '(url, params) :=
    if existsb (Py.eqb scheme) uses_params && Py.has_char ";" url
    then _splitparams url
    else (url, []) in
  Return {| scheme := scheme; netloc := netloc; path := url;
            params := params; query := query; fragment := fragment |}.

End Urllib.

(** ** [app/utils/validators.py] *)

Module Validators.

Definition alnum : Re.re :=
  Re.Cls (fun c => Py.ascii_alpha c || Py.ascii_digit c).
Definition alnum_dash : Re.re :=
  Re.Cls (fun c => Py.ascii_alpha c || Py.ascii_digit c || Py.is_code 45 c).
Definition letter : Re.re := Re.Cls Py.ascii_alpha.
Definition digit09 : Re.re := Re.Cls Py.ascii_digit.

(** [^(?:[a-zA-Z0-9](?:[a-zA-Z0-9-]{0,61}[a-zA-Z0-9])?\.)+[a-zA-Z]{2,}$] *)
Definition domain_pattern : Re.re :=
  Re.Cat
    (Re.plus
       (Re.Cat alnum
          (Re.Cat (Re.opt (Re.Cat (Re.range 0 61 alnum_dash) alnum))
             (Re.chr "."))))
    (Re.at_least 2 letter).

(** [^(?:[0-9]{1,3}\.){3}[0-9]{1,3}$] *)
Definition ip_pattern : Re.re :=
  Re.Cat (Re.times 3 (Re.Cat (Re.range 1 3 digit09) (Re.chr ".")))
    (Re.range 1 3 digit09).

Definition normalize_url (url : str) : str :=
  let url := Py.strip url in
  if negb (Py.startswith "http://" url || Py.startswith "https://" url)
  then "http://" ++ url
  else url.

Definition is_valid_domain (domain : str) : bool :=
  let domain :=
    if Py.has_char ":" domain then hd [] (Py.split ":" domain) else domain in
  if Re.match_dollar domain_pattern domain || Re.match_dollar ip_pattern domain
  then
    if (253 <? Py.len domain)%nat then false
    else
      let labels := Py.split "." domain in
      forallb (fun label => negb (63 <? Py.len label)%nat) labels
  else false.

(** The four [suspicious_indicators], in the order of the source. *)
Definition suspicious_indicators : list Re.re :=
  [ Re.chr "@";
    Re.Cat (Re.range 1 3 Re.digit)
      (Re.Cat (Re.chr ".")
         (Re.Cat (Re.range 1 3 Re.digit)
            (Re.Cat (Re.chr ".")
               (Re.Cat (Re.range 1 3 Re.digit)
                  (Re.Cat (Re.chr ".") (Re.range 1 3 Re.digit))))));
    Re.Cat (Re.chr "-") (Re.Cat (Re.at_least 2 Re.dot) (Re.chr "."));
    Re.at_least 5 Re.digit ].

Definition has_suspicious_patterns (url : str) : bool :=
  existsb (fun pattern => Re.search pattern url) suspicious_indicators.

(** [validate_url] returns the triple (is_valid, normalized_url, error). *)
Definition validate_url `{Externals} (url : str) : bool * str * str :=
  if Py.is_empty url then (false, [], "URL cannot be empty" : str)
  else
    let url := Py.strip url in
    if Py.is_empty url then (false, [], "URL cannot be empty" : str)
    else
      let normalized := normalize_url url in
      match Urllib.urlparse normalized with
      | Raise e => (false, [], "Invalid URL format: " ++ e)
      | Return parsed =>
          if negb (existsb (Py.eqb (Urllib.scheme parsed))
                     ["http" : str; "https" : str])
          then (false, [], "URL must use http or https protocol" : str)
          else if Py.is_empty (Urllib.netloc parsed)
          then (false, [], "URL must contain a valid domain" : str)
          else
            let domain := Urllib.netloc parsed in
            if negb (is_valid_domain domain)
            then (false, [], "Invalid domain format" : str)
            else
              (* the suspicious patterns are looked for and not acted on *)
              if has_suspicious_patterns normalized
              then (true, normalized, [])
              else (true, normalized, [])
      end.

(** [urlunparse] of [urllib.parse], as [clean_url] uses it. *)
Definition uses_netloc : list str :=
  [ []; "ftp" : str; "http" : str; "gopher" : str; "nntp" : str;
    "telnet" : str; "imap" : str; "wais" : str; "file" : str; "mms" : str;
    "https" : str; "shttp" : str; "snews" : str; "prospero" : str;
    "rtsp" : str; "rtspu" : str; "rsync" : str; "svn" : str;
    "svn+ssh" : str; "sftp" : str; "nfs" : str; "git" : str;
    "git+ssh" : str; "ws" : str; "wss" : str ].

Definition urlunsplit (scheme netloc url query fragment : str) : str :=
  let url :=
    if negb (Py.is_empty netloc)
       || (negb (Py.is_empty scheme)
           && existsb (Py.eqb scheme) uses_netloc
           && negb (Py.eqb (firstn 2 url) "//"))
    then
      let url :=
        if negb (Py.is_empty url) && negb (Py.eqb (firstn 1 url) "/")
        then "/" ++ url else url in
      "//" ++ netloc ++ url
    else url in
  let url := if negb (Py.is_empty scheme) then scheme ++ ":" ++ url else url in
  let url := if negb (Py.is_empty query) then url ++ "?" ++ query else url in
  let url := if negb (Py.is_empty fragment) then url ++ "#" ++ fragment else url in
  url.

Definition urlunparse (p : Urllib.ParseResult) : str :=
  let url :=
    if negb (Py.is_empty (Urllib.params p))
    then Urllib.path p ++ ";" ++ Urllib.params p
    else Urllib.path p in
  urlunsplit (Urllib.scheme p) (Urllib.netloc p) url
    (Urllib.query p) (Urllib.fragment p).

Definition clean_url `{Externals} (url : str) : str :=
  let url := Py.strip url in
  let url := filter (fun c => negb (Py.is_code 0 c)) url in
  match Urllib.urlparse url with
  | Return parsed =>
      urlunparse
        {| Urllib.scheme := Py.lower (Urllib.scheme parsed);
           Urllib.netloc := Py.lower (Urllib.netloc parsed);
           Urllib.path := Urllib.path parsed;
           Urllib.params := Urllib.params parsed;
           Urllib.query := Urllib.query parsed;
           Urllib.fragment := Urllib.fragment parsed |}
  | Raise _ => url
  end.

End Validators.

(** ** [app/models/url_features.py] *)

Module UrlFeatures.

(** The merged feature dict of [extract_all_features], one field per key,
    in the order of [get_feature_vector]. *)
Record Features : Type := {
  url_length : nat;
  domain_length : nat;
  path_length : nat;
  query_length : nat;
  fragment_length : nat;
  digit_count : nat;
  letter_count : nat;
  special_char_count : nat;
  dash_count : nat;
  underscore_count : nat;
  dot_count : nat;
  slash_count : nat;
  question_mark_count : nat;
  equal_count : nat;
  at_count : nat;
  ampersand_count : nat;
  percent_count : nat;
  uppercase_count : nat;
  digit_ratio : Q;
  subdomain_count : nat;
  subdomain_length : nat;
  domain_name_length : nat;
  tld_length : nat;
  is_ip_address : nat;
  has_port : nat;
  tld_in_path : nat;
  tld_in_subdomain : nat;
  path_segment_count : nat;
  query_param_count : nat;
  has_query : nat;
  has_fragment : nat;
  max_path_segment_length : nat;
  avg_path_segment_length : Q;
  has_double_slash_in_path : nat;
  has_at_symbol : nat;
  has_dash_in_domain : nat;
  max_consecutive_digits : nat;
  max_consecutive_letters : nat;
  suspicious_keyword_count : nat;
  has_https : nat;
  url_entropy : R;
  domain_entropy : R;
  path_entropy : R
}.

(** The dict returned by [analyze_url_features]. *)
Record FeatureResults : Type := {
  features : option Features;
  feature_risk_score : option Q;
  risk_factors : option (list str);
  total_features : option Z
}.

(** [1 if b else 0] *)
Definition flag (b : bool) : nat := if b then 1%nat else 0%nat.

(** [sum(p(c) for c in s)] *)
Definition count_if (p : ascii -> bool) (s : str) : nat :=
  List.length (filter p s).

Definition Qnat (n : nat) : Q := inject_Z (Z.of_nat n).

(** ** Length, character and path features *)

Definition extract_length_features (url : str) (parsed : Urllib.ParseResult)
  : nat * nat * nat * nat * nat :=
  (Py.len url,
   Py.len (Urllib.netloc parsed),
   Py.len (Urllib.path parsed),
   (if negb (Py.is_empty (Urllib.query parsed))
    then Py.len (Urllib.query parsed) else 0%nat),
   (if negb (Py.is_empty (Urllib.fragment parsed))
    then Py.len (Urllib.fragment parsed) else 0%nat)).

Definition digit_ratio_of (url : str) : Q :=
  if (0 <? Py.len url)%nat
  then Qnat (count_if Py.isdigit url) / Qnat (Py.len url)
  else 0.

(** Lengths of the matches of [re.finditer] for a pattern [c+], [c] a
    character class: the maximal runs of characters of the class. *)
Fixpoint run_lengths_from (p : ascii -> bool) (s : str) (cur : nat) : list nat :=
  match s with
  | [] => match cur with O => [] | _ => [cur] end
  | c :: r =>
      if p c then run_lengths_from p r (S cur)
      else match cur with
           | O => run_lengths_from p r 0%nat
           | _ => cur :: run_lengths_from p r 0%nat
           end
  end.

Definition run_lengths (p : ascii -> bool) (s : str) : list nat :=
  run_lengths_from p s 0%nat.

Definition suspicious_keywords : list str :=
  [ "login" : str; "signin" : str; "account" : str; "update" : str;
    "confirm" : str; "verify" : str; "secure" : str; "banking" : str;
    "paypal" : str; "amazon" : str; "apple" : str; "microsoft" : str;
    "password" : str; "suspended" : str; "locked" : str; "unusual" : str ].

Definition keyword_count (url : str) : nat :=
  List.length (filter (fun keyword => Py.contains keyword (Py.lower url))
                 suspicious_keywords).

(** [^\d{1,3}\.\d{1,3}\.\d{1,3}\.\d{1,3}$] *)
Definition dotted_quad : Re.re :=
  Re.Cat (Re.range 1 3 Re.digit)
    (Re.Cat (Re.chr ".")
       (Re.Cat (Re.range 1 3 Re.digit)
          (Re.Cat (Re.chr ".")
             (Re.Cat (Re.range 1 3 Re.digit)
                (Re.Cat (Re.chr ".") (Re.range 1 3 Re.digit)))))).

(** The [try]/[except] around [tldextract.extract]. *)
Definition extract_tld `{Externals} (url domain : str) : str * str * str :=
  match tldextract_extract url with
  | Return extracted =>
      (Tldextract.subdomain extracted, Tldextract.domain extracted,
       Tldextract.suffix extracted)
  | Raise _ => ([], domain, [])
  end.

Definition path_segments (path : str) : list str :=
  filter (fun p => negb (Py.is_empty p)) (Py.split "/" path).

Definition query_params (query : str) : list str :=
  if negb (Py.is_empty query) then Py.split "&" query else [].

Definition avg_length (segments : list str) : Q :=
  match segments with
  | [] => 0
  | _ => Qnat (list_sum (map Py.len segments)) / Qnat (List.length segments)
  end.

(** ** Entropy *)

Definition log2 (x : R) : R := (ln x / ln 2)%R.

(** [freq.get(char, 0)] *)
Fixpoint freq_get (freq : list (ascii * nat)) (char : ascii) : nat :=
  match freq with
  | [] => 0%nat
  | (k, v) :: rest => if Ascii.eqb k char then v else freq_get rest char
  end.

(** [freq[char] = v]: a dict keeps its keys in insertion order. *)
Fixpoint freq_set (freq : list (ascii * nat)) (char : ascii) (v : nat)
  : list (ascii * nat) :=
  match freq with
  | [] => [(char, v)]
  | (k, w) :: rest =>
      if Ascii.eqb k char then (k, v) :: rest
      else (k, w) :: freq_set rest char v
  end.

Definition count_frequencies (text : str) : list (ascii * nat) :=
  fold_left (fun freq char => freq_set freq char (freq_get freq char + 1)%nat)
    text [].

Definition calculate_entropy (text : str) : R :=
  if Py.is_empty text then 0%R
  else
    let freq := count_frequencies text in
    let text_len := Py.len text in
    fold_left
      (fun entropy count =>
         let probability := (INR count / INR text_len)%R in
         (entropy - probability * log2 probability)%R)
      (map snd freq) 0%R.

Definition extract_entropy_features `{Externals} (url : str)
  : raising (R * R * R) :=
  parsed <- Urllib.urlparse url ;;
  Return (calculate_entropy url,
          calculate_entropy (Urllib.netloc parsed),
          if negb (Py.is_empty (Urllib.path parsed))
          then calculate_entropy (Urllib.path parsed) else 0%R).

(** ** The merged dict *)

Definition extract_all_features `{Externals} (url : str) : raising Features :=
  parsed <- Urllib.urlparse url ;;
  let '(url_length, domain_length, path_length, query_length, fragment_length) :=
    extract_length_features url parsed in
  (* extract_domain_features *)
  let domain := Urllib.netloc parsed in
  let '(subdomain, domain_name, tld) := extract_tld url domain in
  let subdomain_count :=
    if negb (Py.is_empty subdomain)
    then List.length (Py.split "." subdomain) else 0%nat in
  let is_ip := Re.match_dollar dotted_quad domain in
  (* extract_path_features *)
  let path := Urllib.path parsed in
  let query := Urllib.query parsed in
  let segments := path_segments path in
  '(url_entropy, domain_entropy, path_entropy) <- extract_entropy_features url ;;
  Return
    {| url_length := url_length;
       domain_length := domain_length;
       path_length := path_length;
       query_length := query_length;
       fragment_length := fragment_length;
       (* extract_character_features *)
       digit_count := count_if Py.isdigit url;
       letter_count := count_if Py.isalpha url;
       special_char_count := count_if (fun c => negb (Py.isalnum c)) url;
       dash_count := Py.count "-" url;
       underscore_count := Py.count "_" url;
       dot_count := Py.count "." url;
       slash_count := Py.count "/" url;
       question_mark_count := Py.count "?" url;
       equal_count := Py.count "=" url;
       at_count := Py.count "@" url;
       ampersand_count := Py.count "&" url;
       percent_count := Py.count "%" url;
       uppercase_count := count_if Py.isupper url;
       digit_ratio := digit_ratio_of url;
       subdomain_count := subdomain_count;
       subdomain_length := Py.len subdomain;
       domain_name_length := Py.len domain_name;
       tld_length := Py.len tld;
       is_ip_address := flag is_ip;
       has_port := flag (Py.has_char ":" domain);
       tld_in_path :=
         flag (negb (Py.is_empty tld) && Py.contains tld (Urllib.path parsed));
       tld_in_subdomain :=
         flag (negb (Py.is_empty tld) && Py.contains tld subdomain);
       path_segment_count := List.length segments;
       query_param_count := List.length (query_params query);
       has_query := flag (negb (Py.is_empty query));
       has_fragment := flag (negb (Py.is_empty (Urllib.fragment parsed)));
       max_path_segment_length := Py.max_default0 (map Py.len segments);
       avg_path_segment_length := avg_length segments;
       (* extract_pattern_features *)
       has_double_slash_in_path := flag (Py.contains "//" (Urllib.path parsed));
       has_at_symbol := flag (Py.has_char "@" url);
       has_dash_in_domain := flag (Py.has_char "-" (Urllib.netloc parsed));
       max_consecutive_digits :=
         Py.max_default0 (run_lengths Py.ascii_digit url);
       max_consecutive_letters :=
         Py.max_default0 (run_lengths Py.ascii_alpha url);
       suspicious_keyword_count := keyword_count url;
       has_https := flag (Py.eqb (Urllib.scheme parsed) "https");
       url_entropy := url_entropy;
       domain_entropy := domain_entropy;
       path_entropy := path_entropy |}.

(** ** Risk indicators

    [analyze_url_features] threads [risk_score] and [risk_factors] through
    eight rules; [rule] is one [if] of the source with its two updates. *)

Definition rule (cond : bool) (points : Z) (factor : str)
  (st : Z * list str) : Z * list str :=
  if cond then (fst st + points, snd st ++ [factor]) else st.

Definition Qgtb (a b : Q) : bool := negb (Qle_bool a b).

Definition Rgtb (a b : R) : bool := if Rlt_dec b a then true else false.

Definition truthy (n : nat) : bool := negb (n =? 0)%nat.

Definition risk_rules (f : Features) : Z * list str :=
  let st := (0, []) in
  let st := rule (75 <? url_length f)%nat 10 "Unusually long URL" st in
  let st := rule (truthy (is_ip_address f)) 20
              "Uses IP address instead of domain name" st in
  let st := rule (truthy (has_at_symbol f)) 25
              "Contains @ symbol (possible redirect)" st in
  let st := rule (3 <? subdomain_count f)%nat 15 "Excessive subdomains" st in
  let st := rule (2 <? suspicious_keyword_count f)%nat 15
              "Contains multiple suspicious keywords" st in
  let st := rule (Qgtb (digit_ratio f) (3 # 10)) 10
              "High proportion of digits" st in
  let st := rule (negb (truthy (has_https f))) 5 "Not using HTTPS" st in
  let st := rule (Rgtb (url_entropy f) 5) 10
              "High entropy (random-looking URL)" st in
  st.

(** [len(features)]: the number of keys of the merged dict *)
Definition number_of_features : Z := 43.

Definition analyze_url_features `{Externals} (url : str) : raising FeatureResults :=
  features <- extract_all_features url ;;
  let '(risk_score, risk_factors) := risk_rules features in
  Return {| features := Some features;
            feature_risk_score := Some (inject_Z (Z.min risk_score 100));
            risk_factors := Some risk_factors;
            total_features := Some number_of_features |}.

End UrlFeatures.

(** ** [app/services/api_checker.py] *)

Module ApiChecker.

(** The dict a provider check returns, with the keys the summary and the
    scorer read.  [threat_type] may be present and hold [None]. *)
Record ProviderResult : Type := {
  available : option bool;
  safe : option bool;
  threats : option (list str);
  malicious_count : option Z;
  threat_type : option (option str);
  error : option str
}.

(** [{}] *)
Definition empty_result : ProviderResult :=
  {| available := None; safe := None; threats := None;
     malicious_count := None; threat_type := None; error := None |}.

Record Summary : Type := {
  total_apis_checked : Z;
  apis_flagged_malicious : Z;
  apis_marked_safe : Z;
  apis_unavailable : Z;
  threat_indicators : list str;
  overall_assessment : str
}.

(** The dict returned by [check_all_apis]. *)
Record ApiResults : Type := {
  google_safe_browsing : option ProviderResult;
  virustotal : option ProviderResult;
  urlhaus : option ProviderResult;
  summary : option Summary
}.

(** What [asyncio.gather(..., return_exceptions=True)] holds for one task. *)
Inductive settled : Type :=
| Result (r : ProviderResult)
| Exception (msg : str).

(** [r if not isinstance(r, Exception) else {"error": str(r)}] *)
Definition unwrap (t : settled) : ProviderResult :=
  match t with
  | Result r => r
  | Exception msg =>
      {| available := None; safe := None; threats := None;
         malicious_count := None; threat_type := None; error := Some msg |}
  end.

(** [d.get("available")] as a condition, and [d.get("safe", True)] *)
Definition is_available (r : ProviderResult) : bool :=
  match available r with Some b => b | None => false end.
Definition is_safe (r : ProviderResult) : bool :=
  match safe r with Some b => b | None => true end.

(** The counters of [_generate_summary]. *)
Record counters : Type := {
  total_apis : Z;
  apis_flagged : Z;
  apis_safe : Z;
  unavailable : Z;
  indicators : list str
}.

(** One of the three blocks of [_generate_summary]; [describe] builds the
    indicator the block appends. *)
Definition tally (r : ProviderResult) (describe : ProviderResult -> str)
  (c : counters) : counters :=
  if is_available r then
    let total := total_apis c + 1 in
    if negb (is_safe r) then
      {| total_apis := total;
         apis_flagged := apis_flagged c + 1;
         apis_safe := apis_safe c;
         unavailable := unavailable c;
         indicators := indicators c ++ [describe r] |}
    else
      {| total_apis := total;
         apis_flagged := apis_flagged c;
         apis_safe := apis_safe c + 1;
         unavailable := unavailable c;
         indicators := indicators c |}
  else
    {| total_apis := total_apis c;
       apis_flagged := apis_flagged c;
       apis_safe := apis_safe c;
       unavailable := unavailable c + 1;
       indicators := indicators c |}.

(** The threats are strings here; on a threat that is not a string the
    [join] of the source raises [TypeError]. *)
Definition describe_google (gsb : ProviderResult) : str :=
  "Google: " ++ Py.join ", " (match threats gsb with Some l => l | None => [] end).

Definition describe_virustotal (vt : ProviderResult) : str :=
  "VirusTotal: "
  ++ Py.str_of_int (match malicious_count vt with Some n => n | None => 0 end)
  ++ " vendors flagged".

Definition describe_urlhaus (uh : ProviderResult) : str :=
  "URLhaus: "
  ++ match threat_type uh with
     | Some (Some t) => t
     | Some None => "None" : str
     | None => "unknown" : str
     end.

Definition provider (r : option ProviderResult) : ProviderResult :=
  match r with Some d => d | None => empty_result end.

Definition _generate_summary (results : ApiResults) : Summary :=
  let c := {| total_apis := 0; apis_flagged := 0; apis_safe := 0;
              unavailable := 0; indicators := [] |} in
  let c := tally (provider (google_safe_browsing results)) describe_google c in
  let c := tally (provider (virustotal results)) describe_virustotal c in
  let c := tally (provider (urlhaus results)) describe_urlhaus c in
  {| total_apis_checked := total_apis c;
     apis_flagged_malicious := apis_flagged c;
     apis_marked_safe := apis_safe c;
     apis_unavailable := unavailable c;
     threat_indicators := indicators c;
     overall_assessment :=
       if 0 <? apis_flagged c then "MALICIOUS" : str else "SAFE" : str |}.

(** [check_all_apis], given what the three tasks settled to. *)
Definition check_all_apis (tasks : settled * settled * settled) : ApiResults :=
  let '(t0, t1, t2) := tasks in
  let results :=
    {| google_safe_browsing := Some (unwrap t0);
       virustotal := Some (unwrap t1);
       urlhaus := Some (unwrap t2);
       summary := None |} in
  {| google_safe_browsing := google_safe_browsing results;
     virustotal := virustotal results;
     urlhaus := urlhaus results;
     summary := Some (_generate_summary results) |}.

End ApiChecker.

(** ** [app/services/scorer.py] *)

Module Scorer.

Import ApiChecker UrlFeatures.

Definition SAFE_THRESHOLD : Q := 30.
Definition SUSPICIOUS_THRESHOLD : Q := 70.

(** [WEIGHTS] *)
Definition WEIGHTS_api_score : Q := 70 # 100.
Definition WEIGHTS_feature_score : Q := 30 # 100.

(** Rounding to the nearest integer, ties to the even one. *)
Definition round_half_even (q : Q) : Z :=
  let n := Qnum q in
  let d := Z.pos (Qden q) in
  let fl := n / d in
  match (2 * (n mod d)) ?= d with
  | Lt => fl
  | Gt => fl + 1
  | Eq => if Z.even fl then fl else fl + 1
  end.

(** [round(q, ndigits)] *)
Definition round (q : Q) (ndigits : nat) : Q :=
  (inject_Z (round_half_even (q * inject_Z (10 ^ Z.of_nat ndigits)))
   / inject_Z (10 ^ Z.of_nat ndigits))%Q.

(** [round(x, 2)] on a real: the same rule, on [R]. *)
Definition Rround_half_even (x : R) : Z :=
  let fl := Int_part x in
  let d := (x - IZR fl)%R in
  if Rlt_dec d (1 / 2) then fl
  else if Rlt_dec (1 / 2) d then fl + 1
  else if Z.even fl then fl else fl + 1.

Definition Rround2 (x : R) : R := (IZR (Rround_half_even (x * 100)) / 100)%R.

(** [min(a, b)] *)
Definition min (a b : Q) : Q := if Qle_bool a b then a else b.

Record ScoreBreakdown : Type := {
  api_contribution : Q;
  feature_contribution : Q
}.

(** The dict returned by [calculate_risk_score]. *)
Record RiskScore : Type := {
  final_score : Q;
  risk_level : str;
  api_score : Q;
  feature_score : Q;
  score_breakdown : ScoreBreakdown;
  threat_indicators : list str;
  recommendations : list str;
  confidence : str
}.

(** [api_results.get('summary', {})] and the two counts read from it *)
Definition apis_checked_of (api_results : ApiResults) : Z :=
  match summary api_results with
  | Some s => total_apis_checked s
  | None => 0
  end.

Definition apis_flagged_of (api_results : ApiResults) : Z :=
  match summary api_results with
  | Some s => apis_flagged_malicious s
  | None => 0
  end.

Definition _calculate_api_score (api_results : ApiResults) : Q :=
  let apis_checked := apis_checked_of api_results in
  let apis_flagged := apis_flagged_of api_results in
  if apis_checked =? 0 then 50%Q
  else
    let flagged_ratio := (inject_Z apis_flagged / inject_Z apis_checked)%Q in
    let api_score := (flagged_ratio * 100)%Q in
    if 1 <? apis_flagged
    then min (api_score + inject_Z ((apis_flagged - 1) * 10))%Q 100%Q
    else api_score.

Definition _determine_risk_level (score : Q) : str :=
  if Qle_bool score SAFE_THRESHOLD then "SAFE"
  else if Qle_bool score SUSPICIOUS_THRESHOLD then "SUSPICIOUS"
  else "MALICIOUS".

Definition _collect_threat_indicators (api_results : ApiResults)
  (feature_results : FeatureResults) : list str :=
  let api_indicators :=
    match summary api_results with
    | Some s => ApiChecker.threat_indicators s
    | None => []
    end in
  let feature_risks :=
    match risk_factors feature_results with
    | Some l => l
    | None => []
    end in
  api_indicators ++ feature_risks.

(** The first line for MALICIOUS opens with a warning sign in the source;
    it lies outside the character range of the model and is left out. *)
Definition _generate_recommendations (risk_level : str)
  (threat_indicators : list str) : list str :=
  let recommendations :=
    if Py.eqb risk_level "SAFE" then
      [ "URL appears safe to visit" : str;
        "Standard security practices still apply" : str ]
    else if Py.eqb risk_level "SUSPICIOUS" then
      [ "Exercise caution when visiting this URL" : str;
        "Verify the website's legitimacy before entering sensitive information" : str;
        "Check for typos in the domain name" : str;
        "Look for HTTPS and valid SSL certificate" : str ]
    else
      [ "DO NOT visit this URL" : str;
        "This URL has been flagged as malicious by security services" : str;
        "Do not enter any personal or financial information" : str;
        "Report this URL if you received it in an email or message" : str ] in
  let recommendations :=
    if existsb (Py.contains "IP address") threat_indicators
    then recommendations
         ++ ["Uses IP address instead of domain - potentially suspicious" : str]
    else recommendations in
  let recommendations :=
    if existsb (Py.contains "HTTPS") threat_indicators
    then recommendations
         ++ ["Consider only visiting websites that use HTTPS" : str]
    else recommendations in
  let recommendations :=
    if existsb (fun indicator => Py.contains "redirect" (Py.lower indicator))
         threat_indicators
    then recommendations
         ++ ["URL may attempt to redirect to a different site" : str]
    else recommendations in
  recommendations.

Definition _calculate_confidence (api_results : ApiResults) : str :=
  let apis_checked := apis_checked_of api_results in
  let apis_flagged := apis_flagged_of api_results in
  if (2 <=? apis_checked)
     && ((apis_flagged =? apis_checked) || (apis_flagged =? 0))
  then "HIGH"
  else if 2 <=? apis_checked then "MEDIUM"
  else if apis_checked =? 1 then "LOW"
  else "VERY_LOW".

Definition calculate_risk_score (api_results : ApiResults)
  (feature_results : FeatureResults) : RiskScore :=
  let api_score := _calculate_api_score api_results in
  let feature_score :=
    match feature_risk_score feature_results with
    | Some x => x
    | None => 0%Q
    end in
  let final_score :=
    (api_score * WEIGHTS_api_score + feature_score * WEIGHTS_feature_score)%Q in
  let risk_level := _determine_risk_level final_score in
  let threat_indicators :=
    _collect_threat_indicators api_results feature_results in
  let recommendations :=
    _generate_recommendations risk_level threat_indicators in
  {| final_score := round final_score 2;
     risk_level := risk_level;
     api_score := round api_score 2;
     feature_score := round feature_score 2;
     score_breakdown :=
       {| api_contribution := round (api_score * WEIGHTS_api_score) 2;
          feature_contribution :=
            round (feature_score * WEIGHTS_feature_score) 2 |};
     threat_indicators := threat_indicators;
     recommendations := recommendations;
     confidence := _calculate_confidence api_results |}.

(** The dict of [_format_api_result]. *)
Inductive FormattedResult : Type :=
| Unavailable (message : str)
| Checked (safe : bool) (details : ProviderResult).

Definition _format_api_result (api_result : ProviderResult) : FormattedResult :=
  if negb (is_available api_result) then
    Unavailable (match error api_result with
                 | Some e => e
                 | None => "Service unavailable" : str
                 end)
  else
    Checked (is_safe api_result)
      {| available := None;
         safe := safe api_result;
         threats := threats api_result;
         malicious_count := malicious_count api_result;
         threat_type := threat_type api_result;
         error := None |}.

Record KeyFeatures : Type := {
  key_url_length : nat;
  key_domain_length : nat;
  key_subdomain_count : nat;
  uses_https : bool;
  key_is_ip_address : bool;
  suspicious_keywords : nat;
  key_url_entropy : R
}.

Definition _extract_key_features (feature_results : FeatureResults) : KeyFeatures :=
  match features feature_results with
  | Some f =>
      {| key_url_length := url_length f;
         key_domain_length := domain_length f;
         key_subdomain_count := subdomain_count f;
         uses_https := truthy (has_https f);
         key_is_ip_address := truthy (is_ip_address f);
         suspicious_keywords := suspicious_keyword_count f;
         key_url_entropy := Rround2 (url_entropy f) |}
  | None =>
      {| key_url_length := 0; key_domain_length := 0;
         key_subdomain_count := 0; uses_https := false;
         key_is_ip_address := false; suspicious_keywords := 0;
         key_url_entropy := Rround2 0 |}
  end.

(** The report of [get_detailed_analysis], its nested dicts flattened. *)
Record Analysis : Type := {
  url : str;
  risk_assessment_score : Q;
  risk_assessment_level : str;
  risk_assessment_confidence : str;
  score_details_api_score : Q;
  score_details_feature_score : Q;
  score_details_breakdown : ScoreBreakdown;
  threats_count : nat;
  threats_indicators : list str;
  api_checks_google_safe_browsing : FormattedResult;
  api_checks_virustotal : FormattedResult;
  api_checks_urlhaus : FormattedResult;
  api_checks_summary : option Summary;
  features_analyzed : Z;
  key_features : KeyFeatures;
  url_analysis_risk_factors : list str;
  analysis_recommendations : list str
}.

Definition get_detailed_analysis (url : str) (api_results : ApiResults)
  (feature_results : FeatureResults) (risk_score : RiskScore) : Analysis :=
  {| url := url;
     risk_assessment_score := final_score risk_score;
     risk_assessment_level := risk_level risk_score;
     risk_assessment_confidence := confidence risk_score;
     score_details_api_score := api_score risk_score;
     score_details_feature_score := feature_score risk_score;
     score_details_breakdown := score_breakdown risk_score;
     threats_count := List.length (threat_indicators risk_score);
     threats_indicators := threat_indicators risk_score;
     api_checks_google_safe_browsing :=
       _format_api_result (provider (google_safe_browsing api_results));
     api_checks_virustotal :=
       _format_api_result (provider (virustotal api_results));
     api_checks_urlhaus :=
       _format_api_result (provider (urlhaus api_results));
     api_checks_summary := summary api_results;
     features_analyzed :=
       match total_features feature_results with Some n => n | None => 0 end;
     key_features := _extract_key_features feature_results;
     url_analysis_risk_factors :=
       match risk_factors feature_results with Some l => l | None => [] end;
     analysis_recommendations := recommendations risk_score |}.

Definition get_complete_analysis (url : str) (api_results : ApiResults)
  (feature_results : FeatureResults) : Analysis :=
  let risk_score := calculate_risk_score api_results feature_results in
  get_detailed_analysis url api_results feature_results risk_score.

End Scorer.

(** ** The [/scan] route of [app/main.py]

  The three provider checks are answered by [net], which gives for a URL
  what the three tasks settle to.  The route returns, with its response, the
  calls it made to the aggregator, the feature extractor and the scorer, in
  order. *)

Module Main.

Inductive call : Type :=
| check_all_apis (url : str)
| analyze_url_features (url : str)
| get_complete_analysis (url : str).

Inductive response : Type :=
| Error (error : str)
| Report (complete_analysis : Scorer.Analysis)
| Unhandled (exception : str).

Definition network : Type :=
  str -> ApiChecker.settled * ApiChecker.settled * ApiChecker.settled.

Definition scan_url `{Externals} (net : network) (request_url : str)
  : list call * response :=
  let '(is_valid, normalized_url, error) := Validators.validate_url request_url in
  if negb is_valid then ([], Error error)
  else
    let api_results := ApiChecker.check_all_apis (net normalized_url) in
    match UrlFeatures.analyze_url_features normalized_url with
    | Raise e =>
        ([check_all_apis normalized_url; analyze_url_features normalized_url],
         Unhandled e)
    | Return feature_results =>
        ([check_all_apis normalized_url; analyze_url_features normalized_url;
          get_complete_analysis normalized_url],
         Report (Scorer.get_complete_analysis normalized_url api_results
                   feature_results))
    end.

End Main.

(** ** The properties the pipeline is specified by *)

Module Spec.

Definition Rsum (xs : list R) : R := fold_right Rplus 0%R xs.

(** Share of the positions of [text] that hold [c]. *)
Definition probability (text : str) (c : ascii) : R :=
  (INR (count_occ ascii_dec text c) / INR (Py.len text))%R.

(** Shannon entropy in base 2 of the distribution of the characters of
    [text]: minus the sum, over the distinct characters [c], of
    [p(c) * log2 p(c)].  The sum is empty for the empty string. *)
Definition shannon_entropy (text : str) : R :=
  (- Rsum (map (fun c => probability text c * UrlFeatures.log2 (probability text c))
             (nodup ascii_dec text)))%R.

(** A number with at most two decimals. *)
Definition two_decimals (x : R) : Prop := exists k : Z, x = (IZR k / 100)%R.

(** A string made of whitespace only (the empty one included). *)
Definition whitespace_only (s : str) : Prop := Forall (fun c => Py.isspace c = true) s.

(** The order SAFE < SUSPICIOUS < MALICIOUS of the risk levels. *)
Definition at_least_suspicious (level : str) : Prop :=
  level = ("SUSPICIOUS" : str) \/ level = ("MALICIOUS" : str).

(** Number of the three provider results that satisfy [p]. *)
Definition providers_where (p : ApiChecker.ProviderResult -> bool)
  (results : ApiChecker.ApiResults) : Z :=
  Z.of_nat
    (List.length
       (filter p
          [ ApiChecker.provider (ApiChecker.google_safe_browsing results);
            ApiChecker.provider (ApiChecker.virustotal results);
            ApiChecker.provider (ApiChecker.urlhaus results) ])).

(** The part of the fusion that decides score and level, as a function of
the two counts of the summary and of an integral feature score. *)
Definition api_score_of_counts (checked flagged : Z) : Q :=
  if checked =? 0 then 50%Q
  else if 1 <? flagged
       then Scorer.min (inject_Z flagged / inject_Z checked * 100
                        + inject_Z ((flagged - 1) * 10))%Q 100%Q
       else (inject_Z flagged / inject_Z checked * 100)%Q.

Definition fused_score (checked flagged feature : Z) : Q :=
  (api_score_of_counts checked flagged * Scorer.WEIGHTS_api_score
   + inject_Z feature * Scorer.WEIGHTS_feature_score)%Q.

(** The reported score is within 0 and 100 and reads to the level that the
score before rounding reads to. *)
Definition level_survives_rounding (checked flagged feature : Z) : bool :=
  let raw := fused_score checked flagged feature in
  let shown := Scorer.round raw 2 in
  Qle_bool 0 shown && Qle_bool shown 100
  && Py.eqb (Scorer._determine_risk_level raw) (Scorer._determine_risk_level shown).

(** The counts (checked, flagged) a summary of three providers can hold, and
the feature scores from 0 to 100. *)
Definition reachable_counts : list (Z * Z) :=
  [ (0, 0); (1, 0); (1, 1); (2, 0); (2, 1); (2, 2);
    (3, 0); (3, 1); (3, 2); (3, 3) ].

Definition feature_scores : list Z := map Z.of_nat (seq 0 101).

(** The returned URL parses with scheme and host in lower case. *)
Definition scheme_and_host_lower_cased `{Externals} (u : str) : Prop :=
  exists parsed,
    Urllib.urlparse u = Return parsed
    /\ Urllib.scheme parsed = Py.lower (Urllib.scheme parsed)
    /\ Urllib.netloc parsed = Py.lower (Urllib.netloc parsed).

(** The error message of the scheme check of [validate_url]. *)
Definition unsupported_scheme : str := "URL must use http or https protocol".

(** The error message for an empty input. *)
Definition empty_input : str := "URL cannot be empty".

(** The URL of the scenario with an IP host and three suspicious keywords,
and the two risk factors it must show. *)
Definition ip_login_url : str := "http://192.168.1.1/login/verify/secure".

Definition ip_factor : str := "Uses IP address instead of domain name".

Definition keywords_factor : str := "Contains multiple suspicious keywords".

(** With a feature score of at least 35, the level is SAFE when some provider
was checked and none flagged, and SUSPICIOUS or MALICIOUS otherwise. *)
Definition level_with_ip_and_keywords (checked flagged feature : Z) : bool :=
  let level := Scorer._determine_risk_level (fused_score checked flagged feature) in
  if (0 <? checked) && (flagged =? 0)
  then Py.eqb level "SAFE"
  else Py.eqb level "SUSPICIOUS" || Py.eqb level "MALICIOUS".

End Spec.

(** ** An environment for the worked examples

  [tldextract] is replaced by a splitter that knows no public suffix: an
  IPv4 host is the domain as a whole, as in the package, and otherwise the
  last label is the domain and the labels before it the subdomain.
  [ipaddress.ip_address] rejects its argument; the examples have no
  bracketed host. *)

Module Sample.

Definition host_of (url : str) : str :=
  let rest :=
    if Py.startswith "https://" url then skipn 8 url
    else if Py.startswith "http://" url then skipn 7 url
    else url in
  let hostport := Py.rpartition_last "@" (fst (Urllib._splitnetloc rest 0)) in
  let '(host, _, _) := Py.partition ":" hostport in
  host.

Definition extract (url : str) : raising Tldextract.ExtractResult :=
  let host := host_of url in
  if Re.match_dollar UrlFeatures.dotted_quad host then
    Return {| Tldextract.subdomain := []; Tldextract.domain := host;
              Tldextract.suffix := [] |}
  else
    let labels := Py.split "." host in
    Return {| Tldextract.subdomain := Py.join "." (removelast labels);
              Tldextract.domain := last labels [];
              Tldextract.suffix := [] |}.

Definition externals : Externals :=
  {| tldextract_extract := extract;
     ipaddress_ip_address :=
       fun _ => Raise "does not appear to be an IPv4 or IPv6 address" |}.

Definition answer (available safe : bool) : ApiChecker.ProviderResult :=
  {| ApiChecker.available := Some available;
     ApiChecker.safe := if available then Some safe else None;
     ApiChecker.threats := None;
     ApiChecker.malicious_count := None;
     ApiChecker.threat_type := None;
     ApiChecker.error :=
       if available then None else Some ("API key not configured" : str) |}.

(** Neither keyed provider is configured and URLhaus finds nothing. *)
Definition only_urlhaus_safe : Main.network :=
  fun _ => (ApiChecker.Result (answer false false),
            ApiChecker.Result (answer false false),
            ApiChecker.Result (answer true true)).

End Sample.

(** ** The language of a regular expression *)

Module ReLang.

(** [lang r s]: the string [s] is in the language of [r]. *)
Inductive lang : Re.re -> str -> Prop :=
| lang_eps : lang Re.Eps []
| lang_cls (p : ascii -> bool) (c : ascii) : p c = true -> lang (Re.Cls p) [c]
| lang_cat (r1 r2 : Re.re) (s1 s2 : str) :
    lang r1 s1 -> lang r2 s2 -> lang (Re.Cat r1 r2) (s1 ++ s2)
| lang_alt_l (r1 r2 : Re.re) (s : str) : lang r1 s -> lang (Re.Alt r1 r2) s
| lang_alt_r (r1 r2 : Re.re) (s : str) : lang r2 s -> lang (Re.Alt r1 r2) s
| lang_star_nil (r : Re.re) : lang (Re.Star r) []
| lang_star_app (r : Re.re) (s1 s2 : str) :
    lang r s1 -> lang (Re.Star r) s2 -> lang (Re.Star r) (s1 ++ s2).

(** Some character class of [r] accepts [c]. *)
Fixpoint uses (r : Re.re) (c : ascii) : bool :=
  match r with
  | Re.Void => false
  | Re.Eps => false
  | Re.Cls p => p c
  | Re.Cat r1 r2 => uses r1 c || uses r2 c
  | Re.Alt r1 r2 => uses r1 c || uses r2 c
  | Re.Star r1 => uses r1 c
  end.

End ReLang.


(** ** The other functions of [app/utils/validators.py] *)

Module ValidatorsRest.

(** [extract_domain]: the netloc without its port, [None] when the URL does
    not parse or has no netloc. *)
Definition extract_domain `{Externals} (url : str) : option str :=
  match Urllib.urlparse url with
  | Raise _ => None
  | Return parsed =>
      let domain := Urllib.netloc parsed in
      let domain :=
        if Py.has_char ":" domain then hd [] (Py.split ":" domain) else domain in
      if negb (Py.is_empty domain) then Some domain else None
  end.

(** The dict of [get_url_components]. *)
Record UrlComponents : Type := {
  scheme : str;
  domain : str;
  path : str;
  params : str;
  query : str;
  fragment : str;
  full_url : str
}.

(** [get_url_components]: [None] stands for the empty dict returned when
    parsing raises. *)
Definition get_url_components `{Externals} (url : str) : option UrlComponents :=
  match Urllib.urlparse url with
  | Return parsed =>
      Some {| scheme := Urllib.scheme parsed;
              domain := Urllib.netloc parsed;
              path := Urllib.path parsed;
              params := Urllib.params parsed;
              query := Urllib.query parsed;
              fragment := Urllib.fragment parsed;
              full_url := url |}
  | Raise _ => None
  end.

End ValidatorsRest.

(** ** Notions the further properties are stated with *)

Module Props.

(** What [is_valid_domain] keeps of its argument: the text before the first
    colon. *)
Definition before_port (domain : str) : str :=
  if Py.has_char ":" domain then hd [] (Py.split ":" domain) else domain.

(** An ASCII letter, a digit, a hyphen or a dot. *)
Definition host_char (c : ascii) : bool :=
  Py.ascii_alpha c || Py.ascii_digit c || Py.is_code 45 c || Py.is_code 46 c.

Definition newline (c : ascii) : bool := Py.is_code 10 c.

(** The four errors [validate_url] can answer with. *)
Definition validation_error (msg : str) : Prop :=
  msg = Spec.empty_input
  \/ (exists e, msg = "Invalid URL format: " ++ e)
  \/ msg = ("URL must contain a valid domain" : str)
  \/ msg = ("Invalid domain format" : str).

End Props.


(** ** Counting characters by weight *)

Module Weights.

(** The number of characters of [s], each counted [w c] times. *)
Definition total (w : ascii -> nat) (s : str) : nat := list_sum (map w s).

Definition one_if (b : bool) : nat := if b then 1%nat else 0%nat.

(** The nine punctuation characters [extract_character_features] counts one
    by one. *)
Definition counted_punctuation : str := "-_./?=@&%".

End Weights.


(** ** The risk rules, one by one *)

Module Rules.

Import UrlFeatures.

(** The eight rules of [analyze_url_features] in the order of the source:
    whether the rule fires on the features, its points and its factor. *)
Definition fired (f : Features) : list (bool * Z * str) :=
  [ ((75 <? url_length f)%nat, 10, "Unusually long URL" : str);
    (truthy (is_ip_address f), 20, "Uses IP address instead of domain name" : str);
    (truthy (has_at_symbol f), 25, "Contains @ symbol (possible redirect)" : str);
    ((3 <? subdomain_count f)%nat, 15, "Excessive subdomains" : str);
    ((2 <? suspicious_keyword_count f)%nat, 15,
     "Contains multiple suspicious keywords" : str);
    (Qgtb (digit_ratio f) (3 # 10), 10, "High proportion of digits" : str);
    (negb (truthy (has_https f)), 5, "Not using HTTPS" : str);
    (Rgtb (url_entropy f) 5, 10, "High entropy (random-looking URL)" : str) ].

(** One [if] of the source applied to the running score and factors. *)
Definition apply_rule (st : Z * list str) (r : bool * Z * str) : Z * list str :=
  rule (fst (fst r)) (snd (fst r)) (snd r) st.

(** The points and the factors of the rules that fire. *)
Definition points_of (rs : list (bool * Z * str)) : Z :=
  fold_right (fun (r : bool * Z * str) acc =>
                (if fst (fst r) then snd (fst r) else 0) + acc) 0 rs.

Definition factors_of (rs : list (bool * Z * str)) : list str :=
  map snd (filter (fun r : bool * Z * str => fst (fst r)) rs).

Definition https_factor : str := "Not using HTTPS".
Definition entropy_factor : str := "High entropy (random-looking URL)".
Definition https_recommendation : str :=
  "Consider only visiting websites that use HTTPS".

End Rules.


(** ** The three provider checks of [app/services/api_checker.py]

  The HTTP calls are answered by an oracle.  A call either raises inside the
  [try] of the check or gives a response; opening the session is part of the
  first call.  The JSON bodies have the shape the checks read them with; the
  four counts of a VirusTotal analysis, on which the check computes, can be
  any JSON value but a number with a fraction or a boolean.  The dicts
  returned are kept with the keys the summary and the scorer read. *)

Module Providers.

Import ApiChecker.

(** What the [except] clauses tell apart: [asyncio.TimeoutError], and any
    other [Exception] with its [str()]. *)
Inductive exn : Type :=
| TimeoutError
| OtherException (message : str).

(** What awaiting gives. *)
Inductive attempt (A : Type) : Type :=
| Raised (e : exn)
| Got (a : A).

Arguments Raised {A} e.
Arguments Got {A} a.

Definition await {A B : Type} (m : attempt A) (k : A -> attempt B) : attempt B :=
  match m with
  | Raised e => Raised e
  | Got a => k a
  end.

Record response (J : Type) : Type := {
  status : Z;
  json : attempt J;
  text : attempt str
}.

Arguments status {J} _.
Arguments json {J} _.
Arguments text {J} _.

(** One entry of ["matches"] in the answer of Google Safe Browsing:
    [threatType] is the string under that key, [None] when the key is absent.
    An entry whose [threatType] is not a string is left out: the check stores
    the value as it is, and the [join] of [_generate_summary] raises on it. *)
Record google_match : Type := {
  threatType : option str
}.

(** The answer of Google Safe Browsing: the array under ["matches"], [None]
    when the key is absent. *)
Record google_body : Type := {
  matches : option (list google_match)
}.

(** [data.get("data", {}).get("id")] of the answer to the submission: [None]
    for an absent key or [null]. *)
Record virustotal_submission : Type := {
  analysis_id : option str
}.

(** A JSON value read as one of the four counts of an analysis: an integer,
    [null], a string, an array or an object.  What a string, an array or an
    object holds does not matter to the check.  Numbers with a fraction and
    booleans are left out. *)
Inductive count : Type :=
| Int (n : Z)
| Null
| Text
| Array
| Object.

(** [analysis_data.get("data", {}).get("attributes", {}).get("stats", {})];
    a field is [None] when the key is absent. *)
Record virustotal_stats : Type := {
  malicious : option count;
  suspicious : option count;
  harmless : option count;
  undetected : option count
}.

(** The answer of URLhaus: the strings under ["query_status"] and
    ["threat"], [None] for an absent key or [null]. *)
Record urlhaus_body : Type := {
  query_status : option str;
  threat : option str
}.

Record Http : Type := {
  (** [session.post(f"{google_url}?key={google_api_key}", json=payload)] *)
  post_google : str -> str -> attempt (response google_body);
  (** [session.post(virustotal_url, headers=headers, data={"url": url})] *)
  post_virustotal : str -> str -> attempt (response virustotal_submission);
  (** [session.get(analysis_url, headers=headers)] *)
  get_analysis : str -> str -> attempt (response virustotal_stats);
  (** [session.post(urlhaus_url, data=payload)] *)
  post_urlhaus : str -> attempt (response urlhaus_body)
}.

(** The keys [os.getenv] found. *)
Record APIChecker : Type := {
  google_api_key : option str;
  virustotal_api_key : option str
}.

(** [{"available": False, "error": msg}] *)
Definition unavailable (msg : str) : ProviderResult :=
  {| available := Some false;
     safe := None;
     threats := None;
     malicious_count := None;
     threat_type := None;
     error := Some msg |}.

(** [{"available": True, "safe": True}], with a note or [in_database] *)
Definition available_and_safe : ProviderResult :=
  {| available := Some true;
     safe := Some true;
     threats := None;
     malicious_count := None;
     threat_type := None;
     error := None |}.

(** The two [except] clauses of a check. *)
Definition caught (body : attempt ProviderResult) : ProviderResult :=
  match body with
  | Got r => r
  | Raised TimeoutError => unavailable "Request timed out"
  | Raised (OtherException e) => unavailable e
  end.

(** A key that is not falsy. *)
Definition configured (key : option str) : option str :=
  match key with
  | Some k => if Py.is_empty k then None else Some k
  | None => None
  end.

(** [type(v).__name__] *)
Definition type_name (v : count) : str :=
  match v with
  | Int _ => "int"
  | Null => "NoneType"
  | Text => "str"
  | Array => "list"
  | Object => "dict"
  end.

(** The double quote of the messages. *)
Definition quote : str := ["034"%char].

(** [a + b]: integers add, strings and arrays concatenate, anything else
    raises [TypeError]. *)
Definition add (a b : count) : attempt count :=
  match a, b with
  | Int x, Int y => Got (Int (x + y))
  | Text, Text => Got Text
  | Array, Array => Got Array
  | Text, _ =>
      Raised (OtherException
                ("can only concatenate str (not " ++ quote ++ type_name b
                 ++ quote ++ ") to str"))
  | Array, _ =>
      Raised (OtherException
                ("can only concatenate list (not " ++ quote ++ type_name b
                 ++ quote ++ ") to list"))
  | _, _ =>
      Raised (OtherException
                ("unsupported operand type(s) for +: '" ++ type_name a
                 ++ "' and '" ++ type_name b ++ "'"))
  end.

(** [v > 0] *)
Definition positive (v : count) : attempt bool :=
  match v with
  | Int n => Got (0 <? n)
  | _ =>
      Raised (OtherException
                ("'>' not supported between instances of '" ++ type_name v
                 ++ "' and 'int'"))
  end.

(** The least magnitude that does not round to a float: halfway between the
    largest float and [2 ** 1024]. *)
Definition float_overflow : Z := 2 ^ 1024 - 2 ^ 970.

(** [a / b]: the quotient of two integers is a float, and [OverflowError]
    when it is too large for one. *)
Definition truediv (a b : count) : attempt Q :=
  match a, b with
  | Int x, Int y =>
      if y =? 0 then Raised (OtherException "division by zero")
      else if float_overflow * Z.abs y <=? Z.abs x
      then Raised (OtherException "integer division result too large for a float")
      else Got (inject_Z x / inject_Z y)%Q
  | _, _ =>
      Raised (OtherException
                ("unsupported operand type(s) for /: '" ++ type_name a
                 ++ "' and '" ++ type_name b ++ "'"))
  end.

(** [v == 0] *)
Definition is_zero (v : count) : bool :=
  match v with
  | Int n => n =? 0
  | _ => false
  end.

(** [stats.get(key, 0)] *)
Definition read (field : option count) : count :=
  match field with
  | Some v => v
  | None => Int 0
  end.

(** The count as the dict holds it under ["malicious_count"]: an integer,
    since the dict is built once the sum of the counts did not raise. *)
Definition stored (v : count) : option Z :=
  match v with
  | Int n => Some n
  | _ => None
  end.

Definition check_google_safe_browsing (self : APIChecker) (http : Http)
  (url : str) : ProviderResult :=
  match configured (google_api_key self) with
  | None => unavailable "API key not configured"
  | Some key =>
      caught
        (await (post_google http key url) (fun response =>
         if status response =? 200 then
           await (json response) (fun data =>
           match matches data with
           | Some (m :: ms) =>
               let threat_types :=
                 map (fun m => match threatType m with
                               | Some t => t
                               | None => "UNKNOWN" : str
                               end) (m :: ms) in
               Got {| available := Some true;
                      safe := Some false;
                      threats := Some threat_types;
                      malicious_count := None;
                      threat_type := None;
                      error := None |}
           | _ =>
               Got {| available := Some true;
                      safe := Some true;
                      threats := Some [];
                      malicious_count := None;
                      threat_type := None;
                      error := None |}
           end)
         else
           await (text response) (fun error_text =>
           Got (unavailable ("API returned status "
                             ++ Py.str_of_int (status response)
                             ++ ": " ++ error_text)))))
  end.

Definition check_virustotal (self : APIChecker) (http : Http) (url : str)
  : ProviderResult :=
  match configured (virustotal_api_key self) with
  | None => unavailable "API key not configured"
  | Some key =>
      caught
        (await (post_virustotal http key url) (fun response =>
         if status response =? 200 then
           await (json response) (fun data =>
           match configured (analysis_id data) with
           | Some id =>
               await (get_analysis http key id) (fun analysis_response =>
               if status analysis_response =? 200 then
                 await (json analysis_response) (fun stats =>
                 let malicious := read (malicious stats) in
                 let suspicious := read (suspicious stats) in
                 let harmless := read (harmless stats) in
                 let undetected := read (undetected stats) in
                 await (add malicious suspicious) (fun sum =>
                 await (add sum harmless) (fun sum =>
                 await (add sum undetected) (fun total_scans =>
                 await (positive total_scans) (fun scanned =>
                 (* [round(detection_rate * 100, 2)] goes under a key that
                    nothing reads *)
                 await (if scanned
                        then await (add malicious suspicious) (fun flagged =>
                             truediv flagged total_scans)
                        else Got 0%Q) (fun detection_rate =>
                 Got {| available := Some true;
                        safe := Some (is_zero malicious && is_zero suspicious);
                        threats := None;
                        malicious_count := stored malicious;
                        threat_type := None;
                        error := None |}))))))
               else Got available_and_safe)
           | None => Got available_and_safe
           end)
         else
           await (text response) (fun error_text =>
           Got (unavailable ("API returned status "
                             ++ Py.str_of_int (status response)
                             ++ ": " ++ error_text)))))
  end.

Definition check_urlhaus (http : Http) (url : str) : ProviderResult :=
  caught
    (await (post_urlhaus http url) (fun response =>
     if status response =? 200 then
       await (json response) (fun data =>
       match query_status data with
       | Some query_status =>
           if Py.eqb query_status "ok" then
             Got {| available := Some true;
                    safe := Some false;
                    threats := None;
                    malicious_count := None;
                    threat_type := Some (threat data);
                    error := None |}
           else if Py.eqb query_status "no_results" then Got available_and_safe
           else Got available_and_safe
       | None => Got available_and_safe
       end)
     else
       Got (unavailable ("API returned status "
                         ++ Py.str_of_int (status response))))).

(** What the three tasks of [check_all_apis] settle to: the checks catch what
    is raised, so each task settles to a dict. *)
Definition tasks (self : APIChecker) (http : Http) (url : str)
  : settled * settled * settled :=
  (Result (check_google_safe_browsing self http url),
   Result (check_virustotal self http url),
   Result (check_urlhaus http url)).

Definition network (self : APIChecker) (http : Http) : Main.network :=
  tasks self http.

(** A provider flags: it is available and does not say safe. *)
Definition flags (r : ProviderResult) : bool :=
  is_available r && negb (is_safe r).

(** A dict says whether the provider is available; an available one says
    whether the URL is safe, another one carries an error. *)
Definition well_formed (r : ProviderResult) : Prop :=
  (available r = Some true /\ (exists b, safe r = Some b) /\ error r = None)
  \/ (available r = Some false /\ safe r = None
      /\ exists msg, error r = Some msg).

(** An oracle on which every request times out. *)
Definition offline : Http :=
  {| post_google := fun _ _ => Raised TimeoutError;
     post_virustotal := fun _ _ => Raised TimeoutError;
     get_analysis := fun _ _ => Raised TimeoutError;
     post_urlhaus := fun _ => Raised TimeoutError |}.

End Providers.


(** ** The fusion policy on the counts of a summary *)

Module Policy.

(** The level as a table of the counts and the feature score. *)
Definition level_table (checked flagged feature : Z) : str :=
  if checked =? 0 then "SUSPICIOUS"
  else if flagged =? 0 then "SAFE"
  else if flagged =? checked then
    if feature =? 0 then "SUSPICIOUS" else "MALICIOUS"
  else if checked =? 2 then "SUSPICIOUS"
  else if flagged =? 1 then
    if feature <=? 22 then "SAFE" else "SUSPICIOUS"
  else
    if feature <=? 54 then "SUSPICIOUS" else "MALICIOUS".

Definition level_is_tabled (checked flagged feature : Z) : bool :=
  Py.eqb
    (Scorer._determine_risk_level (Spec.fused_score checked flagged feature))
    (level_table checked flagged feature).

(** SAFE < SUSPICIOUS < MALICIOUS *)
Definition level_rank (level : str) : nat :=
  if Py.eqb level "SAFE" then 0%nat
  else if Py.eqb level "SUSPICIOUS" then 1%nat
  else 2%nat.

End Policy.

(** * Theorems *)

(** ** Rounding *)

Section Rounding.

Import Scorer.
Open Scope Q_scope.

Lemma round_half_even_near (q : Q) :
  q - (1 # 2) <= inject_Z (round_half_even q) <= q + (1 # 2).
Proof.
  destruct q as [n d]. unfold round_half_even. cbn [Qnum Qden].
  pose proof (Z.div_mod n (Z.pos d) ltac:(lia)) as Hdm.
  pose proof (Z.mod_pos_bound n (Z.pos d) ltac:(lia)) as Hb.
  set (fl := (n / Z.pos d)%Z) in *. set (r := (n mod Z.pos d)%Z) in *.
  assert (Hcases :
    forall z : Z, (2 * fl * Z.pos d <= 2 * n + Z.pos d)%Z ->
                  (2 * n - Z.pos d <= 2 * fl * Z.pos d)%Z -> z = fl ->
                  (n # d) - (1 # 2) <= inject_Z z <= (n # d) + (1 # 2)).
  { intros z H1 H2 ->. unfold Qle, Qminus, Qplus, Qopp, inject_Z.
    cbn [Qnum Qden]. split; lia. }
  assert (Hcases' :
    forall z : Z, (2 * (fl + 1) * Z.pos d <= 2 * n + Z.pos d)%Z ->
                  z = (fl + 1)%Z ->
                  (n # d) - (1 # 2) <= inject_Z z <= (n # d) + (1 # 2)).
  { intros z H1 ->. unfold Qle, Qminus, Qplus, Qopp, inject_Z.
    cbn [Qnum Qden]. split; lia. }
  destruct (Z.compare_spec (2 * r) (Z.pos d)) as [He | Hl | Hg].
  - destruct (Z.even fl).
    + apply Hcases; [lia | lia | reflexivity].
    + apply Hcases'; [lia | reflexivity].
  - apply Hcases; [lia | lia | reflexivity].
  - apply Hcases'; [lia | reflexivity].
Qed.

Lemma round2_near (q : Q) :
  q - (1 # 200) <= round q 2 <= q + (1 # 200).
Proof.
  unfold round. change (inject_Z (10 ^ Z.of_nat 2)) with 100.
  pose proof (round_half_even_near (q * 100)) as [H1 H2].
  set (z := inject_Z (round_half_even (q * 100))) in *.
  split.
  - apply Qle_shift_div_l; [reflexivity | lra].
  - apply Qle_shift_div_r; [reflexivity | lra].
Qed.

End Rounding.

(** ** The API score *)

Section ApiScore.

Import ApiChecker Scorer.
Open Scope Q_scope.

Lemma min_spec (a b : Q) : min a b == Qminmax.Qmin a b.
Proof.
  unfold min. destruct (Qle_bool a b) eqn:Hab.
  - apply Qle_bool_iff in Hab. symmetry. apply Qminmax.Q.min_l. exact Hab.
  - assert (Hlt : b < a).
    { apply Qnot_le_lt. intro Hle. apply Qle_bool_iff in Hle. congruence. }
    symmetry. apply Qminmax.Q.min_r. apply Qlt_le_weak. exact Hlt.
Qed.

Lemma min_le_r (a b : Q) : min a b <= b.
Proof. rewrite min_spec. apply Qminmax.Q.le_min_r. Qed.

Lemma min_le_l (a b : Q) : min a b <= a.
Proof. rewrite min_spec. apply Qminmax.Q.le_min_l. Qed.

Lemma min_glb (a b c : Q) : c <= a -> c <= b -> c <= min a b.
Proof. intros. rewrite min_spec. apply Qminmax.Q.min_glb; assumption. Qed.

(** The share of flagging providers, as a percentage, grows with the
    number of flags. *)
Lemma percentage_monotone (f1 f2 c : Z) :
  (1 <= c)%Z -> (f1 <= f2)%Z ->
  inject_Z f1 / inject_Z c * 100 <= inject_Z f2 / inject_Z c * 100.
Proof.
  intros Hc Hf.
  apply Qmult_le_compat_r; [ | discriminate ].
  apply Qmult_le_compat_r.
  - rewrite <- Zle_Qle. exact Hf.
  - apply Qinv_le_0_compat. change 0 with (inject_Z 0).
    rewrite <- Zle_Qle. lia.
Qed.

Lemma percentage_at_most_100 (f c : Z) :
  (1 <= c)%Z -> (f <= c)%Z -> inject_Z f / inject_Z c * 100 <= 100.
Proof.
  intros Hc Hf.
  assert (Hcpos : 0 < inject_Z c).
  { change 0 with (inject_Z 0). rewrite <- Zlt_Qlt. lia. }
  assert (Hle : inject_Z f / inject_Z c <= 1).
  { apply Qle_shift_div_r; [exact Hcpos | ].
    rewrite Qmult_1_l. rewrite <- Zle_Qle. exact Hf. }
  lra.
Qed.

Lemma percentage_nonneg (f c : Z) :
  (1 <= c)%Z -> (0 <= f)%Z -> 0 <= inject_Z f / inject_Z c * 100.
Proof.
  intros Hc Hf.
  assert (H0 : inject_Z 0 / inject_Z c * 100 <= inject_Z f / inject_Z c * 100)
    by (apply percentage_monotone; lia).
  assert (Hz : inject_Z 0 / inject_Z c * 100 == 0).
  { unfold Qdiv. change (inject_Z 0) with 0. ring. }
  rewrite Hz in H0. exact H0.
Qed.

Lemma api_score_of_summary (r : ApiResults) (s : Summary) :
  summary r = Some s ->
  _calculate_api_score r =
    if (total_apis_checked s =? 0)%Z then 50
    else if (1 <? apis_flagged_malicious s)%Z
         then min (inject_Z (apis_flagged_malicious s)
                     / inject_Z (total_apis_checked s) * 100
                   + inject_Z ((apis_flagged_malicious s - 1) * 10)) 100
         else inject_Z (apis_flagged_malicious s)
                / inject_Z (total_apis_checked s) * 100.
Proof.
  intros Hs. unfold _calculate_api_score, apis_checked_of, apis_flagged_of.
  rewrite Hs. reflexivity.
Qed.

(** C3: for every summary, the API score is 50 when no provider was
    checked; otherwise it is the percentage of flagging providers, and with
    more than one flag the percentage plus ten points per flag after the
    first, capped at 100.  With two providers checked and both flagging it is
    100. *)
Theorem api_score_formula (r : ApiResults) (s : Summary) :
  summary r = Some s ->
  let checked := total_apis_checked s in
  let flagged := apis_flagged_malicious s in
  (checked = 0%Z -> _calculate_api_score r == 50)
  /\ (checked <> 0%Z -> (flagged <= 1)%Z ->
      _calculate_api_score r == inject_Z flagged / inject_Z checked * 100)
  /\ (checked <> 0%Z -> (1 < flagged)%Z ->
      _calculate_api_score r ==
        Qminmax.Qmin
          (inject_Z flagged / inject_Z checked * 100
           + (inject_Z flagged - 1) * 10)
          100)
  /\ (checked = 2%Z -> flagged = 2%Z -> _calculate_api_score r == 100).
Proof.
  intros Hs checked flagged. subst checked flagged.
  rewrite (api_score_of_summary r s Hs).
  repeat split.
  - intros H0. rewrite H0. reflexivity.
  - intros Hc Hf.
    destruct (Z.eqb_spec (total_apis_checked s) 0) as [E | _]; [contradiction | ].
    destruct (Z.ltb_spec 1 (apis_flagged_malicious s)) as [L | _]; [lia | ].
    reflexivity.
  - intros Hc Hf.
    destruct (Z.eqb_spec (total_apis_checked s) 0) as [E | _]; [contradiction | ].
    destruct (Z.ltb_spec 1 (apis_flagged_malicious s)) as [_ | L]; [ | lia].
    rewrite min_spec.
    apply Qminmax.Q.min_compat; [ | reflexivity ].
    apply Qplus_comp; [reflexivity | ].
    rewrite inject_Z_mult. unfold Z.sub. rewrite inject_Z_plus. reflexivity.
  - intros Hc Hf. rewrite Hc, Hf. reflexivity.
Qed.

(** Two providers flag the URL and the third is unavailable: the score is 100. *)
Lemma api_score_formula_witness :
  let r := check_all_apis (Result (Sample.answer true false),
                           Result (Sample.answer true false),
                           Result (Sample.answer false false)) in
  _calculate_api_score r == 100.
Proof.
  intros r.
  exact (proj2 (proj2 (proj2
           (api_score_formula r (_generate_summary r) eq_refl)))
           eq_refl eq_refl).
Defined.

(** C8: with the number of providers checked fixed and at least one, more
    flags never give a lower API score. *)
Theorem api_score_monotone (r1 r2 : ApiResults) (s1 s2 : Summary) :
  summary r1 = Some s1 -> summary r2 = Some s2 ->
  total_apis_checked s1 = total_apis_checked s2 ->
  (1 <= total_apis_checked s1)%Z ->
  (0 <= apis_flagged_malicious s1)%Z ->
  (apis_flagged_malicious s1 <= apis_flagged_malicious s2)%Z ->
  (apis_flagged_malicious s2 <= total_apis_checked s1)%Z ->
  _calculate_api_score r1 <= _calculate_api_score r2.
Proof.
  intros H1 H2 Hc Hpos Hf0 Hf12 Hf2.
  rewrite (api_score_of_summary r1 s1 H1), (api_score_of_summary r2 s2 H2).
  rewrite <- Hc.
  set (c := total_apis_checked s1) in *.
  set (f1 := apis_flagged_malicious s1) in *.
  set (f2 := apis_flagged_malicious s2) in *.
  destruct (Z.eqb_spec c 0) as [E | _]; [lia | ].
  pose proof (percentage_monotone f1 f2 c Hpos Hf12) as Hmono.
  pose proof (percentage_at_most_100 f1 c Hpos ltac:(lia)) as Hcap.
  assert (Hboost1 : 0 <= inject_Z ((f1 - 1) * 10) \/ (f1 <= 1)%Z).
  { destruct (Z.le_gt_cases f1 1) as [L | G]; [right; exact L | left].
    change 0 with (inject_Z 0). rewrite <- Zle_Qle. lia. }
  assert (Hboost : (1 < f1)%Z ->
                   inject_Z ((f1 - 1) * 10) <= inject_Z ((f2 - 1) * 10)).
  { intros _. rewrite <- Zle_Qle. lia. }
  destruct (Z.ltb_spec 1 f1) as [L1 | L1];
    destruct (Z.ltb_spec 1 f2) as [L2 | L2]; try lia.
  - apply min_glb.
    + eapply Qle_trans; [apply min_le_l | ].
      specialize (Hboost L1). lra.
    + apply min_le_r.
  - apply min_glb; [ | exact Hcap ].
    assert (0 <= inject_Z ((f2 - 1) * 10)).
    { change 0 with (inject_Z 0). rewrite <- Zle_Qle. lia. }
    lra.
  - exact Hmono.
Qed.

(** With three providers checked, two flags score no less than one. *)
Lemma api_score_monotone_witness :
  let one := check_all_apis (Result (Sample.answer true false),
                             Result (Sample.answer true true),
                             Result (Sample.answer true true)) in
  let two := check_all_apis (Result (Sample.answer true false),
                             Result (Sample.answer true false),
                             Result (Sample.answer true true)) in
  _calculate_api_score one <= _calculate_api_score two.
Proof.
  intros one two.
  apply (api_score_monotone one two (_generate_summary one) (_generate_summary two));
    try reflexivity; vm_compute; discriminate.
Defined.

End ApiScore.

(** ** Fusion *)

Section Fusion.

Import ApiChecker UrlFeatures Scorer.
Open Scope Q_scope.

(** C1: for every pair of inputs, the reported final score is 0.7 times the
    reported API score plus 0.3 times the reported feature score, up to the
    rounding of the three reported numbers to two decimals: the difference
    is at most 0.01. *)
Theorem final_score_is_weighted_sum (api_results : ApiResults)
  (feature_results : FeatureResults) :
  let r := calculate_risk_score api_results feature_results in
  Qabs (final_score r - ((7 # 10) * api_score r + (3 # 10) * feature_score r))
  <= 1 # 100.
Proof.
  intros r. subst r. unfold calculate_risk_score. cbn [final_score api_score feature_score].
  set (a := _calculate_api_score api_results).
  set (f := match feature_risk_score feature_results with
            | Some x => x
            | None => 0
            end).
  unfold WEIGHTS_api_score, WEIGHTS_feature_score.
  pose proof (round2_near (a * (70 # 100) + f * (30 # 100))) as [Hs1 Hs2].
  pose proof (round2_near a) as [Ha1 Ha2].
  pose proof (round2_near f) as [Hf1 Hf2].
  apply Qabs_Qle_condition. split; lra.
Qed.

(** The score before rounding is the weighted sum itself, and the level is
    read off it. *)
Lemma risk_level_of_weighted_sum (api_results : ApiResults)
  (feature_results : FeatureResults) :
  risk_level (calculate_risk_score api_results feature_results) =
  _determine_risk_level
    (_calculate_api_score api_results * (70 # 100)
     + match feature_risk_score feature_results with
       | Some x => x
       | None => 0
       end * (30 # 100)).
Proof. reflexivity. Qed.

End Fusion.

(** ** The summary of the aggregator *)

Section Summary.

Import ApiChecker.

Lemma tally_counts (r : ProviderResult) (describe : ProviderResult -> str)
  (c : counters) :
  total_apis (tally r describe c)
    = total_apis c + (if is_available r then 1 else 0)
  /\ apis_flagged (tally r describe c)
    = apis_flagged c + (if is_available r && negb (is_safe r) then 1 else 0)
  /\ apis_safe (tally r describe c)
    = apis_safe c + (if is_available r && is_safe r then 1 else 0)
  /\ unavailable (tally r describe c)
    = unavailable c + (if is_available r then 0 else 1).
Proof.
  unfold tally. destruct (is_available r), (is_safe r); cbn; repeat split; lia.
Qed.

Lemma summary_counts (results : ApiResults) :
  let s := _generate_summary results in
  total_apis_checked s = Spec.providers_where is_available results
  /\ apis_flagged_malicious s
     = Spec.providers_where (fun r => is_available r && negb (is_safe r)) results
  /\ apis_marked_safe s
     = Spec.providers_where (fun r => is_available r && is_safe r) results
  /\ apis_unavailable s
     = Spec.providers_where (fun r => negb (is_available r)) results.
Proof.
  unfold _generate_summary, Spec.providers_where.
  cbn [total_apis_checked apis_flagged_malicious apis_marked_safe apis_unavailable].
  set (g := provider (google_safe_browsing results)).
  set (v := provider (virustotal results)).
  set (u := provider (urlhaus results)).
  set (c0 := {| total_apis := 0; apis_flagged := 0; apis_safe := 0;
                unavailable := 0; indicators := [] |}).
  destruct (tally_counts g describe_google c0) as (T1 & F1 & S1 & U1).
  destruct (tally_counts v describe_virustotal (tally g describe_google c0))
    as (T2 & F2 & S2 & U2).
  destruct (tally_counts u describe_urlhaus
              (tally v describe_virustotal (tally g describe_google c0)))
    as (T3 & F3 & S3 & U3).
  rewrite T3, T2, T1, F3, F2, F1, S3, S2, S1, U3, U2, U1.
  cbn [filter total_apis apis_flagged apis_safe unavailable c0].
  destruct (is_available g), (is_safe g), (is_available v), (is_safe v),
    (is_available u), (is_safe u); cbn; repeat split; reflexivity.
Qed.

(** C4: for every combination of the three provider results, the providers
    checked are the flagged ones plus the ones marked safe; a provider that
    is not available is in neither count and only in [apis_unavailable]. *)
Theorem checked_is_flagged_plus_safe (results : ApiResults) :
  let s := _generate_summary results in
  total_apis_checked s = apis_flagged_malicious s + apis_marked_safe s
  /\ total_apis_checked s = Spec.providers_where is_available results
  /\ apis_flagged_malicious s
     = Spec.providers_where (fun r => is_available r && negb (is_safe r)) results
  /\ apis_marked_safe s
     = Spec.providers_where (fun r => is_available r && is_safe r) results
  /\ apis_unavailable s
     = Spec.providers_where (fun r => negb (is_available r)) results
  /\ total_apis_checked s + apis_unavailable s = 3.
Proof.
  intros s. destruct (summary_counts results) as (T & F & S & U).
  fold s in T, F, S, U.
  split; [ | split; [exact T | split; [exact F | split; [exact S | split; [exact U | ]]]]].
  - rewrite T, F, S. unfold Spec.providers_where. cbn [filter].
    destruct (is_available (provider (google_safe_browsing results))),
      (is_safe (provider (google_safe_browsing results))),
      (is_available (provider (virustotal results))),
      (is_safe (provider (virustotal results))),
      (is_available (provider (urlhaus results))),
      (is_safe (provider (urlhaus results))); reflexivity.
  - rewrite T, U. unfold Spec.providers_where. cbn [filter].
    destruct (is_available (provider (google_safe_browsing results))),
      (is_available (provider (virustotal results))),
      (is_available (provider (urlhaus results))); reflexivity.
Qed.

(** What the scorer can read from a summary of the aggregator. *)
Lemma summary_range (results : ApiResults) :
  let s := _generate_summary results in
  0 <= apis_flagged_malicious s <= total_apis_checked s
  /\ total_apis_checked s <= 3.
Proof.
  intros s. destruct (summary_counts results) as (T & F & _ & _).
  fold s in T, F. rewrite T, F. unfold Spec.providers_where. cbn [filter].
  destruct (is_available (provider (google_safe_browsing results))),
    (is_safe (provider (google_safe_browsing results))),
    (is_available (provider (virustotal results))),
    (is_safe (provider (virustotal results))),
    (is_available (provider (urlhaus results))),
    (is_safe (provider (urlhaus results))); cbn; lia.
Qed.

End Summary.

(** ** Score and level of a scan *)

Section ScanScore.

Import ApiChecker UrlFeatures Scorer.

Lemma Py_eqb_eq (s t : str) : Py.eqb s t = true <-> s = t.
Proof.
  revert t. induction s as [ | c s IH]; intros [ | d t]; cbn; split;
    try discriminate; try reflexivity.
  - intros H. apply andb_true_iff in H as [Hc Hs].
    apply Ascii.eqb_eq in Hc. apply IH in Hs. congruence.
  - intros H. injection H as -> ->. apply andb_true_iff. split.
    + apply Ascii.eqb_refl.
    + apply IH. reflexivity.
Qed.

Lemma rule_points (cond : bool) (points : Z) (factor : str) (st : Z * list str) :
  fst (rule cond points factor st) = fst st + (if cond then points else 0).
Proof. unfold rule. destruct cond; cbn; lia. Qed.

Lemma risk_rules_range (f : Features) : 0 <= fst (risk_rules f) <= 110.
Proof.
  unfold risk_rules. rewrite !rule_points. cbn [fst].
  destruct (75 <? url_length f)%nat, (truthy (is_ip_address f)),
    (truthy (has_at_symbol f)), (3 <? subdomain_count f)%nat,
    (2 <? suspicious_keyword_count f)%nat, (Qgtb (digit_ratio f) (3 # 10)),
    (negb (truthy (has_https f))), (Rgtb (url_entropy f) 5); lia.
Qed.

(** The feature score of the analysis is an integer from 0 to 100. *)
Lemma analyze_feature_score `{Externals} (url : str) (fr : FeatureResults) :
  analyze_url_features url = Return fr ->
  exists k : Z, 0 <= k <= 100 /\ feature_risk_score fr = Some (inject_Z k).
Proof.
  unfold analyze_url_features.
  destruct (extract_all_features url) as [e | f]; cbn [bind]; [discriminate | ].
  pose proof (risk_rules_range f) as Hr.
  destruct (risk_rules f) as [risk_score factors]. cbn [fst] in Hr.
  intros Hret. injection Hret as <-. cbn [feature_risk_score].
  exists (Z.min risk_score 100). split; [lia | reflexivity].
Qed.

Lemma counts_reachable (results : ApiResults) :
  In (total_apis_checked (_generate_summary results),
      apis_flagged_malicious (_generate_summary results))
    Spec.reachable_counts.
Proof.
  pose proof (summary_range results) as [[H0 H1] H3]. cbv zeta in *.
  set (c := total_apis_checked (_generate_summary results)) in *.
  set (f := apis_flagged_malicious (_generate_summary results)) in *.
  assert (Hc : c = 0 \/ c = 1 \/ c = 2 \/ c = 3) by lia.
  assert (Hf : f = 0 \/ f = 1 \/ f = 2 \/ f = 3) by lia.
  unfold Spec.reachable_counts.
  destruct Hc as [-> | [-> | [-> | ->]]], Hf as [-> | [-> | [-> | ->]]];
    try lia; cbn; tauto.
Qed.

Lemma feature_score_listed (k : Z) : 0 <= k <= 100 -> In k Spec.feature_scores.
Proof.
  intros Hk. unfold Spec.feature_scores. apply in_map_iff.
  exists (Z.to_nat k). split; [lia | ]. apply in_seq. lia.
Qed.

Lemma every_reachable_score_survives :
  forallb (fun cf => forallb (Spec.level_survives_rounding (fst cf) (snd cf))
                       Spec.feature_scores)
    Spec.reachable_counts = true.
Proof. vm_compute. reflexivity. Qed.

Lemma level_survives (results : ApiResults) (k : Z) :
  0 <= k <= 100 ->
  Spec.level_survives_rounding
    (total_apis_checked (_generate_summary results))
    (apis_flagged_malicious (_generate_summary results)) k = true.
Proof.
  intros Hk.
  pose proof every_reachable_score_survives as Hall.
  rewrite forallb_forall in Hall.
  specialize (Hall _ (counts_reachable results)). cbn [fst snd] in Hall.
  rewrite forallb_forall in Hall. apply Hall. apply feature_score_listed. exact Hk.
Qed.

Lemma determine_risk_level_thresholds (score : Q) :
  ((score <= 30)%Q -> _determine_risk_level score = ("SAFE" : str))
  /\ ((30 < score)%Q -> (score <= 70)%Q ->
      _determine_risk_level score = ("SUSPICIOUS" : str))
  /\ ((70 < score)%Q -> _determine_risk_level score = ("MALICIOUS" : str)).
Proof.
  unfold _determine_risk_level, SAFE_THRESHOLD, SUSPICIOUS_THRESHOLD.
  destruct (Qle_bool score 30) eqn:H30; destruct (Qle_bool score 70) eqn:H70;
    repeat split; intros;
    repeat match goal with
      | H : Qle_bool _ _ = true |- _ => apply Qle_bool_iff in H
      | H : Qle_bool ?a ?b = false |- _ =>
          assert (b < a)%Q
            by (apply Qnot_le_lt; intro Hle; apply Qle_bool_iff in Hle; congruence);
          clear H
      end; try reflexivity; exfalso; lra.
Qed.

End ScanScore.

(** ** What the route returns *)

Section Route.

Import ApiChecker UrlFeatures Scorer.
Context `{Externals}.

(** What stands behind an accepting answer of [validate_url]. *)
Lemma validate_url_accepts (raw u e : str) :
  Validators.validate_url raw = (true, u, e) ->
  raw <> []
  /\ Py.strip raw <> []
  /\ u = Validators.normalize_url (Py.strip raw)
  /\ e = []
  /\ exists parsed,
       Urllib.urlparse u = Return parsed
       /\ Urllib.netloc parsed <> []
       /\ Validators.is_valid_domain (Urllib.netloc parsed) = true.
Proof.
  unfold Validators.validate_url.
  destruct raw as [ | c raw']; cbn [Py.is_empty]; [discriminate | ].
  set (raw := c :: raw').
  destruct (Py.strip raw) as [ | c1 s1] eqn:Hstrip; cbn [Py.is_empty]; [discriminate | ].
  destruct (Urllib.urlparse (Validators.normalize_url (c1 :: s1)))
    as [msg | parsed] eqn:Hparse; [discriminate | ].
  destruct (negb (existsb (Py.eqb (Urllib.scheme parsed)) ["http" : str; "https" : str]));
    [discriminate | ].
  destruct (Urllib.netloc parsed) as [ | n0 nl] eqn:Hnet; cbn [Py.is_empty];
    [discriminate | ].
  destruct (Validators.is_valid_domain (n0 :: nl)) eqn:Hdom; cbn [negb];
    [ | discriminate ].
  intros Hret.
  assert (Hu : u = Validators.normalize_url (c1 :: s1) /\ e = []).
  { destruct (Validators.has_suspicious_patterns
                (Validators.normalize_url (c1 :: s1)));
      injection Hret as <- <-; split; reflexivity. }
  destruct Hu as [-> ->].
  repeat split; try discriminate.
  exists parsed. rewrite Hnet. repeat split; [exact Hparse | discriminate | exact Hdom].
Qed.

(** A URL that parses has its features analysed: nothing else of the
    feature extraction can raise. *)
Lemma analyze_url_features_returns (url : str) (parsed : Urllib.ParseResult) :
  Urllib.urlparse url = Return parsed ->
  exists fr, analyze_url_features url = Return fr.
Proof.
  intros Hparse. unfold analyze_url_features, extract_all_features.
  rewrite Hparse. cbn [bind].
  destruct (extract_length_features url parsed) as [[[[l1 l2] l3] l4] l5].
  destruct (extract_tld url (Urllib.netloc parsed)) as [[sub dom] tld].
  unfold extract_entropy_features. rewrite Hparse. cbn [bind].
  destruct (risk_rules _) as [risk_score factors].
  eexists. reflexivity.
Qed.

(** The three outcomes of the route. *)
Lemma scan_url_rejects (net : Main.network) (raw u e : str) :
  Validators.validate_url raw = (false, u, e) ->
  Main.scan_url net raw = ([], Main.Error e).
Proof. intros Hv. unfold Main.scan_url. rewrite Hv. reflexivity. Qed.

Lemma scan_url_reports (net : Main.network) (raw u e : str) :
  Validators.validate_url raw = (true, u, e) ->
  exists fr,
    analyze_url_features u = Return fr
    /\ Main.scan_url net raw =
       ([Main.check_all_apis u; Main.analyze_url_features u;
         Main.get_complete_analysis u],
        Main.Report (get_complete_analysis u (check_all_apis (net u)) fr)).
Proof.
  intros Hv.
  destruct (validate_url_accepts raw u e Hv) as (_ & _ & _ & _ & parsed & Hp & _).
  destruct (analyze_url_features_returns u parsed Hp) as [fr Hfr].
  exists fr. split; [exact Hfr | ].
  unfold Main.scan_url. rewrite Hv. cbn [negb]. rewrite Hfr. reflexivity.
Qed.

Lemma scan_url_report_inv (net : Main.network) (raw : str)
  (calls : list Main.call) (a : Analysis) :
  Main.scan_url net raw = (calls, Main.Report a) ->
  exists u e fr,
    Validators.validate_url raw = (true, u, e)
    /\ analyze_url_features u = Return fr
    /\ a = get_complete_analysis u (check_all_apis (net u)) fr.
Proof.
  unfold Main.scan_url.
  destruct (Validators.validate_url raw) as [[ok u] e] eqn:Hv.
  destruct ok; cbn [negb]; [ | discriminate ].
  destruct (analyze_url_features u) as [msg | fr] eqn:Hfr; [discriminate | ].
  intros Hret. injection Hret as _ <-.
  exists u, e, fr. repeat split. exact Hfr.
Qed.

(** Score and level of a report read from the counts of its summary and
    from the integral feature score. *)
Lemma report_score_and_level (tasks : settled * settled * settled)
  (fr : FeatureResults) (u : str) (k : Z) :
  feature_risk_score fr = Some (inject_Z k) ->
  let a := get_complete_analysis u (check_all_apis tasks) fr in
  let s := _generate_summary
             {| google_safe_browsing := google_safe_browsing (check_all_apis tasks);
                virustotal := virustotal (check_all_apis tasks);
                urlhaus := urlhaus (check_all_apis tasks);
                summary := None |} in
  let raw := Spec.fused_score (total_apis_checked s) (apis_flagged_malicious s) k in
  risk_assessment_score a = round raw 2
  /\ risk_assessment_level a = _determine_risk_level raw.
Proof.
  intros Hk. destruct tasks as [[t0 t1] t2].
  unfold get_complete_analysis, get_detailed_analysis, calculate_risk_score.
  cbn [risk_assessment_score risk_assessment_level final_score risk_level].
  rewrite Hk.
  split; reflexivity.
Qed.

(** C2: whenever the route reports on a URL, the reported final score lies
    between 0 and 100, and the reported level is SAFE for a score of at most
    30, SUSPICIOUS for a score above 30 and at most 70, and MALICIOUS for a
    score above 70. *)
Theorem report_score_in_range_and_level_by_thresholds
  (net : Main.network) (raw : str) (calls : list Main.call) (a : Analysis) :
  Main.scan_url net raw = (calls, Main.Report a) ->
  (0 <= risk_assessment_score a)%Q
  /\ (risk_assessment_score a <= 100)%Q
  /\ ((risk_assessment_score a <= 30)%Q ->
      risk_assessment_level a = ("SAFE" : str))
  /\ ((30 < risk_assessment_score a)%Q -> (risk_assessment_score a <= 70)%Q ->
      risk_assessment_level a = ("SUSPICIOUS" : str))
  /\ ((70 < risk_assessment_score a)%Q ->
      risk_assessment_level a = ("MALICIOUS" : str)).
Proof.
  intros Hscan.
  destruct (scan_url_report_inv net raw calls a Hscan) as (u & e & fr & Hv & Hfr & ->).
  destruct (analyze_feature_score u fr Hfr) as (k & Hk & Hscore).
  destruct (report_score_and_level (net u) fr u k Hscore) as [Hs Hl].
  rewrite Hs, Hl.
  match goal with
  | |- context [Spec.fused_score (total_apis_checked (_generate_summary ?r)) _ _] =>
      pose proof (level_survives r k Hk) as Hsurv
  end.
  unfold Spec.level_survives_rounding in Hsurv. cbv zeta in Hsurv.
  apply andb_true_iff in Hsurv as [Hrange Hsame].
  apply andb_true_iff in Hrange as [Hlo Hhi].
  apply Qle_bool_iff in Hlo. apply Qle_bool_iff in Hhi.
  apply Py_eqb_eq in Hsame. rewrite Hsame.
  split; [exact Hlo | split; [exact Hhi | ]].
  apply determine_risk_level_thresholds.
Qed.

End Route.

(** The report on [google.com] when only URLhaus answers. *)
Lemma report_score_in_range_and_level_by_thresholds_witness :
  exists calls a,
    Main.scan_url (H := Sample.externals) Sample.only_urlhaus_safe "google.com"
      = (calls, Main.Report a)
    /\ (0 <= Scorer.risk_assessment_score a)%Q
    /\ (Scorer.risk_assessment_score a <= 100)%Q.
Proof.
  destruct (scan_url_reports (H := Sample.externals) Sample.only_urlhaus_safe
              "google.com" "http://google.com" [] eq_refl) as (fr & _ & Hscan).
  eexists. eexists. split; [exact Hscan | ].
  pose proof (report_score_in_range_and_level_by_thresholds
                (H := Sample.externals) _ _ _ _ Hscan) as (H0 & H100 & _).
  split; [exact H0 | exact H100].
Defined.

(** ** Trimming and normalisation *)

Section Normalisation.

Lemma lstrip_by_all (p : ascii -> bool) (s : str) :
  Forall (fun c => p c = true) s -> Py.lstrip_by p s = [].
Proof.
  induction 1 as [ | c s Hc _ IH]; cbn; [reflexivity | ].
  rewrite Hc. exact IH.
Qed.

Lemma lstrip_by_head (p : ascii -> bool) (s : str) :
  Py.lstrip_by p s = []
  \/ exists c r, Py.lstrip_by p s = c :: r /\ p c = false.
Proof.
  induction s as [ | c s IH]; cbn; [left; reflexivity | ].
  destruct (p c) eqn:Hc; [exact IH | right; exists c, s; split; [reflexivity | exact Hc]].
Qed.

Lemma lstrip_by_fixed (p : ascii -> bool) (c : ascii) (r : str) :
  p c = false -> Py.lstrip_by p (c :: r) = c :: r.
Proof. intros Hc. cbn. rewrite Hc. reflexivity. Qed.

Lemma lstrip_by_idem (p : ascii -> bool) (s : str) :
  Py.lstrip_by p (Py.lstrip_by p s) = Py.lstrip_by p s.
Proof.
  destruct (lstrip_by_head p s) as [-> | (c & r & -> & Hc)]; [reflexivity | ].
  apply lstrip_by_fixed. exact Hc.
Qed.

Lemma lstrip_by_snoc (p : ascii -> bool) (l : str) (c : ascii) :
  p c = false -> Py.lstrip_by p (l ++ [c]) = Py.lstrip_by p l ++ [c].
Proof.
  intros Hc. induction l as [ | d l IH]; cbn.
  - rewrite Hc. reflexivity.
  - destruct (p d); [exact IH | reflexivity].
Qed.

Lemma rstrip_by_idem (p : ascii -> bool) (s : str) :
  Py.rstrip_by p (Py.rstrip_by p s) = Py.rstrip_by p s.
Proof.
  unfold Py.rstrip_by. rewrite rev_involutive, lstrip_by_idem. reflexivity.
Qed.

Lemma rstrip_by_keeps_head (p : ascii -> bool) (c : ascii) (r : str) :
  p c = false -> exists r', Py.rstrip_by p (c :: r) = c :: r'.
Proof.
  intros Hc. unfold Py.rstrip_by. cbn [rev].
  rewrite (lstrip_by_snoc p (rev r) c Hc), rev_app_distr. cbn.
  eexists. reflexivity.
Qed.

Lemma strip_idem (s : str) : Py.strip (Py.strip s) = Py.strip s.
Proof.
  unfold Py.strip.
  destruct (lstrip_by_head Py.isspace s) as [-> | (c & r & -> & Hc)];
    [reflexivity | ].
  destruct (rstrip_by_keeps_head Py.isspace c r Hc) as [r' Hr].
  rewrite Hr at 1. rewrite (lstrip_by_fixed _ _ _ Hc). rewrite <- Hr.
  apply rstrip_by_idem.
Qed.

Lemma strip_whitespace (s : str) : Spec.whitespace_only s -> Py.strip s = [].
Proof.
  intros Hs. unfold Py.strip. rewrite (lstrip_by_all _ _ Hs). reflexivity.
Qed.

Lemma startswith_app (prefix s : str) :
  Py.startswith prefix s = true -> exists rest, s = prefix ++ rest.
Proof.
  revert s. induction prefix as [ | p prefix IH]; intros s; cbn.
  - intros _. exists s. reflexivity.
  - destruct s as [ | c s]; [discriminate | ].
    intros Hp. apply andb_true_iff in Hp as [Hc Hs].
    apply Ascii.eqb_eq in Hc. subst c.
    destruct (IH s Hs) as [rest ->]. exists rest. reflexivity.
Qed.

(** [normalize_url] keeps a trimmed URL that starts with one of the two
    prefixes, and otherwise puts [http://] in front of it. *)
Lemma normalize_url_cases (s : str) :
  (Validators.normalize_url s = Py.strip s
   /\ ((exists rest, Py.strip s = "http://" ++ rest)
       \/ (exists rest, Py.strip s = "https://" ++ rest)))
  \/ (Validators.normalize_url s = "http://" ++ Py.strip s
      /\ Py.startswith "http://" (Py.strip s) = false
      /\ Py.startswith "https://" (Py.strip s) = false).
Proof.
  unfold Validators.normalize_url.
  destruct (Py.startswith "http://" (Py.strip s)) eqn:H1.
  - left. split; [reflexivity | left]. apply startswith_app. exact H1.
  - destruct (Py.startswith "https://" (Py.strip s)) eqn:H2; cbn [orb negb].
    + left. split; [reflexivity | right]. apply startswith_app. exact H2.
    + right. repeat split.
Qed.

Lemma normalize_url_prefix (s : str) :
  (exists rest, Validators.normalize_url s = "http://" ++ rest)
  \/ (exists rest, Validators.normalize_url s = "https://" ++ rest).
Proof.
  destruct (normalize_url_cases s) as [[-> Hp] | [-> _]].
  - exact Hp.
  - left. exists (Py.strip s). reflexivity.
Qed.

End Normalisation.

(** ** The scheme of a normalised URL *)

Section Scheme.

Context `{Externals}.

Import Urllib.

Lemma split_scheme_http (rest : str) :
  Urllib.split_scheme (cleaned ("http://" ++ rest))
  = ("http" : str, "//" ++ filter (fun c => negb (Urllib._UNSAFE_URL_BYTES_TO_REMOVE c)) rest).
Proof. reflexivity. Qed.

Lemma split_scheme_https (rest : str) :
  Urllib.split_scheme (cleaned ("https://" ++ rest))
  = ("https" : str, "//" ++ filter (fun c => negb (Urllib._UNSAFE_URL_BYTES_TO_REMOVE c)) rest).
Proof. reflexivity. Qed.

(** The scheme [urlsplit] finds is the one [split_scheme] finds. *)
Lemma urlsplit_scheme (url sch net pth qry frg : str) :
  Urllib.urlsplit url = Return (sch, net, pth, qry, frg) ->
  sch = fst (Urllib.split_scheme (cleaned url)).
Proof.
  unfold Urllib.urlsplit. cbv zeta. fold (cleaned url).
  destruct (Urllib.split_scheme (cleaned url)) as [scheme url1]. cbn [fst].
  destruct (Urllib.split_netloc url1) as [msg | [netloc url2]]; cbn [bind];
    [discriminate | ].
  destruct (Urllib.split_off "#" url2) as [url3 fragment].
  destruct (Urllib.split_off "?" url3) as [url4 query].
  intros Hret. injection Hret as <- _ _ _ _. reflexivity.
Qed.

Lemma urlparse_scheme (url : str) (parsed : Urllib.ParseResult) :
  Urllib.urlparse url = Return parsed ->
  Urllib.scheme parsed = fst (Urllib.split_scheme (cleaned url)).
Proof.
  unfold Urllib.urlparse.
  destruct (Urllib.urlsplit url) as [msg | [[[[sch net] pth] qry] frg]] eqn:Hsplit;
    cbn [bind]; [discriminate | ].
  apply urlsplit_scheme in Hsplit.
  destruct (if existsb (Py.eqb sch) Urllib.uses_params && Py.has_char ";" pth
            then Urllib._splitparams pth else (pth, [])) as [url1 params].
  intros Hret. injection Hret as <-. cbn [Urllib.scheme]. exact Hsplit.
Qed.

Lemma normalized_scheme (s : str) (parsed : Urllib.ParseResult) :
  Urllib.urlparse (Validators.normalize_url s) = Return parsed ->
  Urllib.scheme parsed = ("http" : str) \/ Urllib.scheme parsed = ("https" : str).
Proof.
  intros Hparse. apply urlparse_scheme in Hparse. rewrite Hparse.
  destruct (normalize_url_prefix s) as [[rest ->] | [rest ->]].
  - left. rewrite split_scheme_http. reflexivity.
  - right. rewrite split_scheme_https. reflexivity.
Qed.

(** C10: normalisation makes every string start with [http://] or
    [https://], a URL so normalised parses, if it parses, with the scheme
    http or https, and [validate_url] answers no input with the error of an
    unsupported scheme. *)
Theorem unsupported_scheme_unreachable (raw : str) :
  ((exists rest, Validators.normalize_url raw = "http://" ++ rest)
   \/ (exists rest, Validators.normalize_url raw = "https://" ++ rest))
  /\ (forall parsed,
        Urllib.urlparse (Validators.normalize_url raw) = Return parsed ->
        Urllib.scheme parsed = ("http" : str)
        \/ Urllib.scheme parsed = ("https" : str))
  /\ snd (Validators.validate_url raw) <> Spec.unsupported_scheme.
Proof.
  split; [apply normalize_url_prefix | ].
  split; [apply normalized_scheme | ].
  unfold Validators.validate_url.
  destruct (Py.is_empty raw); [cbn; discriminate | ].
  destruct (Py.is_empty (Py.strip raw)); [cbn; discriminate | ].
  destruct (Urllib.urlparse (Validators.normalize_url (Py.strip raw)))
    as [msg | parsed] eqn:Hparse; [cbn; discriminate | ].
  destruct (normalized_scheme _ _ Hparse) as [-> | ->]; cbn [existsb Py.eqb negb];
    (destruct (Py.is_empty (Urllib.netloc parsed)); [cbn; discriminate | ];
     destruct (Validators.is_valid_domain (Urllib.netloc parsed));
       cbn [negb]; [ | cbn; discriminate ];
     destruct (Validators.has_suspicious_patterns _); cbn; discriminate).
Qed.

End Scheme.

(** ** Empty input *)

Section EmptyInput.

Context `{Externals}.

Lemma validate_url_whitespace (raw : str) :
  Spec.whitespace_only raw ->
  Validators.validate_url raw = (false, [], Spec.empty_input).
Proof.
  intros Hw. unfold Validators.validate_url.
  destruct raw as [ | c raw']; [reflexivity | ]. cbn [Py.is_empty].
  rewrite (strip_whitespace _ Hw). reflexivity.
Qed.

(** C7: for an input that is empty or made of whitespace only, validation
    fails with the error of an empty input, and the route returns that error
    alone, having called neither the aggregator, nor the feature extractor,
    nor the scorer. *)
Theorem whitespace_input_is_rejected_before_any_call
  (net : Main.network) (raw : str) :
  Spec.whitespace_only raw ->
  Validators.validate_url raw = (false, [], Spec.empty_input)
  /\ Main.scan_url net raw = ([], Main.Error Spec.empty_input).
Proof.
  intros Hw. pose proof (validate_url_whitespace raw Hw) as Hv.
  split; [exact Hv | ].
  apply (scan_url_rejects net raw [] Spec.empty_input Hv).
Qed.

End EmptyInput.

(** A space, a tab and a space. *)
Lemma whitespace_input_is_rejected_before_any_call_witness :
  Main.scan_url (H := Sample.externals) Sample.only_urlhaus_safe
    [" "%char; "009"%char; " "%char]
  = ([], Main.Error Spec.empty_input).
Proof.
  apply (whitespace_input_is_rejected_before_any_call (H := Sample.externals)).
  repeat constructor.
Defined.

(** ** The case of the returned URL *)

Section Case.

Context `{Externals}.

(** C6, amended: for every input [validate_url] accepts, the URL it returns
    is the trimmed input: as it is when it starts with [http://] or [https://]
    in lower case, and with [http://] put in front of it otherwise.  So the URL
    returned starts with [http://] or [https://] and parses with the scheme
    http or https, in lower case, and nothing of the input is re-cased: host,
    path, query and fragment are as they were typed. *)
Theorem validate_url_returns_the_trimmed_input (raw u e : str) :
  Validators.validate_url raw = (true, u, e) ->
  let trimmed := Py.strip raw in
  (Py.startswith "http://" trimmed || Py.startswith "https://" trimmed = true ->
   u = trimmed)
  /\ (Py.startswith "http://" trimmed || Py.startswith "https://" trimmed = false ->
      u = "http://" ++ trimmed)
  /\ (Py.startswith "http://" u = true \/ Py.startswith "https://" u = true)
  /\ exists parsed,
       Urllib.urlparse u = Return parsed
       /\ (Urllib.scheme parsed = ("http" : str)
           \/ Urllib.scheme parsed = ("https" : str))
       /\ Urllib.scheme parsed = Py.lower (Urllib.scheme parsed).
Proof.
  intros Hv trimmed.
  destruct (validate_url_accepts raw u e Hv) as (_ & _ & Hu & _ & parsed & Hp & _).
  assert (Hn : u = if negb (Py.startswith "http://" trimmed
                            || Py.startswith "https://" trimmed)
                   then "http://" ++ trimmed else trimmed).
  { rewrite Hu. unfold Validators.normalize_url. cbv zeta.
    rewrite strip_idem. reflexivity. }
  split; [intros Hs; rewrite Hs in Hn; exact Hn | ].
  split; [intros Hs; rewrite Hs in Hn; exact Hn | ].
  split.
  - destruct (Py.startswith "http://" trimmed) eqn:H1.
    + left. rewrite Hn. exact H1.
    + destruct (Py.startswith "https://" trimmed) eqn:H2.
      * right. rewrite Hn. exact H2.
      * left. rewrite Hn. reflexivity.
  - exists parsed. split; [exact Hp | ].
    assert (Hs : Urllib.scheme parsed = ("http" : str)
                 \/ Urllib.scheme parsed = ("https" : str)).
    { rewrite Hu in Hp. exact (normalized_scheme _ _ Hp). }
    split; [exact Hs | ].
    destruct Hs as [-> | ->]; reflexivity.
Qed.

End Case.

(** The input [ Example.COM/Path ] does not start with a scheme: the URL
    returned is the trimmed input behind [http://], its host as it was typed. *)
Lemma validate_url_returns_the_trimmed_input_witness :
  ("http://Example.COM/Path" : str) = "http://" ++ Py.strip " Example.COM/Path "
  /\ exists parsed,
       Urllib.urlparse (H := Sample.externals) "http://Example.COM/Path"
       = Return parsed
       /\ Urllib.netloc parsed = ("Example.COM" : str).
Proof.
  destruct (validate_url_returns_the_trimmed_input (H := Sample.externals)
              " Example.COM/Path " "http://Example.COM/Path" [] eq_refl)
    as (_ & Hprefixed & _ & parsed & Hp & _).
  split; [exact (Hprefixed eq_refl) | ].
  exists parsed. split; [exact Hp | ].
  vm_compute in Hp. injection Hp as <-. reflexivity.
Defined.

(** C6 as stated fails: the input [Example.COM/Path] is accepted and the URL
    returned for it keeps the host in upper case. *)
Lemma accepted_host_keeps_its_case :
  Validators.validate_url (H := Sample.externals) "Example.COM/Path"
  = (true, "http://Example.COM/Path" : str, [])
  /\ ~ Spec.scheme_and_host_lower_cased (H := Sample.externals)
         "http://Example.COM/Path".
Proof.
  split; [reflexivity | ].
  intros (parsed & Hp & _ & Hhost).
  vm_compute in Hp. injection Hp as <-.
  vm_compute in Hhost. discriminate.
Qed.

(** ** Entropy *)

Section Entropy.

Import UrlFeatures.

Lemma freq_get_set (freq : list (ascii * nat)) (c : ascii) (v : nat) (c' : ascii) :
  freq_get (freq_set freq c v) c'
  = if Ascii.eqb c c' then v else freq_get freq c'.
Proof.
  induction freq as [ | [k w] rest IH]; cbn.
  - destruct (Ascii.eqb c c'); reflexivity.
  - destruct (Ascii.eqb k c) eqn:Hkc; cbn.
    + apply Ascii.eqb_eq in Hkc. subst k. destruct (Ascii.eqb c c'); reflexivity.
    + destruct (Ascii.eqb k c') eqn:Hkc'.
      * apply Ascii.eqb_eq in Hkc'. subst c'.
        destruct (Ascii.eqb c k) eqn:Hck; [ | reflexivity].
        apply Ascii.eqb_eq in Hck. subst c. rewrite Ascii.eqb_refl in Hkc.
        discriminate.
      * exact IH.
Qed.

Lemma keys_set_In (freq : list (ascii * nat)) (c : ascii) (v : nat) (c' : ascii) :
  In c' (map fst (freq_set freq c v)) <-> In c' (map fst freq) \/ c' = c.
Proof.
  induction freq as [ | [k w] rest IH]; cbn.
  - intuition congruence.
  - destruct (Ascii.eqb k c) eqn:Hkc; cbn.
    + apply Ascii.eqb_eq in Hkc. subst k. intuition congruence.
    + rewrite IH. tauto.
Qed.

Lemma keys_set_NoDup (freq : list (ascii * nat)) (c : ascii) (v : nat) :
  NoDup (map fst freq) -> NoDup (map fst (freq_set freq c v)).
Proof.
  induction freq as [ | [k w] rest IH]; cbn; intros Hnd.
  - constructor; [intros [] | constructor].
  - inversion Hnd as [ | k' ks Hk Hrest]; subst.
    destruct (Ascii.eqb k c) eqn:Hkc; cbn.
    + constructor; assumption.
    + constructor; [ | apply IH; exact Hrest].
      rewrite keys_set_In. intros [Hin | ->]; [exact (Hk Hin) | ].
      rewrite Ascii.eqb_refl in Hkc. discriminate.
Qed.

(** The dict after the counting loop, started from [acc]: its keys are
    those of [acc] and the characters of the text, each once, and a key is
    mapped to its former count plus its number of occurrences. *)
Lemma counting_loop (text : str) (acc : list (ascii * nat)) :
  let freq :=
    fold_left (fun freq char => freq_set freq char (freq_get freq char + 1)%nat)
      text acc in
  NoDup (map fst acc) ->
  NoDup (map fst freq)
  /\ (forall c, In c (map fst freq) <-> In c (map fst acc) \/ In c text)
  /\ (forall c, freq_get freq c
                = (freq_get acc c + count_occ ascii_dec text c)%nat).
Proof.
  revert acc. induction text as [ | a text IH]; intros acc; cbn [fold_left].
  - intros Hnd. split; [exact Hnd | split].
    + intros c. cbn. tauto.
    + intros c. cbn. lia.
  - intros Hnd.
    specialize (IH (freq_set acc a (freq_get acc a + 1)%nat)
                  (keys_set_NoDup acc a _ Hnd)).
    cbv zeta in IH. destruct IH as (Hn & Hin & Hget).
    split; [exact Hn | split].
    + intros c. rewrite Hin, keys_set_In. cbn [In]. intuition congruence.
    + intros c. rewrite Hget, freq_get_set. cbn [count_occ].
      destruct (ascii_dec a c) as [-> | Hne].
      * rewrite Ascii.eqb_refl. lia.
      * destruct (Ascii.eqb a c) eqn:Hac; [ | reflexivity].
        apply Ascii.eqb_eq in Hac. contradiction.
Qed.

Lemma values_by_key (freq : list (ascii * nat)) :
  NoDup (map fst freq) -> map snd freq = map (freq_get freq) (map fst freq).
Proof.
  induction freq as [ | [k v] rest IH]; cbn; intros Hnd; [reflexivity | ].
  inversion Hnd as [ | k' ks Hk Hrest]; subst.
  rewrite Ascii.eqb_refl. f_equal.
  rewrite (IH Hrest) at 1. apply map_ext_in. intros c Hc.
  destruct (Ascii.eqb k c) eqn:Hkc; [ | reflexivity].
  apply Ascii.eqb_eq in Hkc. subst c. contradiction.
Qed.

Lemma fold_left_minus (g : nat -> R) (l : list nat) (a : R) :
  fold_left (fun e x => (e - g x)%R) l a = (a - Spec.Rsum (map g l))%R.
Proof.
  revert a. induction l as [ | x l IH]; intros a; cbn.
  - lra.
  - rewrite IH. unfold Spec.Rsum. lra.
Qed.

Lemma Rsum_permutation (xs ys : list R) :
  Permutation xs ys -> Spec.Rsum xs = Spec.Rsum ys.
Proof.
  induction 1; cbn; try lra.
  unfold Spec.Rsum in *. lra.
Qed.

(** The loop over the frequency dict computes the Shannon entropy. *)
Lemma calculate_entropy_is_shannon (text : str) :
  calculate_entropy text = Spec.shannon_entropy text.
Proof.
  destruct text as [ | a text'].
  - unfold calculate_entropy, Spec.shannon_entropy. cbn. lra.
  - set (text := a :: text').
    unfold calculate_entropy, Spec.shannon_entropy. cbn [Py.is_empty text].
    fold text. cbv zeta.
    rewrite (fold_left_minus
               (fun count => (INR count / INR (Py.len text)
                              * log2 (INR count / INR (Py.len text)))%R)).
    destruct (counting_loop text [] (NoDup_nil _)) as (Hn & Hin & Hget).
    fold (count_frequencies text) in Hn, Hin, Hget.
    rewrite (values_by_key _ Hn), map_map.
    rewrite (map_ext _ (fun c => (Spec.probability text c
                                   * log2 (Spec.probability text c))%R)).
    + rewrite (Rsum_permutation _
                 (map (fun c => (Spec.probability text c
                                 * log2 (Spec.probability text c))%R)
                    (nodup ascii_dec text))).
      * lra.
      * apply Permutation_map. apply NoDup_Permutation.
        -- exact Hn.
        -- apply NoDup_nodup.
        -- intros c. rewrite Hin, nodup_In. cbn. tauto.
    + intros c. rewrite Hget. reflexivity.
Qed.

Lemma log2_1 : log2 1 = 0%R.
Proof. unfold log2. rewrite ln_1. lra. Qed.

Lemma nodup_repeat (c : ascii) (n : nat) :
  nodup ascii_dec (repeat c (S n)) = [c].
Proof.
  induction n as [ | n IH].
  - reflexivity.
  - change (repeat c (S (S n))) with (c :: repeat c (S n)).
    cbn [nodup]. destruct (in_dec ascii_dec c (repeat c (S n))) as [_ | Hn].
    + exact IH.
    + exfalso. apply Hn. left. reflexivity.
Qed.

Lemma shannon_entropy_repeat (c : ascii) (n : nat) :
  Spec.shannon_entropy (repeat c n) = 0%R.
Proof.
  destruct n as [ | n].
  - unfold Spec.shannon_entropy. cbn. lra.
  - unfold Spec.shannon_entropy. rewrite nodup_repeat. cbn [map Spec.Rsum fold_right].
    unfold Spec.probability, Py.len.
    rewrite count_occ_repeat_eq by reflexivity. rewrite repeat_length.
    assert (Hpos : (0 < INR (S n))%R) by (apply lt_0_INR; lia).
    replace (INR (S n) / INR (S n))%R with 1%R by (field; lra).
    rewrite log2_1. lra.
Qed.

End Entropy.

(** ** The entropy features *)

Section EntropyFeatures.

Import UrlFeatures.
Context `{Externals}.

(** The fields of the merged dict that the risk rules and the report read,
    in terms of the URL and of its parse. *)
Lemma extract_all_features_fields (url : str) (parsed : Urllib.ParseResult)
  (f : Features) :
  Urllib.urlparse url = Return parsed ->
  extract_all_features url = Return f ->
  url_length f = Py.len url
  /\ is_ip_address f = flag (Re.match_dollar dotted_quad (Urllib.netloc parsed))
  /\ has_at_symbol f = flag (Py.has_char "@" url)
  /\ suspicious_keyword_count f = keyword_count url
  /\ digit_ratio f = digit_ratio_of url
  /\ has_https f = flag (Py.eqb (Urllib.scheme parsed) "https")
  /\ url_entropy f = calculate_entropy url
  /\ domain_entropy f = calculate_entropy (Urllib.netloc parsed)
  /\ path_entropy f
     = (if negb (Py.is_empty (Urllib.path parsed))
        then calculate_entropy (Urllib.path parsed) else 0%R).
Proof.
  intros Hparse. unfold extract_all_features, extract_entropy_features.
  rewrite Hparse. cbn [bind]. unfold extract_length_features.
  destruct (extract_tld url (Urllib.netloc parsed)) as [[sub dom] tld].
  intros Hret. injection Hret as <-.
  cbn. repeat split; reflexivity.
Qed.

Lemma path_entropy_is_shannon (path : str) :
  (if negb (Py.is_empty path) then calculate_entropy path else 0%R)
  = Spec.shannon_entropy path.
Proof.
  destruct path as [ | c path]; cbn [Py.is_empty negb].
  - rewrite <- calculate_entropy_is_shannon. reflexivity.
  - apply calculate_entropy_is_shannon.
Qed.

(** C5, amended: for every URL string, the three entropy features are the
    base-2 Shannon entropies of the whole URL, of the host and of the path,
    not rounded; and the entropy of the empty string, and of a string made of
    one character repeated, is exactly 0. *)
Theorem entropy_features_are_shannon_entropies (url : str) :
  extract_entropy_features url
  = (parsed <- Urllib.urlparse url ;;
     Return (Spec.shannon_entropy url,
             Spec.shannon_entropy (Urllib.netloc parsed),
             Spec.shannon_entropy (Urllib.path parsed)))
  /\ (forall f, extract_all_features url = Return f ->
      exists parsed,
        Urllib.urlparse url = Return parsed
        /\ url_entropy f = Spec.shannon_entropy url
        /\ domain_entropy f = Spec.shannon_entropy (Urllib.netloc parsed)
        /\ path_entropy f = Spec.shannon_entropy (Urllib.path parsed))
  /\ calculate_entropy [] = 0%R
  /\ (forall (c : ascii) (n : nat), calculate_entropy (repeat c n) = 0%R).
Proof.
  split; [ | split; [ | split]].
  - unfold extract_entropy_features.
    destruct (Urllib.urlparse url) as [msg | parsed]; cbn [bind]; [reflexivity | ].
    rewrite path_entropy_is_shannon, !calculate_entropy_is_shannon. reflexivity.
  - intros f Hf.
    destruct (Urllib.urlparse url) as [msg | parsed] eqn:Hparse.
    + unfold extract_all_features in Hf. rewrite Hparse in Hf. discriminate.
    + exists parsed. split; [reflexivity | ].
      destruct (extract_all_features_fields url parsed f Hparse Hf)
        as (_ & _ & _ & _ & _ & _ & Hu & Hd & Hp).
      rewrite Hu, Hd, Hp, path_entropy_is_shannon, !calculate_entropy_is_shannon.
      repeat split.
  - reflexivity.
  - intros c n. rewrite calculate_entropy_is_shannon. apply shannon_entropy_repeat.
Qed.

End EntropyFeatures.

Section NotRounded.

Import UrlFeatures.
Open Scope R_scope.

Lemma log2_inv_pow2 (n : nat) : log2 (/ 2 ^ n) = - INR n.
Proof.
  unfold log2.
  assert (H2 : 0 < ln 2) by (pose proof ln_lt_2; lra).
  rewrite ln_Rinv by (apply pow_lt; lra).
  rewrite ln_pow by lra. field. lra.
Qed.

Lemma nineteen_eighths_not_two_decimals : ~ Spec.two_decimals (19 / 8).
Proof.
  intros [k Hk].
  assert (Hz : IZR (2 * k) = IZR 475) by (rewrite mult_IZR; lra).
  apply eq_IZR in Hz. lia.
Qed.

Lemma Rround2_two_decimals (x : R) : Spec.two_decimals (Scorer.Rround2 x).
Proof. unfold Scorer.Rround2. eexists. reflexivity. Qed.

Lemma entropy_of_sample_url :
  calculate_entropy "http://hh.tt/hp/" = 19 / 8.
Proof.
  unfold calculate_entropy.
  change (Py.is_empty "http://hh.tt/hp/") with false. cbv iota zeta.
  change (count_frequencies "http://hh.tt/hp/")
    with [("h"%char, 4%nat); ("t"%char, 4%nat); ("p"%char, 2%nat);
          (":"%char, 1%nat); ("/"%char, 4%nat); ("."%char, 1%nat)].
  change (Py.len "http://hh.tt/hp/") with 16%nat.
  cbn [map snd fold_left].
  replace (INR 4 / INR 16) with (/ 2 ^ 2) by (cbn; lra).
  replace (INR 2 / INR 16) with (/ 2 ^ 3) by (cbn; lra).
  replace (INR 1 / INR 16) with (/ 2 ^ 4) by (cbn; lra).
  rewrite !log2_inv_pow2. cbn [INR pow]. lra.
Qed.

(** C5 as stated fails: the URL [http://hh.tt/hp/] has entropy 2.375, which
    is what the feature holds; it is no number of two decimals, so it is not
    the entropy rounded to two decimals. *)
Lemma url_entropy_is_not_rounded :
  exists u d p,
    extract_entropy_features (H := Sample.externals) "http://hh.tt/hp/"
    = Return (u, d, p)
    /\ u = 19 / 8
    /\ u <> Scorer.Rround2 (Spec.shannon_entropy "http://hh.tt/hp/").
Proof.
  eexists. eexists. eexists. split; [ | split].
  - unfold extract_entropy_features.
    change (Urllib.urlparse (H := Sample.externals) "http://hh.tt/hp/")
      with (Return {| Urllib.scheme := "http"; Urllib.netloc := "hh.tt";
                      Urllib.path := "/hp/"; Urllib.params := [];
                      Urllib.query := []; Urllib.fragment := [] |}).
    cbn [bind]. reflexivity.
  - apply entropy_of_sample_url.
  - intros Heq. apply nineteen_eighths_not_two_decimals.
    rewrite <- entropy_of_sample_url, Heq. apply Rround2_two_decimals.
Qed.

End NotRounded.

(** ** The scenario of an IP host with login keywords *)

Section IpLogin.

Import ApiChecker UrlFeatures Scorer.

Lemma round_integer (k : Z) : (round (inject_Z k) 2 == inject_Z k)%Q.
Proof.
  unfold round. change (inject_Z (10 ^ Z.of_nat 2)) with 100%Q.
  assert (Hr : round_half_even (inject_Z k * 100) = (k * 100)%Z).
  { unfold round_half_even. cbn [Qnum Qden Qmult inject_Z Pos.mul].
    rewrite Z.div_1_r, Z.mod_1_r. reflexivity. }
  rewrite Hr, inject_Z_mult. change (inject_Z 100) with 100%Q. field.
Qed.

Lemma rule_factors (cond : bool) (points : Z) (factor : str) (st : Z * list str) :
  snd (rule cond points factor st) = snd st ++ (if cond then [factor] else []).
Proof. unfold rule. destruct cond; cbn; [reflexivity | rewrite app_nil_r; reflexivity]. Qed.

(** An IP host and more than two keywords weigh at least 35 points and
    leave their two factors. *)
Lemma risk_rules_ip_and_keywords (f : Features) :
  truthy (is_ip_address f) = true ->
  (2 <? suspicious_keyword_count f)%nat = true ->
  35 <= fst (risk_rules f)
  /\ In Spec.ip_factor (snd (risk_rules f))
  /\ In Spec.keywords_factor (snd (risk_rules f)).
Proof.
  intros Hip Hkw. unfold risk_rules. rewrite Hip, Hkw.
  split; [ | split].
  - rewrite !rule_points. cbn [fst].
    destruct (75 <? url_length f)%nat, (truthy (has_at_symbol f)),
      (3 <? subdomain_count f)%nat, (Qgtb (digit_ratio f) (3 # 10)),
      (negb (truthy (has_https f))), (Rgtb (url_entropy f) 5); lia.
  - rewrite !rule_factors. cbn [snd].
    do 6 (apply in_or_app; left).
    apply in_or_app. right. left. reflexivity.
  - rewrite !rule_factors. cbn [snd].
    do 3 (apply in_or_app; left).
    apply in_or_app. right. left. reflexivity.
Qed.

Lemma every_level_with_ip_and_keywords :
  forallb (fun cf => forallb (Spec.level_with_ip_and_keywords (fst cf) (snd cf))
                       (map Z.of_nat (seq 35 66)))
    Spec.reachable_counts = true.
Proof. vm_compute. reflexivity. Qed.

Lemma level_with_ip_and_keywords_holds (results : ApiResults) (k : Z) :
  35 <= k <= 100 ->
  Spec.level_with_ip_and_keywords
    (total_apis_checked (_generate_summary results))
    (apis_flagged_malicious (_generate_summary results)) k = true.
Proof.
  intros Hk.
  pose proof every_level_with_ip_and_keywords as Hall.
  rewrite forallb_forall in Hall.
  specialize (Hall _ (counts_reachable results)). cbn [fst snd] in Hall.
  rewrite forallb_forall in Hall. apply Hall.
  apply in_map_iff. exists (Z.to_nat k). split; [lia | ]. apply in_seq. lia.
Qed.

Context `{Externals}.

Lemma ip_login_url_is_valid :
  Validators.validate_url Spec.ip_login_url = (true, Spec.ip_login_url, []).
Proof. reflexivity. Qed.

Lemma ip_login_url_parse :
  Urllib.urlparse Spec.ip_login_url
  = Return {| Urllib.scheme := "http"; Urllib.netloc := "192.168.1.1";
              Urllib.path := "/login/verify/secure"; Urllib.params := [];
              Urllib.query := []; Urllib.fragment := [] |}.
Proof. reflexivity. Qed.

(** The analysis of the features of the URL. *)
Lemma ip_login_url_analysis (fr : FeatureResults) :
  analyze_url_features Spec.ip_login_url = Return fr ->
  exists f factors k,
    features fr = Some f
    /\ is_ip_address f = 1%nat
    /\ suspicious_keyword_count f = 3%nat
    /\ risk_factors fr = Some factors
    /\ In Spec.ip_factor factors
    /\ In Spec.keywords_factor factors
    /\ feature_risk_score fr = Some (inject_Z k)
    /\ 35 <= k <= 100.
Proof.
  unfold analyze_url_features.
  destruct (extract_all_features Spec.ip_login_url) as [msg | f] eqn:Hf;
    cbn [bind]; [discriminate | ].
  destruct (extract_all_features_fields _ _ f ip_login_url_parse Hf)
    as (_ & Hip & _ & Hkw & _).
  cbn [Urllib.netloc] in Hip.
  change (flag (Re.match_dollar dotted_quad "192.168.1.1")) with 1%nat in Hip.
  change (keyword_count Spec.ip_login_url) with 3%nat in Hkw.
  assert (Hip' : truthy (is_ip_address f) = true) by (rewrite Hip; reflexivity).
  assert (Hkw' : (2 <? suspicious_keyword_count f)%nat = true)
    by (rewrite Hkw; reflexivity).
  destruct (risk_rules_ip_and_keywords f Hip' Hkw') as (H35 & Hfi & Hfk).
  pose proof (risk_rules_range f) as Hrange.
  destruct (risk_rules f) as [risk_score factors]. cbn [fst snd] in *.
  intros Hret. injection Hret as <-.
  exists f, factors, (Z.min risk_score 100).
  cbn [features risk_factors feature_risk_score].
  repeat split; try assumption; lia.
Qed.

(** The report on the URL, for any answers of the providers. *)
Lemma ip_login_url_report (net : Main.network) :
  exists a fr f factors k,
    Main.scan_url net Spec.ip_login_url
    = ([Main.check_all_apis Spec.ip_login_url;
        Main.analyze_url_features Spec.ip_login_url;
        Main.get_complete_analysis Spec.ip_login_url],
       Main.Report a)
    /\ a = get_complete_analysis Spec.ip_login_url
             (check_all_apis (net Spec.ip_login_url)) fr
    /\ features fr = Some f
    /\ is_ip_address f = 1%nat
    /\ suspicious_keyword_count f = 3%nat
    /\ risk_factors fr = Some factors
    /\ In Spec.ip_factor factors
    /\ In Spec.keywords_factor factors
    /\ feature_risk_score fr = Some (inject_Z k)
    /\ 35 <= k <= 100.
Proof.
  destruct (scan_url_reports net _ _ _ ip_login_url_is_valid) as (fr & Hfr & Hscan).
  destruct (ip_login_url_analysis fr Hfr)
    as (f & factors & k & Hf & Hip & Hkw & Hfac & Hfi & Hfk & Hk & Hrange).
  exists (get_complete_analysis Spec.ip_login_url
            (check_all_apis (net Spec.ip_login_url)) fr), fr, f, factors, k.
  repeat split; try assumption; lia.
Qed.

(** C9, amended: for the input [http://192.168.1.1/login/verify/secure] the
    route reports; the features have [is_ip_address] set and three
    suspicious keywords; the feature score holds at least the 20 points of
    the IP host and the 15 of the keywords, with their two factors; and the
    level is at least SUSPICIOUS when no provider was checked or some
    provider flagged the URL, while it is SAFE when providers were checked
    and none flagged it. *)
Theorem ip_login_url_assessment (net : Main.network) :
  exists a s,
    Main.scan_url net Spec.ip_login_url
    = ([Main.check_all_apis Spec.ip_login_url;
        Main.analyze_url_features Spec.ip_login_url;
        Main.get_complete_analysis Spec.ip_login_url],
       Main.Report a)
    /\ api_checks_summary a = Some s
    /\ key_is_ip_address (key_features a) = true
    /\ suspicious_keywords (key_features a) = 3%nat
    /\ In Spec.ip_factor (url_analysis_risk_factors a)
    /\ In Spec.keywords_factor (url_analysis_risk_factors a)
    /\ (35 <= score_details_feature_score a)%Q
    /\ (total_apis_checked s = 0 \/ 0 < apis_flagged_malicious s ->
        Spec.at_least_suspicious (risk_assessment_level a))
    /\ (0 < total_apis_checked s -> apis_flagged_malicious s = 0 ->
        risk_assessment_level a = ("SAFE" : str)).
Proof.
  destruct (ip_login_url_report net)
    as (a & fr & f & factors & k & Hscan & Ha & Hf & Hip & Hkw & Hfac & Hfi & Hfk
        & Hk & Hrange).
  destruct (report_score_and_level (net Spec.ip_login_url) fr Spec.ip_login_url k Hk)
    as [_ Hlevel].
  rewrite <- Ha in Hlevel.
  destruct (net Spec.ip_login_url) as [[t0 t1] t2] eqn:Hnet.
  cbn [check_all_apis google_safe_browsing virustotal urlhaus] in Hlevel.
  set (results := {| google_safe_browsing := Some (unwrap t0);
                     virustotal := Some (unwrap t1);
                     urlhaus := Some (unwrap t2);
                     summary := None |}) in *.
  pose proof (level_with_ip_and_keywords_holds results k Hrange) as Hcheck.
  unfold Spec.level_with_ip_and_keywords in Hcheck. cbv zeta in Hcheck.
  rewrite <- Hlevel in Hcheck.
  exists a, (_generate_summary results).
  split; [exact Hscan | ].
  assert (Hkey : key_features a = _extract_key_features fr)
    by (rewrite Ha; reflexivity).
  assert (Hfactors : url_analysis_risk_factors a = factors)
    by (rewrite Ha; unfold get_complete_analysis, get_detailed_analysis;
        cbn [url_analysis_risk_factors]; rewrite Hfac; reflexivity).
  assert (Hscore : score_details_feature_score a = round (inject_Z k) 2)
    by (rewrite Ha; unfold get_complete_analysis, get_detailed_analysis,
          calculate_risk_score;
        cbn [score_details_feature_score feature_score]; rewrite Hk; reflexivity).
  unfold _extract_key_features in Hkey. rewrite Hf in Hkey.
  split; [rewrite Ha; reflexivity | ].
  split; [rewrite Hkey; cbn [key_is_ip_address]; rewrite Hip; reflexivity | ].
  split; [rewrite Hkey; cbn [suspicious_keywords]; exact Hkw | ].
  split; [rewrite Hfactors; exact Hfi | ].
  split; [rewrite Hfactors; exact Hfk | ].
  split.
  { rewrite Hscore, round_integer. change (inject_Z 35 <= inject_Z k)%Q.
    rewrite <- Zle_Qle. lia. }
  split.
  - intros Hcase.
    destruct ((0 <? total_apis_checked (_generate_summary results))
              && (apis_flagged_malicious (_generate_summary results) =? 0))
      eqn:Hguard.
    + apply andb_true_iff in Hguard as [Hc Hz]. lia.
    + apply orb_true_iff in Hcheck as [Hs | Hm]; apply Py_eqb_eq in Hs || apply Py_eqb_eq in Hm.
      * left. exact Hs.
      * right. exact Hm.
  - intros Hc Hz.
    assert (Hguard : (0 <? total_apis_checked (_generate_summary results))
                     && (apis_flagged_malicious (_generate_summary results) =? 0)
                     = true).
    { apply andb_true_iff. split; [apply Z.ltb_lt; exact Hc | apply Z.eqb_eq; exact Hz]. }
    rewrite Hguard in Hcheck. apply Py_eqb_eq. exact Hcheck.
Qed.

End IpLogin.

(** ** The scenario when no provider flags the URL *)

Section IpLoginSafe.

Import ApiChecker UrlFeatures Scorer.
Open Scope R_scope.

Lemma log2_lower (x : R) (a b : nat) :
  0 < x -> (0 < b)%nat -> 1 <= x ^ b * 2 ^ a -> - (INR a / INR b) <= log2 x.
Proof.
  intros Hx Hb Hpow.
  assert (H2 : 0 < ln 2) by (pose proof ln_lt_2; lra).
  assert (HB : 0 < INR b) by (apply lt_0_INR; exact Hb).
  assert (Hxb : 0 < x ^ b) by (apply pow_lt; exact Hx).
  assert (H2a : 0 < 2 ^ a) by (apply pow_lt; lra).
  assert (Hln : 0 <= ln (x ^ b * 2 ^ a)).
  { destruct Hpow as [Hlt | Heq].
    - left. rewrite <- ln_1. apply ln_increasing; [lra | exact Hlt].
    - rewrite <- Heq, ln_1. lra. }
  rewrite ln_mult, !ln_pow in Hln by assumption || lra.
  unfold log2.
  assert (E : ln x / ln 2 + INR a / INR b
              = (INR b * ln x + INR a * ln 2) * / (ln 2 * INR b))
    by (field; split; lra).
  assert (Hpos : 0 <= (INR b * ln x + INR a * ln 2) * / (ln 2 * INR b)).
  { apply Rmult_le_pos; [exact Hln | ].
    left. apply Rinv_0_lt_compat. apply Rmult_lt_0_compat; assumption. }
  lra.
Qed.

(** The entropy of the URL is below the threshold of the last risk rule:
    a character met once weighs at most 5.25/38 and any other occurrence at
    most 4.25/38. *)
Lemma ip_login_url_entropy : calculate_entropy Spec.ip_login_url <= 5.
Proof.
  unfold calculate_entropy.
  change (Py.is_empty Spec.ip_login_url) with false. cbv iota zeta.
  let v := eval vm_compute in (map snd (count_frequencies Spec.ip_login_url)) in
  change (map snd (count_frequencies Spec.ip_login_url)) with v.
  change (Py.len Spec.ip_login_url) with 38%nat.
  cbn [fold_left].
  replace (INR 38) with 38 by (cbn; lra).
  replace (INR 1) with 1 by (cbn; lra).
  replace (INR 2) with 2 by (cbn; lra).
  replace (INR 3) with 3 by (cbn; lra).
  replace (INR 4) with 4 by (cbn; lra).
  replace (INR 5) with 5 by (cbn; lra).
  assert (L1 : - (INR 21 / INR 4) <= log2 (1 / 38))
    by (apply log2_lower; [lra | lia | cbn; lra]).
  assert (L2 : - (INR 17 / INR 4) <= log2 (2 / 38))
    by (apply log2_lower; [lra | lia | cbn; lra]).
  assert (L3 : - (INR 17 / INR 4) <= log2 (3 / 38))
    by (apply log2_lower; [lra | lia | cbn; lra]).
  assert (L4 : - (INR 17 / INR 4) <= log2 (4 / 38))
    by (apply log2_lower; [lra | lia | cbn; lra]).
  assert (L5 : - (INR 17 / INR 4) <= log2 (5 / 38))
    by (apply log2_lower; [lra | lia | cbn; lra]).
  replace (INR 21 / INR 4) with (21 / 4) in L1 by (cbn; lra).
  replace (INR 17 / INR 4) with (17 / 4) in L2, L3, L4, L5 by (cbn; lra).
  generalize dependent (log2 (1 / 38)). generalize dependent (log2 (2 / 38)).
  generalize dependent (log2 (3 / 38)). generalize dependent (log2 (4 / 38)).
  generalize dependent (log2 (5 / 38)).
  intros. lra.
Qed.

(** In the environment of the examples the feature score of the URL is 40:
    20 for the IP host, 15 for the keywords, 5 for the missing HTTPS. *)
Lemma ip_login_url_feature_score (fr : FeatureResults) :
  analyze_url_features (H := Sample.externals) Spec.ip_login_url = Return fr ->
  feature_risk_score fr = Some (inject_Z 40)
  /\ risk_factors fr
     = Some [Spec.ip_factor; Spec.keywords_factor; "Not using HTTPS" : str].
Proof.
  unfold analyze_url_features.
  destruct (extract_all_features (H := Sample.externals) Spec.ip_login_url)
    as [msg | f] eqn:Hf; cbn [bind]; [discriminate | ].
  destruct (extract_all_features_fields (H := Sample.externals) _ _ f
              (ip_login_url_parse (H := Sample.externals)) Hf)
    as (Hlen & Hip & Hat & Hkw & Hdr & Hhttps & Hent & _).
  assert (Hsub : subdomain_count f = 0%nat).
  { unfold extract_all_features, extract_entropy_features in Hf.
    rewrite (ip_login_url_parse (H := Sample.externals)) in Hf. cbn [bind] in Hf.
    unfold extract_length_features in Hf.
    change (extract_tld (H := Sample.externals) Spec.ip_login_url
              (Urllib.netloc
                 {| Urllib.scheme := "http"; Urllib.netloc := "192.168.1.1";
                    Urllib.path := "/login/verify/secure"; Urllib.params := [];
                    Urllib.query := []; Urllib.fragment := [] |}))
      with ([] : str, "192.168.1.1" : str, [] : str) in Hf.
    injection Hf as <-. reflexivity. }
  unfold risk_rules, rule.
  rewrite Hlen, Hip, Hat, Hsub, Hkw, Hdr, Hhttps, Hent.
  assert (Hng : Rgtb (calculate_entropy Spec.ip_login_url) 5 = false).
  { unfold Rgtb. destruct (Rlt_dec 5 (calculate_entropy Spec.ip_login_url)) as [Hlt | _];
      [ | reflexivity]. pose proof ip_login_url_entropy. lra. }
  rewrite Hng.
  intros Hret. injection Hret as <-. split; reflexivity.
Qed.

(** C9 as stated fails: when the two keyed providers are not configured
    and URLhaus does not know the URL, the report on
    [http://192.168.1.1/login/verify/secure] has feature score 40, API score
    0, final score 12, and its level is SAFE, below SUSPICIOUS. *)
Lemma ip_login_url_is_safe_when_no_provider_flags :
  exists a,
    Main.scan_url (H := Sample.externals) Sample.only_urlhaus_safe Spec.ip_login_url
    = ([Main.check_all_apis Spec.ip_login_url;
        Main.analyze_url_features Spec.ip_login_url;
        Main.get_complete_analysis Spec.ip_login_url],
       Main.Report a)
    /\ key_is_ip_address (key_features a) = true
    /\ suspicious_keywords (key_features a) = 3%nat
    /\ (score_details_feature_score a == 40)%Q
    /\ (score_details_api_score a == 0)%Q
    /\ (risk_assessment_score a == 12)%Q
    /\ risk_assessment_level a = ("SAFE" : str)
    /\ ~ Spec.at_least_suspicious (risk_assessment_level a).
Proof.
  destruct (scan_url_reports (H := Sample.externals) Sample.only_urlhaus_safe _ _ _
              (ip_login_url_is_valid (H := Sample.externals)))
    as (fr & Hfr & Hscan).
  destruct (ip_login_url_analysis (H := Sample.externals) fr Hfr)
    as (f & factors & k & Hf & Hip & Hkw & _).
  destruct (ip_login_url_feature_score fr Hfr) as [Hscore _].
  eexists. split; [exact Hscan | ].
  unfold get_complete_analysis, get_detailed_analysis, calculate_risk_score.
  cbn [key_features score_details_feature_score score_details_api_score
         risk_assessment_score risk_assessment_level final_score risk_level
         api_score feature_score].
  unfold _extract_key_features. rewrite Hf, Hscore.
  cbn [key_is_ip_address suspicious_keywords]. rewrite Hip, Hkw.
  change (_calculate_api_score
            (check_all_apis (Sample.only_urlhaus_safe Spec.ip_login_url)))
    with 0%Q.
  split; [reflexivity | ]. split; [reflexivity | ].
  split; [reflexivity | ]. split; [reflexivity | ].
  split; [reflexivity | ]. split; [reflexivity | ].
  intros [Hs | Hm]; [vm_compute in Hs | vm_compute in Hm]; discriminate.
Qed.

End IpLoginSafe.

(** ** Matching by derivatives decides the language *)

Section Derivatives.

Import Re ReLang.

Lemma nullable_lang (r : re) : nullable r = true <-> lang r [].
Proof.
  induction r as [ | | p | r1 IH1 r2 IH2 | r1 IH1 r2 IH2 | r IH]; cbn.
  - split; [discriminate | intros H; inversion H].
  - split; [intros _; constructor | reflexivity].
  - split; [discriminate | intros H; inversion H].
  - rewrite andb_true_iff, IH1, IH2. split.
    + intros [H1 H2]. exact (lang_cat _ _ [] [] H1 H2).
    + intros H. inversion H as [ | | a b s1 s2 H1 H2 E1 E2 | | | | ]; subst.
      apply app_eq_nil in E2 as [-> ->]. split; assumption.
  - rewrite orb_true_iff, IH1, IH2. split.
    + intros [H | H]; [apply lang_alt_l | apply lang_alt_r]; exact H.
    + intros H. inversion H; subst; [left | right]; assumption.
  - split; [intros _; constructor | reflexivity].
Qed.

Lemma lang_void (s : str) : ~ lang Void s.
Proof. intros H. inversion H. Qed.

Lemma lang_cat_smart (r1 r2 : re) (s : str) : lang (cat r1 r2) s <-> lang (Cat r1 r2) s.
Proof.
  split.
  - unfold cat. intros H.
    destruct r1; try (now exfalso; apply (lang_void s));
      destruct r2; try (now exfalso; apply (lang_void s)); try exact H;
      try (rewrite <- (app_nil_l s); apply lang_cat; [constructor | exact H]);
      try (rewrite <- (app_nil_r s); apply lang_cat; [exact H | constructor]).
  - intros H. inversion H as [ | | a b s1 s2 H1 H2 E1 E2 | | | | ]; subst.
    unfold cat.
    destruct r1; try (now inversion H1);
      destruct r2; try (now inversion H2); try exact H;
      try (inversion H1; subst; cbn; exact H2);
      try (inversion H2; subst; rewrite app_nil_r; exact H1).
Qed.

Lemma lang_alt_smart (r1 r2 : re) (s : str) : lang (alt r1 r2) s <-> lang (Alt r1 r2) s.
Proof.
  split.
  - unfold alt. intros H.
    destruct r1; try (now apply lang_alt_r);
      destruct r2; try (now apply lang_alt_l); exact H.
  - intros H. unfold alt.
    destruct r1; try (inversion H; subst; [now exfalso; eapply lang_void; eauto | assumption]);
      destruct r2; try (inversion H; subst; [assumption | now exfalso; eapply lang_void; eauto]);
      exact H.
Qed.

(** A non-empty word of a starred language starts with a non-empty word of
    the language. *)
Lemma lang_star_split (r : re) (w : str) :
  lang (Star r) w ->
  forall (c : ascii) (s : str), w = c :: s ->
  exists s1 s2, s = s1 ++ s2 /\ lang r (c :: s1) /\ lang (Star r) s2.
Proof.
  intros H. remember (Star r) as r' eqn:Er.
  induction H as [ | p d Hp | a b u v Hu _ Hv _ | a b u Hu _ | a b u Hu _ | a
                 | a u v Hu _ Hv IHv]; intros c s Ew; try discriminate.
  injection Er as ->.
  destruct u as [ | d u].
  - cbn in Ew. apply (IHv eq_refl c s Ew).
  - cbn in Ew. injection Ew as -> <-. exists u, v. repeat split; assumption.
Qed.

Lemma lang_star_cons (r : re) (c : ascii) (s : str) :
  lang (Star r) (c :: s) ->
  exists s1 s2, s = s1 ++ s2 /\ lang r (c :: s1) /\ lang (Star r) s2.
Proof. intros H. exact (lang_star_split r _ H c s eq_refl). Qed.

Lemma deriv_lang (r : re) (c : ascii) (s : str) :
  lang (deriv c r) s <-> lang r (c :: s).
Proof.
  revert s. induction r as [ | | p | r1 IH1 r2 IH2 | r1 IH1 r2 IH2 | r IH];
    intros s; cbn [deriv].
  - split; intros H; inversion H.
  - split; intros H; inversion H.
  - destruct (p c) eqn:Hp; split; intros H; inversion H; subst.
    + constructor. exact Hp.
    + constructor.
    + congruence.
  - assert (Hleft : lang (Cat (deriv c r1) r2) s
                    <-> exists s1 s2, s = s1 ++ s2 /\ lang r1 (c :: s1) /\ lang r2 s2).
    { split.
      - intros H. inversion H as [ | | a b s1 s2 H1 H2 E1 E2 | | | | ]; subst.
        exists s1, s2. rewrite <- IH1. repeat split; assumption.
      - intros (s1 & s2 & -> & H1 & H2). apply lang_cat; [apply IH1; exact H1 | exact H2]. }
    assert (Hcat : lang (Cat r1 r2) (c :: s)
                   <-> (exists s1 s2, s = s1 ++ s2 /\ lang r1 (c :: s1) /\ lang r2 s2)
                       \/ (lang r1 [] /\ lang r2 (c :: s))).
    { split.
      - intros H. inversion H as [ | | a b s1 s2 H1 H2 E1 E2 | | | | ]; subst.
        destruct s1 as [ | d s1].
        + right. cbn in E2. subst s2. split; assumption.
        + left. cbn in E2. injection E2 as -> <-. exists s1, s2. repeat split; assumption.
      - intros [(s1 & s2 & -> & H1 & H2) | [H1 H2]].
        + exact (lang_cat _ _ (c :: s1) s2 H1 H2).
        + exact (lang_cat _ _ [] (c :: s) H1 H2). }
    rewrite Hcat. destruct (nullable r1) eqn:Hn.
    + rewrite lang_alt_smart. split.
      * intros H. inversion H; subst.
        -- left. apply Hleft. apply lang_cat_smart. assumption.
        -- right. split; [apply nullable_lang; exact Hn | apply IH2; assumption].
      * intros [H | [_ H]].
        -- apply lang_alt_l. apply lang_cat_smart. apply Hleft. exact H.
        -- apply lang_alt_r. apply IH2. exact H.
    + rewrite lang_cat_smart, Hleft. split; [intros H; left; exact H | ].
      intros [H | [H _]]; [exact H | ].
      apply nullable_lang in H. congruence.
  - rewrite lang_alt_smart. split; intros H; inversion H; subst.
    + apply lang_alt_l. apply IH1. assumption.
    + apply lang_alt_r. apply IH2. assumption.
    + apply lang_alt_l. apply IH1. assumption.
    + apply lang_alt_r. apply IH2. assumption.
  - rewrite lang_cat_smart. split.
    + intros H. inversion H as [ | | a b s1 s2 H1 H2 E1 E2 | | | | ]; subst.
      apply IH in H1. exact (lang_star_app r (c :: s1) s2 H1 H2).
    + intros H. destruct (lang_star_cons r c s H) as (s1 & s2 & -> & H1 & H2).
      apply lang_cat; [apply IH; exact H1 | exact H2].
Qed.

(** [matches] decides membership in the language. *)
Lemma matches_lang (r : re) (s : str) : matches r s = true <-> lang r s.
Proof.
  revert r. induction s as [ | c s IH]; intros r; cbn [matches].
  - apply nullable_lang.
  - rewrite IH. apply deriv_lang.
Qed.

Lemma lang_uses (r : re) (s : str) :
  lang r s -> Forall (fun c => uses r c = true) s.
Proof.
  induction 1; cbn [uses].
  - constructor.
  - constructor; [assumption | constructor].
  - apply Forall_app. split.
    + eapply Forall_impl; [ | exact IHlang1]. intros c Hc. cbn. rewrite Hc. reflexivity.
    + eapply Forall_impl; [ | exact IHlang2]. intros c Hc. cbn. rewrite Hc.
      apply orb_true_r.
  - eapply Forall_impl; [ | exact IHlang]. intros c Hc. cbn. rewrite Hc. reflexivity.
  - eapply Forall_impl; [ | exact IHlang]. intros c Hc. cbn. rewrite Hc. apply orb_true_r.
  - constructor.
  - apply Forall_app. split; assumption.
Qed.

Lemma lang_star_any (s : str) : lang (Star any) s.
Proof.
  induction s as [ | c s IH]; [constructor | ].
  change (c :: s) with ([c] ++ s). apply lang_star_app; [ | exact IH].
  constructor. reflexivity.
Qed.

(** [re.search] finds the pattern exactly when some slice of the string is
    in its language. *)
Lemma search_lang (r : re) (s : str) :
  search r s = true <-> exists a m b, s = a ++ m ++ b /\ lang r m.
Proof.
  unfold search. rewrite matches_lang. split.
  - intros H. inversion H as [ | | r1 r2 a mb Ha Hmb E1 E2 | | | | ]; subst.
    inversion Hmb as [ | | r1 r2 m b Hm Hb E1 E2 | | | | ]; subst.
    exists a, m, b. split; [reflexivity | exact Hm].
  - intros (a & m & b & -> & Hm).
    apply lang_cat; [apply lang_star_any | ].
    apply lang_cat; [exact Hm | apply lang_star_any].
Qed.

End Derivatives.


(** ** What [is_valid_domain] accepts *)

Section ValidDomain.

Import Re ReLang.

Lemma uses_domain_pattern (c : ascii) :
  uses Validators.domain_pattern c = true -> Props.host_char c = true.
Proof.
  destruct c as [[] [] [] [] [] [] [] []]; vm_compute; intros H;
    first [reflexivity | discriminate H].
Qed.

Lemma uses_ip_pattern (c : ascii) :
  uses Validators.ip_pattern c = true -> Props.host_char c = true.
Proof.
  destruct c as [[] [] [] [] [] [] [] []]; vm_compute; intros H;
    first [reflexivity | discriminate H].
Qed.

Lemma matches_host_chars (s : str) :
  matches Validators.domain_pattern s = true
  \/ matches Validators.ip_pattern s = true ->
  s <> [] /\ Forall (fun c => Props.host_char c = true) s.
Proof.
  intros H. split.
  - intros ->. destruct H as [H | H]; vm_compute in H; discriminate.
  - destruct H as [H | H]; apply matches_lang, lang_uses in H;
      (eapply Forall_impl; [ | exact H]); intros c Hc.
    + apply uses_domain_pattern. exact Hc.
    + apply uses_ip_pattern. exact Hc.
Qed.

Lemma drop_final_newline_some (s s' : str) :
  drop_final_newline s = Some s' -> s = s' ++ ["010"%char].
Proof.
  unfold drop_final_newline. destruct (rev s) as [ | c r] eqn:Hrev; [discriminate | ].
  destruct (Py.is_code 10 c) eqn:Hc; [ | discriminate].
  intros Hs. injection Hs as <-.
  assert (Hcc : c = "010"%char).
  { unfold Py.is_code, Py.code in Hc. apply N.eqb_eq in Hc.
    rewrite <- (ascii_N_embedding c), Hc. reflexivity. }
  subst c. rewrite <- (rev_involutive s), Hrev. reflexivity.
Qed.

Lemma match_dollar_host_chars (s : str) :
  match_dollar Validators.domain_pattern s = true
  \/ match_dollar Validators.ip_pattern s = true ->
  s <> []
  /\ Forall (fun c => Props.host_char c = true \/ Props.newline c = true) s.
Proof.
  assert (Hone : forall r,
            match_dollar r s = true ->
            matches r s = true
            \/ exists s', s = s' ++ ["010"%char] /\ matches r s' = true).
  { intros r Hr. unfold match_dollar in Hr. apply orb_true_iff in Hr as [Hr | Hr];
      [left; exact Hr | right].
    destruct (drop_final_newline s) as [s' | ] eqn:Hd; [ | discriminate].
    exists s'. split; [apply drop_final_newline_some; exact Hd | exact Hr]. }
  assert (Hplain : forall t,
            matches Validators.domain_pattern t = true
            \/ matches Validators.ip_pattern t = true ->
            Forall (fun c => Props.host_char c = true \/ Props.newline c = true) t).
  { intros t Ht. destruct (matches_host_chars t Ht) as [_ Hf].
    eapply Forall_impl; [ | exact Hf]. intros c Hc. left. exact Hc. }
  intros [H | H]; apply Hone in H; destruct H as [H | (s' & -> & H)].
  - split; [apply matches_host_chars; left; exact H | apply Hplain; left; exact H].
  - split; [destruct s'; discriminate | ].
    apply Forall_app. split; [apply Hplain; left; exact H | ].
    constructor; [right; reflexivity | constructor].
  - split; [apply matches_host_chars; right; exact H | apply Hplain; right; exact H].
  - split; [destruct s'; discriminate | ].
    apply Forall_app. split; [apply Hplain; right; exact H | ].
    constructor; [right; reflexivity | constructor].
Qed.

Lemma valid_domain_shape (domain : str) :
  Validators.is_valid_domain domain = true ->
  let host := Props.before_port domain in
  host <> []
  /\ (Py.len host <= 253)%nat
  /\ Forall (fun c => Props.host_char c = true \/ Props.newline c = true) host
  /\ Forall (fun label => (Py.len label <= 63)%nat) (Py.split "." host).
Proof.
  unfold Validators.is_valid_domain, Props.before_port. cbv zeta.
  set (host := if Py.has_char ":" domain then hd [] (Py.split ":" domain) else domain).
  destruct (match_dollar Validators.domain_pattern host
            || match_dollar Validators.ip_pattern host) eqn:Hm;
    [ | intros H; discriminate H].
  apply orb_true_iff in Hm. destruct (match_dollar_host_chars host Hm) as [Hne Hchars].
  destruct (253 <? Py.len host)%nat eqn:Hlen; [intros H; discriminate H | ].
  intros Hlabels. apply Nat.ltb_ge in Hlen.
  split; [exact Hne | split; [exact Hlen | split; [exact Hchars | ]]].
  rewrite forallb_forall in Hlabels. apply Forall_forall. intros label Hin.
  specialize (Hlabels label Hin). apply negb_true_iff, Nat.ltb_ge in Hlabels.
  exact Hlabels.
Qed.

(** X1: a domain [is_valid_domain] accepts has, before its first colon, a
    non-empty text of at most 253 characters, made of ASCII letters, digits,
    hyphens and dots (and possibly a newline, which [$] lets through at the
    end), in labels of at most 63 characters. *)
Theorem valid_domain_alphabet_and_lengths (domain : str) :
  Validators.is_valid_domain domain = true ->
  let host := Props.before_port domain in
  host <> []
  /\ (Py.len host <= 253)%nat
  /\ Forall (fun c => Props.host_char c = true \/ Props.newline c = true) host
  /\ Forall (fun label => (Py.len label <= 63)%nat) (Py.split "." host).
Proof. exact (valid_domain_shape domain). Qed.

Lemma valid_domain_alphabet_and_lengths_witness :
  Forall (fun c => Props.host_char c = true \/ Props.newline c = true)
    (Props.before_port "example.com:8080").
Proof.
  exact (proj1 (proj2 (proj2
           (valid_domain_alphabet_and_lengths "example.com:8080" eq_refl)))).
Defined.

Lemma find_none_not_in (c : ascii) (s : str) : Py.has_char c s = false -> Py.find c s = None.
Proof.
  induction s as [ | d s IH]; cbn; [reflexivity | ].
  rewrite Ascii.eqb_sym. destruct (Ascii.eqb d c); cbn; [discriminate | ].
  intros H. rewrite (IH H). reflexivity.
Qed.

Lemma split_hd_app (sep : ascii) (h rest : str) :
  Py.has_char sep h = false ->
  hd [] (Py.split sep (h ++ sep :: rest)) = h.
Proof.
  induction h as [ | c h IH]; cbn.
  - intros _. rewrite Ascii.eqb_refl. reflexivity.
  - rewrite Ascii.eqb_sym. destruct (Ascii.eqb c sep) eqn:Hc; cbn; [discriminate | ].
    intros Hh. specialize (IH Hh).
    destruct (Py.split sep (h ++ sep :: rest)) as [ | x xs]; cbn in *.
    + subst h. reflexivity.
    + subst x. reflexivity.
Qed.

Lemma has_char_app (c : ascii) (a b : str) :
  Py.has_char c (a ++ b) = Py.has_char c a || Py.has_char c b.
Proof. unfold Py.has_char. apply existsb_app. Qed.

(** X2: [is_valid_domain] ignores whatever follows the first colon: a port
    is never looked at. *)
Theorem valid_domain_ignores_port (host rest : str) :
  Py.has_char ":" host = false ->
  Validators.is_valid_domain (host ++ ":" ++ rest) = Validators.is_valid_domain host.
Proof.
  intros Hh. unfold Validators.is_valid_domain.
  rewrite Hh, has_char_app. cbn [Py.has_char existsb app list_ascii_of_string].
  rewrite Ascii.eqb_refl, orb_true_r. cbn [orb].
  change (":"%char :: [] ++ rest) with (":"%char :: rest).
  rewrite (split_hd_app ":" host rest Hh). reflexivity.
Qed.

Lemma valid_domain_ignores_port_witness :
  Validators.is_valid_domain ("example.com" ++ ":" ++ "not a port")
  = Validators.is_valid_domain "example.com".
Proof. apply valid_domain_ignores_port. reflexivity. Defined.

End ValidDomain.


(** ** Validation of a URL that was already accepted *)

Section Revalidation.

Context `{Externals}.

Lemma lstrip_by_app_fixed (p : ascii -> bool) (a b : str) :
  a <> [] -> Py.lstrip_by p a = a -> Py.lstrip_by p (a ++ b) = a ++ b.
Proof.
  destruct a as [ | c a]; [contradiction | ]. intros _. cbn.
  destruct (p c) eqn:Hc; [ | reflexivity].
  intros Habs. exfalso.
  assert (Hlen : (List.length (Py.lstrip_by p a) <= List.length a)%nat).
  { clear. induction a as [ | d a IH]; cbn; [lia | ]. destruct (p d); cbn; lia. }
  rewrite Habs in Hlen. cbn in Hlen. lia.
Qed.

(** A non-empty trimmed string has no whitespace at either end. *)
Lemma stripped_both_ends (t : str) :
  t <> [] -> Py.strip t = t ->
  Py.lstrip_by Py.isspace t = t /\ Py.rstrip_by Py.isspace t = t.
Proof.
  intros Hne Hs. unfold Py.strip in Hs.
  destruct (lstrip_by_head Py.isspace t) as [Hl | (c & r & Hl & Hc)].
  - rewrite Hl in Hs. cbn in Hs. congruence.
  - rewrite Hl in Hs.
    destruct (rstrip_by_keeps_head Py.isspace c r Hc) as [r' Hr].
    rewrite Hr in Hs.
    assert (Hlt : Py.lstrip_by Py.isspace t = t).
    { rewrite <- Hs. apply lstrip_by_fixed. exact Hc. }
    split; [exact Hlt | ].
    rewrite Hlt in Hl. rewrite <- Hl in Hr. rewrite Hr. exact Hs.
Qed.

Lemma strip_keeps_prefixed (p t : str) :
  p <> [] -> Py.lstrip_by Py.isspace p = p ->
  t <> [] -> Py.strip t = t ->
  Py.strip (p ++ t) = p ++ t.
Proof.
  intros Hp Hpl Ht Hts.
  destruct (stripped_both_ends t Ht Hts) as [_ Hr].
  unfold Py.strip. rewrite (lstrip_by_app_fixed _ p t Hp Hpl).
  unfold Py.rstrip_by in *. rewrite rev_app_distr.
  assert (Hrev : Py.lstrip_by Py.isspace (rev t) = rev t).
  { rewrite <- (rev_involutive (Py.lstrip_by Py.isspace (rev t))), Hr. reflexivity. }
  rewrite lstrip_by_app_fixed.
  - rewrite rev_app_distr, !rev_involutive. reflexivity.
  - intros E. apply (f_equal (@rev ascii)) in E. rewrite rev_involutive in E.
    cbn in E. contradiction.
  - exact Hrev.
Qed.

(** The URL [validate_url] returns is trimmed and normalised already. *)
Lemma accepted_url_is_fixed (raw u e : str) :
  Validators.validate_url raw = (true, u, e) ->
  u <> [] /\ Py.strip u = u /\ Validators.normalize_url u = u.
Proof.
  intros Hv.
  destruct (validate_url_accepts raw u e Hv) as (_ & Hne & Hu & _).
  pose proof (strip_idem raw) as Hidem.
  assert (Hstrip : Py.strip u = u /\ u <> []
                   /\ (Py.startswith "http://" u = true
                       \/ Py.startswith "https://" u = true)).
  { rewrite Hu.
    destruct (normalize_url_cases (Py.strip raw)) as [[-> Hp] | [-> _]];
      rewrite Hidem.
    - split; [exact Hidem | split; [exact Hne | ]].
      destruct Hp as [[rest Hp] | [rest Hp]]; rewrite Hidem in Hp; rewrite Hp;
        [left | right]; reflexivity.
    - split; [ | split; [discriminate | left; reflexivity]].
      apply strip_keeps_prefixed; [discriminate | reflexivity | exact Hne | exact Hidem]. }
  destruct Hstrip as (Hs & Hn & Hp).
  split; [exact Hn | split; [exact Hs | ]].
  unfold Validators.normalize_url. rewrite Hs.
  destruct Hp as [Hp | Hp]; rewrite Hp; [reflexivity | ].
  rewrite orb_true_r. reflexivity.
Qed.

(** X3: validation is idempotent: a URL [validate_url] returned is accepted
    again and returned unchanged. *)
Theorem validate_url_idempotent (raw u e : str) :
  Validators.validate_url raw = (true, u, e) ->
  Validators.validate_url u = (true, u, []).
Proof.
  intros Hv.
  destruct (accepted_url_is_fixed raw u e Hv) as (Hne & Hs & Hn).
  destruct (validate_url_accepts raw u e Hv)
    as (_ & _ & _ & _ & parsed & Hp & Hnet & Hdom).
  unfold Validators.validate_url.
  destruct u as [ | c u']; [contradiction | ]. cbn [Py.is_empty].
  rewrite Hs. cbn [Py.is_empty]. rewrite Hn, Hp.
  assert (Hsch : Urllib.scheme parsed = ("http" : str)
                 \/ Urllib.scheme parsed = ("https" : str)).
  { rewrite <- Hn in Hp. exact (normalized_scheme _ _ Hp). }
  assert (Hok : negb (existsb (Py.eqb (Urllib.scheme parsed))
                        ["http" : str; "https" : str]) = false)
    by (destruct Hsch as [-> | ->]; reflexivity).
  rewrite Hok.
  destruct (Urllib.netloc parsed) as [ | n0 nl] eqn:Hnl; [contradiction | ].
  cbn [Py.is_empty]. rewrite Hdom. cbn [negb].
  destruct (Validators.has_suspicious_patterns (c :: u')); reflexivity.
Qed.

End Revalidation.

Lemma validate_url_idempotent_witness :
  Validators.validate_url (H := Sample.externals) "http://Example.COM/Path"
  = (true, "http://Example.COM/Path" : str, []).
Proof.
  exact (validate_url_idempotent (H := Sample.externals)
           "  Example.COM/Path " "http://Example.COM/Path" [] eq_refl).
Defined.

(** ** The outcomes of validation and of the route *)

Section Outcomes.

Context `{Externals}.

Lemma validate_url_outcomes (raw : str) :
  (exists u, Validators.validate_url raw = (true, u, []))
  \/ (exists msg, Validators.validate_url raw = (false, [], msg)
                  /\ Props.validation_error msg).
Proof.
  unfold Validators.validate_url, Props.validation_error.
  destruct (Py.is_empty raw); [right; eexists; split; [reflexivity | left; reflexivity] | ].
  destruct (Py.is_empty (Py.strip raw));
    [right; eexists; split; [reflexivity | left; reflexivity] | ].
  destruct (Urllib.urlparse (Validators.normalize_url (Py.strip raw)))
    as [e | parsed] eqn:Hparse.
  { right. eexists. split; [reflexivity | ]. right. left. exists e. reflexivity. }
  destruct (normalized_scheme _ _ Hparse) as [-> | ->]; cbn [existsb Py.eqb negb];
    (destruct (Py.is_empty (Urllib.netloc parsed));
     [right; eexists; split; [reflexivity | right; right; left; reflexivity] | ];
     destruct (Validators.is_valid_domain (Urllib.netloc parsed)); cbn [negb];
     [ | right; eexists; split; [reflexivity | right; right; right; reflexivity]];
     left; eexists;
     destruct (Validators.has_suspicious_patterns _); reflexivity).
Qed.

(** X4: validation and what follows it.  [validate_url] either answers
    with one of its four errors, and then the route returns that error having
    called nothing, whatever the network; or it accepts, and then the URL it
    returns is [normalize_url] of the trimmed input and [analyze_url_features]
    returns on it: the feature analysis never raises on a URL the validation
    accepted. *)
Theorem rejected_or_analysable (net : Main.network) (raw : str) :
  (exists msg,
      Validators.validate_url raw = (false, [], msg)
      /\ Props.validation_error msg
      /\ Main.scan_url net raw = ([], Main.Error msg))
  \/ (exists u fr,
        Validators.validate_url raw = (true, u, [])
        /\ u = Validators.normalize_url (Py.strip raw)
        /\ UrlFeatures.analyze_url_features u = Return fr).
Proof.
  destruct (validate_url_outcomes raw) as [[u Hv] | (msg & Hv & Hmsg)].
  - right. destruct (scan_url_reports net raw u [] Hv) as (fr & Hfr & _).
    destruct (validate_url_accepts raw u [] Hv) as (_ & _ & Hu & _).
    exists u, fr. split; [exact Hv | split; [exact Hu | exact Hfr]].
  - left. exists msg. split; [exact Hv | split; [exact Hmsg | ]].
    apply (scan_url_rejects net raw [] msg Hv).
Qed.

End Outcomes.


(** ** The host of an accepted URL *)

Section AcceptedHost.

Context `{Externals}.

Lemma In_skipn_In (n : nat) (c : ascii) (l : str) : In c (skipn n l) -> In c l.
Proof.
  intros Hin. rewrite <- (firstn_skipn n l). apply in_or_app. right. exact Hin.
Qed.

Lemma In_firstn_In (n : nat) (c : ascii) (l : str) : In c (firstn n l) -> In c l.
Proof.
  intros Hin. rewrite <- (firstn_skipn n l). apply in_or_app. left. exact Hin.
Qed.

Lemma split_scheme_rest_chars (url : str) (c : ascii) :
  In c (snd (Urllib.split_scheme url)) -> In c url.
Proof.
  unfold Urllib.split_scheme.
  destruct (Py.find ":" url) as [i | ]; [ | exact (fun Hin => Hin)].
  destruct ((0 <? i)%nat
            && match url with
               | c0 :: _ => Py.isascii c0 && Py.isalpha c0
               | [] => false
               end
            && forallb Urllib.scheme_chars (firstn i url));
    cbn [snd]; [apply In_skipn_In | exact (fun Hin => Hin)].
Qed.

Lemma split_netloc_chars (url netloc rest : str) (c : ascii) :
  Urllib.split_netloc url = Return (netloc, rest) -> In c netloc -> In c url.
Proof.
  unfold Urllib.split_netloc.
  destruct (Py.eqb (firstn 2 url) "//").
  - unfold Urllib._splitnetloc.
    set (delim := fold_left _ _ _).
    set (nl := firstn (delim - 2) (skipn 2 url)).
    intros Hret Hin.
    assert (Hnl : netloc = nl).
    { destruct ((Py.has_char "[" nl && negb (Py.has_char "]" nl))
                || (Py.has_char "]" nl && negb (Py.has_char "[" nl)));
        [discriminate | ].
      destruct (Py.has_char "[" nl && Py.has_char "]" nl).
      - destruct (Urllib._check_bracketed_netloc nl); cbn [bind] in Hret;
          [discriminate | ]. injection Hret as <- _. reflexivity.
      - injection Hret as <- _. reflexivity. }
    subst netloc. apply (In_skipn_In 2). apply (In_firstn_In (delim - 2)). exact Hin.
  - intros Hret. injection Hret as <- _. intros [].
Qed.

(** The netloc is cut out of the URL as [urlsplit] cleaned it: it holds no
    tab and no line break. *)
Lemma urlparse_netloc_chars (url : str) (parsed : Urllib.ParseResult) (c : ascii) :
  Urllib.urlparse url = Return parsed ->
  In c (Urllib.netloc parsed) ->
  In c (Urllib.cleaned url).
Proof.
  unfold Urllib.urlparse, Urllib.urlsplit. cbv zeta. fold (Urllib.cleaned url).
  pose proof (split_scheme_rest_chars (Urllib.cleaned url) c) as Hrest.
  destruct (Urllib.split_scheme (Urllib.cleaned url)) as [scheme url1].
  cbn [snd] in Hrest.
  destruct (Urllib.split_netloc url1) as [msg | [netloc url2]] eqn:Hnet;
    cbn [bind]; [discriminate | ].
  destruct (Urllib.split_off "#" url2) as [url3 fragment].
  destruct (Urllib.split_off "?" url3) as [url4 query].
  cbn [bind Urllib._checknetloc].
  destruct (if existsb (Py.eqb scheme) Urllib.uses_params && Py.has_char ";" url4
            then Urllib._splitparams url4 else (url4, [])) as [url5 params].
  intros Hret. injection Hret as <-. cbn [Urllib.netloc]. intros Hin.
  apply Hrest. exact (split_netloc_chars url1 netloc url2 c Hnet Hin).
Qed.

Lemma cleaned_has_no_newline (url : str) (c : ascii) :
  In c (Urllib.cleaned url) -> Props.newline c = false.
Proof.
  unfold Urllib.cleaned. intros Hin. apply filter_In in Hin as [_ Hc].
  unfold Urllib._UNSAFE_URL_BYTES_TO_REMOVE in Hc. unfold Props.newline.
  destruct (Py.is_code 10 c); [ | reflexivity].
  rewrite !orb_true_r in Hc. discriminate.
Qed.

Lemma split_hd_In (sep c : ascii) (s : str) :
  In c (hd [] (Py.split sep s)) -> In c s.
Proof.
  induction s as [ | d s IH]; cbn; [intros [] | ].
  destruct (Ascii.eqb d sep); cbn; [intros [] | ].
  destruct (Py.split sep s) as [ | x xs]; cbn in *.
  - intros [-> | []]. left. reflexivity.
  - intros [-> | Hin]; [left; reflexivity | right; apply IH; exact Hin].
Qed.

Lemma before_port_In (c : ascii) (domain : str) :
  In c (Props.before_port domain) -> In c domain.
Proof.
  unfold Props.before_port. destruct (Py.has_char ":" domain);
    [apply split_hd_In | exact (fun Hin => Hin)].
Qed.

(** X5: the host of every URL [validate_url] accepts, that is the netloc up
    to its first colon, is a non-empty text of at most 253 ASCII letters,
    digits, hyphens and dots; [extract_domain] returns exactly that host, and
    [get_url_components] returns the parse of the URL, with the scheme http
    or https. *)
Theorem accepted_url_host (raw u e : str) :
  Validators.validate_url raw = (true, u, e) ->
  exists parsed components,
    Urllib.urlparse u = Return parsed
    /\ Props.before_port (Urllib.netloc parsed) <> []
    /\ (Py.len (Props.before_port (Urllib.netloc parsed)) <= 253)%nat
    /\ Forall (fun c => Props.host_char c = true)
         (Props.before_port (Urllib.netloc parsed))
    /\ ValidatorsRest.extract_domain u
       = Some (Props.before_port (Urllib.netloc parsed))
    /\ ValidatorsRest.get_url_components u = Some components
    /\ ValidatorsRest.full_url components = u
    /\ ValidatorsRest.domain components = Urllib.netloc parsed
    /\ (ValidatorsRest.scheme components = ("http" : str)
        \/ ValidatorsRest.scheme components = ("https" : str)).
Proof.
  intros Hv.
  destruct (validate_url_accepts raw u e Hv)
    as (_ & _ & Hu & _ & parsed & Hp & Hnet & Hdom).
  destruct (valid_domain_shape _ Hdom) as (Hne & Hlen & Hchars & _).
  exists parsed.
  exists {| ValidatorsRest.scheme := Urllib.scheme parsed;
            ValidatorsRest.domain := Urllib.netloc parsed;
            ValidatorsRest.path := Urllib.path parsed;
            ValidatorsRest.params := Urllib.params parsed;
            ValidatorsRest.query := Urllib.query parsed;
            ValidatorsRest.fragment := Urllib.fragment parsed;
            ValidatorsRest.full_url := u |}.
  split; [exact Hp | split; [exact Hne | split; [exact Hlen | ]]].
  split.
  { apply Forall_forall. intros c Hin.
    rewrite Forall_forall in Hchars. destruct (Hchars c Hin) as [Hc | Hc]; [exact Hc | ].
    apply before_port_In in Hin.
    pose proof (cleaned_has_no_newline u c (urlparse_netloc_chars u parsed c Hp Hin)).
    congruence. }
  split.
  { change (ValidatorsRest.extract_domain u)
      with (match Urllib.urlparse u with
            | Raise _ => None
            | Return p =>
                if negb (Py.is_empty (Props.before_port (Urllib.netloc p)))
                then Some (Props.before_port (Urllib.netloc p)) else None
            end).
    rewrite Hp.
    destruct (Props.before_port (Urllib.netloc parsed)); [contradiction | reflexivity]. }
  split; [unfold ValidatorsRest.get_url_components; rewrite Hp; reflexivity | ].
  split; [reflexivity | split; [reflexivity | ]].
  cbn [ValidatorsRest.scheme]. rewrite Hu in Hp. exact (normalized_scheme _ _ Hp).
Qed.

End AcceptedHost.

Lemma accepted_url_host_witness :
  ValidatorsRest.extract_domain (H := Sample.externals) "http://example.com:8080/a"
  = Some ("example.com" : str).
Proof.
  destruct (accepted_url_host (H := Sample.externals) "example.com:8080/a"
              "http://example.com:8080/a" [] eq_refl)
    as (parsed & components & Hp & _ & _ & _ & Hd & _).
  vm_compute in Hp. injection Hp as <-. exact Hd.
Defined.

(** ** Suspicious patterns *)

Section Suspicious.

Import Re ReLang.

Lemma lang_times_cls (p : ascii -> bool) (d : str) :
  Forall (fun c => p c = true) d -> lang (times (List.length d) (Cls p)) d.
Proof.
  induction 1 as [ | c d Hc _ IH]; cbn [times List.length]; [constructor | ].
  change (c :: d) with ([c] ++ d). apply lang_cat; [constructor; exact Hc | exact IH].
Qed.

Lemma lang_star_cls (p : ascii -> bool) (d : str) :
  Forall (fun c => p c = true) d -> lang (Star (Cls p)) d.
Proof.
  induction 1 as [ | c d Hc _ IH]; [constructor | ].
  change (c :: d) with ([c] ++ d). apply lang_star_app; [constructor; exact Hc | exact IH].
Qed.

Lemma lang_at_least_cls (p : ascii -> bool) (m : nat) (d : str) :
  Forall (fun c => p c = true) d -> (m <= List.length d)%nat ->
  lang (at_least m (Cls p)) d.
Proof.
  intros Hd Hm. unfold at_least. rewrite <- (firstn_skipn m d).
  rewrite Forall_forall in Hd.
  apply lang_cat.
  - replace m with (List.length (firstn m d)) at 1 by (rewrite length_firstn; lia).
    apply lang_times_cls. apply Forall_forall. intros c Hin. apply Hd.
    apply (In_firstn_In m). exact Hin.
  - apply lang_star_cls. apply Forall_forall. intros c Hin. apply Hd.
    apply (In_skipn_In m). exact Hin.
Qed.

Lemma search_extends (r : re) (a s b : str) :
  search r s = true -> search r (a ++ s ++ b) = true.
Proof.
  rewrite !search_lang. intros (a' & m & b' & -> & Hm).
  exists (a ++ a'), m, (b' ++ b). split; [ | exact Hm].
  rewrite <- !app_assoc. reflexivity.
Qed.

(** X6: [has_suspicious_patterns] holds of every URL with an at sign and of
    every URL with five digits in a row, and once it holds of a text it holds
    of every text around it. *)
Theorem suspicious_patterns_found (s : str) :
  (In "@"%char s -> Validators.has_suspicious_patterns s = true)
  /\ (forall a d b,
        s = a ++ d ++ b -> Forall (fun c => Py.ascii_digit c = true) d ->
        (5 <= Py.len d)%nat ->
        Validators.has_suspicious_patterns s = true)
  /\ (forall a b,
        Validators.has_suspicious_patterns s = true ->
        Validators.has_suspicious_patterns (a ++ s ++ b) = true).
Proof.
  unfold Validators.has_suspicious_patterns, Validators.suspicious_indicators.
  split; [ | split].
  - intros Hin. apply in_split in Hin as (a & b & ->).
    cbn [existsb]. apply orb_true_iff. left.
    apply search_lang. exists a, ["@"%char], b. split; [reflexivity | ].
    constructor. apply Ascii.eqb_refl.
  - intros a d b -> Hd Hlen. cbn [existsb].
    rewrite !orb_true_iff. right. right. right. left.
    apply search_lang. exists a, d, b. split; [reflexivity | ].
    apply lang_at_least_cls; assumption.
  - intros a b Hs. apply existsb_exists in Hs as (pattern & Hin & Hfound).
    apply existsb_exists. exists pattern. split; [exact Hin | ].
    apply search_extends. exact Hfound.
Qed.

End Suspicious.


(** ** Invariants of the feature dict *)

Section FeatureInvariants.

Import UrlFeatures Weights.

Lemma total_le (w1 w2 : ascii -> nat) (s : str) :
  (forall c, (w1 c <= w2 c)%nat) -> (total w1 s <= total w2 s)%nat.
Proof.
  intros Hw. unfold total, list_sum. induction s as [ | c s IH]; cbn; [lia | ].
  specialize (Hw c). lia.
Qed.

Lemma total_plus (w1 w2 : ascii -> nat) (s : str) :
  total (fun c => (w1 c + w2 c)%nat) s = (total w1 s + total w2 s)%nat.
Proof. unfold total, list_sum. induction s as [ | c s IH]; cbn; lia. Qed.

Lemma total_one (s : str) : total (fun _ => 1%nat) s = Py.len s.
Proof. unfold total, list_sum, Py.len. induction s as [ | c s IH]; cbn; lia. Qed.

Lemma count_if_total (p : ascii -> bool) (s : str) :
  count_if p s = total (fun c => one_if (p c)) s.
Proof.
  unfold count_if, total, list_sum. induction s as [ | c s IH]; cbn; [reflexivity | ].
  destruct (p c); cbn; lia.
Qed.

Lemma count_total (c : ascii) (s : str) :
  Py.count c s = total (fun d => one_if (Ascii.eqb d c)) s.
Proof.
  unfold Py.count, total, list_sum. induction s as [ | d s IH]; cbn; [reflexivity | ].
  destruct (ascii_dec d c) as [-> | Hne].
  - rewrite Ascii.eqb_refl. cbn. lia.
  - destruct (Ascii.eqb d c) eqn:Hdc; [apply Ascii.eqb_eq in Hdc; contradiction | ].
    cbn. exact IH.
Qed.

(** A character is a digit, a letter, or not alphanumeric, never two of
    these; what [\d] matches is a digit and what [[a-zA-Z]] matches a letter. *)
Lemma character_classes (c : ascii) :
  (one_if (Py.isdigit c) + one_if (Py.isalpha c) + one_if (negb (Py.isalnum c))
   <= 1)%nat
  /\ (one_if (Py.ascii_digit c) <= one_if (Py.isdigit c))%nat
  /\ (one_if (Py.ascii_alpha c) <= one_if (Py.isalpha c))%nat.
Proof.
  destruct c as [[] [] [] [] [] [] [] []]; vm_compute; repeat split;
    repeat constructor.
Qed.

(** Each of the nine counted punctuation characters is not alphanumeric. *)
Lemma punctuation_is_special (c : ascii) :
  (list_sum (map (fun d => one_if (Ascii.eqb c d)) counted_punctuation)
   <= one_if (negb (Py.isalnum c)))%nat.
Proof.
  destruct c as [[] [] [] [] [] [] [] []]; vm_compute; repeat constructor.
Qed.

Lemma counts_total (chars url : str) :
  list_sum (map (fun d => Py.count d url) chars)
  = total (fun c => list_sum (map (fun d => one_if (Ascii.eqb c d)) chars)) url.
Proof.
  induction chars as [ | d chars IH].
  - unfold total, list_sum. cbn. induction url as [ | c url IHu]; cbn; [reflexivity | exact IHu].
  - change (list_sum (map (fun d0 => Py.count d0 url) (d :: chars)))
      with (Py.count d url + list_sum (map (fun d0 => Py.count d0 url) chars))%nat.
    rewrite IH, count_total, <- total_plus. reflexivity.
Qed.

Lemma run_lengths_bound (p : ascii -> bool) (s : str) (cur : nat) :
  (Py.max_default0 (run_lengths_from p s cur) <= cur + count_if p s)%nat.
Proof.
  revert cur. unfold count_if.
  induction s as [ | c s IH]; intros cur; cbn [run_lengths_from filter].
  - destruct cur; cbn; lia.
  - destruct (p c).
    + specialize (IH (S cur)). cbn [List.length]. lia.
    + destruct cur as [ | cur'].
      * apply (IH 0%nat).
      * cbn [Py.max_default0 fold_right]. specialize (IH 0%nat).
        unfold Py.max_default0 in IH. lia.
Qed.

(** The counts of the merged dict, in terms of the URL. *)
Lemma extract_all_features_counts `{Externals} (url : str) (f : Features) :
  extract_all_features url = Return f ->
  url_length f = Py.len url
  /\ digit_count f = count_if Py.isdigit url
  /\ letter_count f = count_if Py.isalpha url
  /\ special_char_count f = count_if (fun c => negb (Py.isalnum c)) url
  /\ uppercase_count f = count_if Py.isupper url
  /\ max_consecutive_digits f = Py.max_default0 (run_lengths Py.ascii_digit url)
  /\ max_consecutive_letters f = Py.max_default0 (run_lengths Py.ascii_alpha url)
  /\ digit_ratio f = digit_ratio_of url
  /\ (dash_count f + underscore_count f + dot_count f + slash_count f
      + question_mark_count f + equal_count f + at_count f + ampersand_count f
      + percent_count f
      = list_sum (map (fun d => Py.count d url) counted_punctuation))%nat
  /\ has_at_symbol f = flag (Py.has_char "@" url)
  /\ at_count f = Py.count "@" url.
Proof.
  unfold extract_all_features, extract_entropy_features.
  destruct (Urllib.urlparse url) as [msg | parsed]; cbn [bind]; [discriminate | ].
  unfold extract_length_features.
  destruct (extract_tld url (Urllib.netloc parsed)) as [[sub dom] tld].
  intros Hret. injection Hret as <-. cbn.
  repeat split; try reflexivity. lia.
Qed.

Lemma has_char_count (c : ascii) (s : str) :
  Py.has_char c s = true <-> (0 < Py.count c s)%nat.
Proof.
  unfold Py.has_char, Py.count. rewrite existsb_exists. split.
  - intros (d & Hin & Hd). apply Ascii.eqb_eq in Hd. subst d.
    apply (proj1 (count_occ_In ascii_dec s c)). exact Hin.
  - intros Hpos. exists c. split; [ | apply Ascii.eqb_refl].
    apply (proj2 (count_occ_In ascii_dec s c)). exact Hpos.
Qed.

(** X7: in the feature dict of every URL, digits, letters and special
    characters are disjoint parts of the URL; the longest run of digits (of
    letters) is at most the number of digits (of letters); the nine
    punctuation counts add up to at most the special characters; the digit
    ratio lies between 0 and 1; and [has_at_symbol] is set exactly when
    [at_count] is positive. *)
Theorem feature_counts_are_consistent `{Externals} (url : str) (f : Features) :
  extract_all_features url = Return f ->
  (digit_count f + letter_count f + special_char_count f <= url_length f)%nat
  /\ (max_consecutive_digits f <= digit_count f)%nat
  /\ (max_consecutive_letters f <= letter_count f)%nat
  /\ (dash_count f + underscore_count f + dot_count f + slash_count f
      + question_mark_count f + equal_count f + at_count f + ampersand_count f
      + percent_count f <= special_char_count f)%nat
  /\ (0 <= digit_ratio f)%Q /\ (digit_ratio f <= 1)%Q
  /\ (has_at_symbol f = 1%nat <-> (0 < at_count f)%nat).
Proof.
  intros Hf.
  destruct (extract_all_features_counts url f Hf)
    as (Hlen & Hd & Hl & Hs & Hu & Hmd & Hml & Hr & Hp & Hat & Hac).
  assert (Hparts : (count_if Py.isdigit url + count_if Py.isalpha url
                    + count_if (fun c => negb (Py.isalnum c)) url <= Py.len url)%nat).
  { rewrite !count_if_total, <- !total_plus, <- total_one.
    apply total_le. intros c. apply character_classes. }
  split; [rewrite Hd, Hl, Hs, Hlen; exact Hparts | ].
  split.
  { rewrite Hmd, Hd. unfold run_lengths.
    eapply Nat.le_trans; [apply run_lengths_bound | ].
    rewrite !count_if_total. apply total_le. intros c. apply character_classes. }
  split.
  { rewrite Hml, Hl. unfold run_lengths.
    eapply Nat.le_trans; [apply run_lengths_bound | ].
    rewrite !count_if_total. apply total_le. intros c. apply character_classes. }
  split.
  { rewrite Hp, Hs, count_if_total, counts_total. apply total_le.
    exact punctuation_is_special. }
  assert (Hdn : (count_if Py.isdigit url <= Py.len url)%nat) by lia.
  rewrite Hr. unfold digit_ratio_of.
  split; [ | split].
  - destruct (0 <? Py.len url)%nat eqn:Hn; [ | discriminate].
    apply Nat.ltb_lt in Hn. apply Qle_shift_div_l.
    + unfold Qnat. change 0%Q with (inject_Z 0). rewrite <- Zlt_Qlt. lia.
    + rewrite Qmult_0_l. unfold Qnat. change 0%Q with (inject_Z 0).
      rewrite <- Zle_Qle. lia.
  - destruct (0 <? Py.len url)%nat eqn:Hn; [ | discriminate].
    apply Nat.ltb_lt in Hn. apply Qle_shift_div_r.
    + unfold Qnat. change 0%Q with (inject_Z 0). rewrite <- Zlt_Qlt. lia.
    + rewrite Qmult_1_l. unfold Qnat. rewrite <- Zle_Qle. lia.
  - rewrite Hat, Hac, <- has_char_count.
    destruct (Py.has_char "@" url); cbn; split; congruence.
Qed.

End FeatureInvariants.

Lemma feature_counts_are_consistent_witness :
  exists f,
    UrlFeatures.extract_all_features (H := Sample.externals) Spec.ip_login_url
    = Return f
    /\ (UrlFeatures.max_consecutive_digits f <= UrlFeatures.digit_count f)%nat.
Proof.
  destruct (UrlFeatures.extract_all_features (H := Sample.externals) Spec.ip_login_url)
    as [msg | f] eqn:Hf.
  - exfalso. unfold UrlFeatures.extract_all_features in Hf.
    rewrite (ip_login_url_parse (H := Sample.externals)) in Hf. cbn [bind] in Hf.
    unfold UrlFeatures.extract_length_features, UrlFeatures.extract_entropy_features in Hf.
    rewrite (ip_login_url_parse (H := Sample.externals)) in Hf. cbn [bind] in Hf.
    destruct (UrlFeatures.extract_tld _ _) as [[sub dom] tld] in Hf. discriminate Hf.
  - exists f. split; [reflexivity | ].
    exact (proj1 (proj2
             (feature_counts_are_consistent (H := Sample.externals) _ f Hf))).
Defined.


(** ** Bounds of the entropy *)

Section EntropyBounds.

Import UrlFeatures.
Open Scope R_scope.

Lemma freq_set_values_sum (freq : list (ascii * nat)) (c : ascii) :
  list_sum (map snd (freq_set freq c (freq_get freq c + 1)%nat))
  = (list_sum (map snd freq) + 1)%nat.
Proof.
  unfold list_sum. induction freq as [ | [k v] rest IH]; cbn; [reflexivity | ].
  destruct (Ascii.eqb k c); cbn; lia.
Qed.

Lemma freq_set_values_positive (freq : list (ascii * nat)) (c : ascii) (v : nat) :
  (1 <= v)%nat ->
  Forall (fun w => (1 <= w)%nat) (map snd freq) ->
  Forall (fun w => (1 <= w)%nat) (map snd (freq_set freq c v)).
Proof.
  intros Hv. induction freq as [ | [k w] rest IH]; cbn; intros Hf.
  - constructor; [exact Hv | constructor].
  - inversion Hf as [ | w' ws Hw Hrest]; subst.
    destruct (Ascii.eqb k c); cbn; constructor; auto.
Qed.

(** The values of the frequency dict are positive and add up to the length
    of the text. *)
Lemma counting_loop_values (text : str) (acc : list (ascii * nat)) :
  let freq :=
    fold_left (fun freq char => freq_set freq char (freq_get freq char + 1)%nat)
      text acc in
  Forall (fun w => (1 <= w)%nat) (map snd acc) ->
  Forall (fun w => (1 <= w)%nat) (map snd freq)
  /\ list_sum (map snd freq) = (list_sum (map snd acc) + List.length text)%nat.
Proof.
  revert acc. induction text as [ | a text IH]; intros acc; cbn [fold_left].
  - intros Hpos. split; [exact Hpos | cbn; lia].
  - intros Hpos.
    specialize (IH (freq_set acc a (freq_get acc a + 1)%nat)).
    cbv zeta in IH.
    destruct IH as [Hp Hs].
    + apply freq_set_values_positive; [lia | exact Hpos].
    + split; [exact Hp | ]. rewrite Hs, freq_set_values_sum. cbn [List.length]. lia.
Qed.

Lemma log2_le (x y : R) : 0 < x -> x <= y -> log2 x <= log2 y.
Proof.
  intros Hx Hxy. unfold log2.
  assert (H2 : 0 < ln 2) by (pose proof ln_lt_2; lra).
  assert (Hln : ln x <= ln y).
  { destruct Hxy as [Hlt | ->]; [left; apply ln_increasing; assumption | lra]. }
  apply Rmult_le_compat_r; [left; apply Rinv_0_lt_compat; exact H2 | exact Hln].
Qed.

Lemma log2_div (x y : R) : 0 < x -> 0 < y -> log2 (x / y) = log2 x - log2 y.
Proof.
  intros Hx Hy. unfold log2. change (x / y) with (x * / y).
  assert (H2 : 0 < ln 2) by (pose proof ln_lt_2; lra).
  rewrite ln_mult by (try assumption; apply Rinv_0_lt_compat; assumption).
  rewrite ln_Rinv by assumption. field. lra.
Qed.

Lemma log2_pow2 (n : nat) : log2 (2 ^ n) = INR n.
Proof.
  unfold log2. assert (H2 : 0 < ln 2) by (pose proof ln_lt_2; lra).
  rewrite ln_pow by lra. field. lra.
Qed.

(** One term of the entropy, for a character met [v] times in [n]. *)
Lemma entropy_term_bounds (v n : nat) :
  (1 <= v)%nat -> (v <= n)%nat ->
  - (INR v / INR n) * log2 (INR n)
  <= INR v / INR n * log2 (INR v / INR n)
  <= 0.
Proof.
  intros Hv Hvn.
  assert (Hv1 : 1 <= INR v) by (change 1 with (INR 1); apply le_INR; exact Hv).
  assert (Hvn' : INR v <= INR n) by (apply le_INR; exact Hvn).
  assert (Hn : 0 < INR n) by lra.
  assert (Hp : 0 < INR v / INR n) by (apply Rdiv_lt_0_compat; lra).
  assert (Hlog : log2 (INR v / INR n) = log2 (INR v) - log2 (INR n))
    by (apply log2_div; lra).
  assert (Hlv0 : 0 <= log2 (INR v)).
  { rewrite <- log2_1. apply log2_le; lra. }
  assert (Hlvn : log2 (INR v) <= log2 (INR n)) by (apply log2_le; lra).
  rewrite Hlog. split; nra.
Qed.

Lemma entropy_sum_bounds (n : nat) (vs : list nat) :
  Forall (fun v => (1 <= v <= n)%nat) vs ->
  - (INR (list_sum vs) / INR n) * log2 (INR n)
  <= Spec.Rsum (map (fun v => INR v / INR n * log2 (INR v / INR n)) vs)
  <= 0.
Proof.
  induction 1 as [ | v vs [Hv Hvn] _ IH].
  - cbn. unfold Rdiv. rewrite !Rmult_0_l, Ropp_0, Rmult_0_l. lra.
  - change (list_sum (v :: vs)) with (v + list_sum vs)%nat.
    rewrite plus_INR. cbn [map Spec.Rsum fold_right].
    pose proof (entropy_term_bounds v n Hv Hvn) as [Hlo Hhi].
    unfold Spec.Rsum in IH. unfold Rdiv in *. lra.
Qed.

Lemma in_list_sum_le (v : nat) (vs : list nat) : In v vs -> (v <= list_sum vs)%nat.
Proof.
  unfold list_sum. induction vs as [ | w vs IH]; cbn; [intros [] | ].
  intros [-> | Hin]; [lia | specialize (IH Hin); lia].
Qed.

Lemma calculate_entropy_bounds (text : str) :
  text <> [] ->
  0 <= calculate_entropy text <= log2 (INR (Py.len text)).
Proof.
  intros Hne. unfold calculate_entropy.
  destruct text as [ | a text']; [contradiction | ].
  cbn [Py.is_empty]. set (text := a :: text'). cbv zeta.
  rewrite (fold_left_minus
             (fun count => INR count / INR (Py.len text)
                           * log2 (INR count / INR (Py.len text)))).
  destruct (counting_loop_values text [] (Forall_nil _)) as [Hpos Hsum].
  fold (count_frequencies text) in Hpos, Hsum. cbn [map list_sum fold_right] in Hsum.
  assert (Hrange : Forall (fun v => (1 <= v <= Py.len text)%nat)
                     (map snd (count_frequencies text))).
  { apply Forall_forall. intros v Hin. rewrite Forall_forall in Hpos.
    split; [apply Hpos; exact Hin | ].
    unfold Py.len. change (0 + List.length text)%nat with (List.length text) in Hsum.
    rewrite <- Hsum. apply in_list_sum_le. exact Hin. }
  pose proof (entropy_sum_bounds (Py.len text) _ Hrange) as [Hlo Hhi].
  change (0 + List.length text)%nat with (Py.len text) in Hsum.
  rewrite Hsum in Hlo.
  assert (Hn : 0 < INR (Py.len text)) by (apply lt_0_INR; unfold Py.len, text; cbn; lia).
  replace (INR (Py.len text) / INR (Py.len text)) with 1 in Hlo by (field; lra).
  lra.
Qed.

(** X8: the entropy [calculate_entropy] computes of a non-empty text lies
    between 0 and the base-2 logarithm of the length of the text. *)
Theorem entropy_between_0_and_log2_of_length (text : str) :
  text <> [] ->
  0 <= calculate_entropy text <= log2 (INR (Py.len text)).
Proof. exact (calculate_entropy_bounds text). Qed.

Lemma entropy_between_0_and_log2_of_length_witness :
  0 <= calculate_entropy "aab" <= log2 (INR 3).
Proof. apply (entropy_between_0_and_log2_of_length "aab"). discriminate. Defined.

Lemma short_text_entropy (text : str) :
  (Py.len text <= 32)%nat -> calculate_entropy text <= 5.
Proof.
  intros Hlen. destruct text as [ | a text'] eqn:Ht.
  - unfold calculate_entropy. cbn. lra.
  - rewrite <- Ht in *.
    assert (Hne : text <> []) by (rewrite Ht; discriminate).
    destruct (calculate_entropy_bounds text Hne) as [_ Hup].
    assert (Hpos : 0 < INR (Py.len text)).
    { apply lt_0_INR. rewrite Ht. unfold Py.len. cbn. lia. }
    assert (H32 : log2 (INR (Py.len text)) <= log2 (2 ^ 5)).
    { apply log2_le; [exact Hpos | ].
      replace (2 ^ 5) with (INR 32) by (cbn; lra). apply le_INR. exact Hlen. }
    rewrite log2_pow2 in H32. cbn [INR] in H32. lra.
Qed.

End EntropyBounds.


(** ** The risk rules *)

Section RiskRules.

Import UrlFeatures Rules.

Lemma risk_rules_fold (f : Features) :
  risk_rules f = fold_left apply_rule (fired f) (0, []).
Proof. reflexivity. Qed.

Lemma rules_fold (rs : list (bool * Z * str)) (st : Z * list str) :
  fold_left apply_rule rs st = (fst st + points_of rs, snd st ++ factors_of rs).
Proof.
  revert st. induction rs as [ | [[c p] fac] rs IH]; intros [score factors].
  - cbn. rewrite Z.add_0_r, app_nil_r. reflexivity.
  - cbn [fold_left]. rewrite IH. unfold apply_rule, rule, factors_of.
    cbn [fst snd points_of fold_right filter].
    fold (points_of rs).
    destruct c; cbn [fst snd map].
    + rewrite <- app_assoc. f_equal; first [lia | reflexivity].
    + f_equal; first [lia | reflexivity].
Qed.

Lemma risk_rules_points_and_factors (f : Features) :
  risk_rules f = (points_of (fired f), factors_of (fired f)).
Proof. rewrite risk_rules_fold, rules_fold. reflexivity. Qed.

Lemma points_between (rs : list (bool * Z * str)) :
  Forall (fun r => 5 <= snd (fst r) <= 25) rs ->
  5 * Z.of_nat (List.length (factors_of rs)) <= points_of rs
  /\ points_of rs <= 25 * Z.of_nat (List.length (factors_of rs)).
Proof.
  unfold factors_of.
  induction 1 as [ | [[c p] fac] rs Hr _ IH]; cbn [points_of fold_right filter fst snd].
  - cbn. lia.
  - cbn [fst snd] in Hr. fold (points_of rs). destruct c; cbn [map List.length]; lia.
Qed.

Lemma fired_points (f : Features) :
  Forall (fun r => 5 <= snd (fst r) <= 25) (fired f).
Proof. unfold fired. repeat constructor; cbn; lia. Qed.

Lemma factors_length (rs : list (bool * Z * str)) :
  (List.length (factors_of rs) <= List.length rs)%nat.
Proof.
  unfold factors_of. rewrite length_map. apply filter_length_le.
Qed.

Lemma analyze_url_features_inv `{Externals} (url : str) (fr : FeatureResults) :
  analyze_url_features url = Return fr ->
  exists parsed f,
    Urllib.urlparse url = Return parsed
    /\ extract_all_features url = Return f
    /\ features fr = Some f
    /\ feature_risk_score fr = Some (inject_Z (Z.min (points_of (fired f)) 100))
    /\ risk_factors fr = Some (factors_of (fired f)).
Proof.
  unfold analyze_url_features.
  destruct (extract_all_features url) as [msg | f] eqn:Hf; cbn [bind]; [discriminate | ].
  rewrite risk_rules_points_and_factors.
  intros Hret. injection Hret as <-.
  destruct (Urllib.urlparse url) as [msg | parsed] eqn:Hp.
  - unfold extract_all_features in Hf. rewrite Hp in Hf. discriminate.
  - exists parsed, f. repeat split.
Qed.

(** X9: the feature score and the risk factors of an analysis go together:
    there are at most eight factors, each worth between 5 and 25 points, the
    score is at most 100, and it is 0 exactly when no factor is listed. *)
Theorem feature_score_matches_factors `{Externals} (url : str) (fr : FeatureResults) :
  analyze_url_features url = Return fr ->
  exists (k : Z) (factors : list str),
    feature_risk_score fr = Some (inject_Z k)
    /\ risk_factors fr = Some factors
    /\ (List.length factors <= 8)%nat
    /\ 5 * Z.of_nat (List.length factors) <= k
    /\ k <= 25 * Z.of_nat (List.length factors)
    /\ k <= 100
    /\ (k = 0 <-> factors = []).
Proof.
  intros Hfr.
  destruct (analyze_url_features_inv url fr Hfr) as (parsed & f & _ & _ & _ & Hk & Hl).
  exists (Z.min (points_of (fired f)) 100), (factors_of (fired f)).
  pose proof (points_between (fired f) (fired_points f)) as [Hlo Hhi].
  pose proof (factors_length (fired f)) as Hlen.
  change (List.length (fired f)) with 8%nat in Hlen.
  split; [exact Hk | split; [exact Hl | split; [exact Hlen | ]]].
  split; [lia | split; [lia | split; [lia | ]]].
  split.
  - intros Hz. destruct (factors_of (fired f)); [reflexivity | cbn [List.length] in *; lia].
  - intros Hnil. rewrite Hnil in *. cbn [List.length] in *. lia.
Qed.

Lemma feature_score_matches_factors_witness :
  exists fr (k : Z) (factors : list str),
    analyze_url_features (H := Sample.externals) Spec.ip_login_url = Return fr
    /\ risk_factors fr = Some factors
    /\ (List.length factors <= 8)%nat /\ (k = 0 <-> factors = []).
Proof.
  destruct (analyze_url_features_returns (H := Sample.externals) _ _
              (ip_login_url_parse (H := Sample.externals))) as [fr Hfr].
  destruct (feature_score_matches_factors (H := Sample.externals) _ fr Hfr)
    as (k & factors & _ & Hl & Hlen & _ & _ & _ & Hz).
  exists fr, k, factors. repeat split; try assumption; apply Hz.
Defined.

Lemma factors_of_In (rs : list (bool * Z * str)) (x : str) :
  In x (factors_of rs) <-> exists p, In (true, p, x) rs.
Proof.
  unfold factors_of. rewrite in_map_iff. split.
  - intros ([[c p] fac] & Hx & Hin). cbn in Hx. subst fac.
    apply filter_In in Hin as [Hin Hc]. cbn in Hc. subst c. exists p. exact Hin.
  - intros [p Hin]. exists (true, p, x). split; [reflexivity | ].
    apply filter_In. split; [exact Hin | reflexivity].
Qed.

(** The factor of the entropy rule is listed only when that rule fires,
    and the factor of the HTTPS rule exactly when that one does. *)
Lemma entropy_factor_fired (f : Features) :
  In entropy_factor (factors_of (fired f)) -> Rgtb (url_entropy f) 5 = true.
Proof.
  rewrite factors_of_In. intros [p Hin]. unfold fired in Hin. cbn [In] in Hin.
  repeat (destruct Hin as [Hin | Hin];
          [first [ exact (f_equal (fun r : bool * Z * str => fst (fst r)) Hin)
                 | pose proof (f_equal (@snd (bool * Z) str) Hin) as Hfac;
                   vm_compute in Hfac; discriminate Hfac ] | ]).
  destruct Hin.
Qed.

Lemma https_factor_fired (f : Features) :
  negb (truthy (has_https f)) = true -> In https_factor (factors_of (fired f)).
Proof.
  intros Hc. rewrite factors_of_In. exists 5. unfold fired. rewrite Hc.
  do 6 right. left. reflexivity.
Qed.

(** X10: a URL of at most 32 characters never gets the factor of high
    entropy: its entropy cannot exceed 5. *)
Theorem short_url_has_no_entropy_factor `{Externals} (url : str)
  (fr : FeatureResults) (factors : list str) :
  analyze_url_features url = Return fr ->
  risk_factors fr = Some factors ->
  (Py.len url <= 32)%nat ->
  ~ In entropy_factor factors.
Proof.
  intros Hfr Hfac Hlen Hin.
  destruct (analyze_url_features_inv url fr Hfr) as (parsed & f & Hp & Hf & _ & _ & Hl).
  rewrite Hl in Hfac. injection Hfac as <-.
  apply entropy_factor_fired in Hin.
  destruct (extract_all_features_fields url parsed f Hp Hf)
    as (_ & _ & _ & _ & _ & _ & Hent & _).
  rewrite Hent in Hin. unfold Rgtb in Hin.
  destruct (Rlt_dec 5 (calculate_entropy url)) as [Hlt | _]; [ | discriminate].
  pose proof (short_text_entropy url Hlen). lra.
Qed.

Lemma short_url_has_no_entropy_factor_witness :
  exists fr factors,
    analyze_url_features (H := Sample.externals) "http://hh.tt/hp/" = Return fr
    /\ risk_factors fr = Some factors
    /\ ~ In entropy_factor factors.
Proof.
  assert (Hp : Urllib.urlparse (H := Sample.externals) "http://hh.tt/hp/"
               = Return {| Urllib.scheme := "http"; Urllib.netloc := "hh.tt";
                           Urllib.path := "/hp/"; Urllib.params := [];
                           Urllib.query := []; Urllib.fragment := [] |})
    by reflexivity.
  destruct (analyze_url_features_returns (H := Sample.externals) _ _ Hp) as [fr Hfr].
  destruct (analyze_url_features_inv (H := Sample.externals) _ fr Hfr)
    as (parsed & f & _ & _ & _ & _ & Hl).
  exists fr, (factors_of (fired f)). split; [exact Hfr | split; [exact Hl | ]].
  apply (short_url_has_no_entropy_factor (H := Sample.externals) _ fr _ Hfr Hl).
  vm_compute. repeat constructor.
Defined.

End RiskRules.


(** ** URLs without HTTPS *)

Section PlainHttp.

Import ApiChecker UrlFeatures Scorer Rules.
Context `{Externals}.

Lemma https_recommendation_given (level : str) (indicators : list str) (x : str) :
  In x indicators -> Py.contains "HTTPS" x = true ->
  In https_recommendation (_generate_recommendations level indicators).
Proof.
  intros Hin Hx. unfold _generate_recommendations. cbv zeta.
  set (base := if Py.eqb level "SAFE" then _ else _).
  assert (Hex : existsb (Py.contains "HTTPS") indicators = true).
  { apply existsb_exists. exists x. split; assumption. }
  rewrite Hex.
  set (first := if existsb (Py.contains "IP address") indicators then _ else _).
  destruct (existsb (fun indicator => Py.contains "redirect" (Py.lower indicator))
              indicators).
  - apply in_or_app. left. apply in_or_app. right. left. reflexivity.
  - apply in_or_app. right. left. reflexivity.
Qed.

(** An accepted input that does not start with [https://] is normalised to
    a URL that starts with [http://]. *)
Lemma accepted_plain_http (raw u e : str) :
  Validators.validate_url raw = (true, u, e) ->
  Py.startswith "https://" (Py.strip raw) = false ->
  exists rest, u = "http://" ++ rest.
Proof.
  intros Hv Hnot.
  destruct (validate_url_accepts raw u e Hv) as (_ & _ & Hu & _).
  rewrite Hu.
  destruct (normalize_url_cases (Py.strip raw)) as [[-> Hp] | [-> _]].
  - rewrite strip_idem in *. destruct Hp as [Hp | [rest Hp]]; [exact Hp | ].
    rewrite Hp in Hnot. cbn in Hnot. discriminate.
  - eexists. reflexivity.
Qed.

(** X11: every accepted input that does not start with [https://] is
    reported as not using HTTPS: the report lists the factor, counts at least
    its 5 points in the feature score, and recommends HTTPS.  An input without
    a scheme is such an input, since normalisation puts [http://] in front. *)
Theorem input_without_https_is_reported (net : Main.network) (raw u e : str) :
  Validators.validate_url raw = (true, u, e) ->
  Py.startswith "https://" (Py.strip raw) = false ->
  exists a,
    Main.scan_url net raw
    = ([Main.check_all_apis u; Main.analyze_url_features u;
        Main.get_complete_analysis u], Main.Report a)
    /\ uses_https (key_features a) = false
    /\ In https_factor (url_analysis_risk_factors a)
    /\ (5 <= score_details_feature_score a)%Q
    /\ In https_recommendation (analysis_recommendations a).
Proof.
  intros Hv Hnot.
  destruct (accepted_plain_http raw u e Hv Hnot) as [rest Hrest].
  destruct (scan_url_reports net raw u e Hv) as (fr & Hfr & Hscan).
  destruct (analyze_url_features_inv u fr Hfr)
    as (parsed & f & Hp & Hf & Hfeat & Hk & Hl).
  assert (Hscheme : Urllib.scheme parsed = ("http" : str)).
  { rewrite (urlparse_scheme u parsed Hp), Hrest, split_scheme_http. reflexivity. }
  destruct (extract_all_features_fields u parsed f Hp Hf)
    as (_ & _ & _ & _ & _ & Hhttps & _).
  rewrite Hscheme in Hhttps. change (flag (Py.eqb "http" "https")) with 0%nat in Hhttps.
  assert (Hfired : In https_factor (factors_of (fired f)))
    by (apply https_factor_fired; rewrite Hhttps; reflexivity).
  pose proof (points_between (fired f) (fired_points f)) as [Hlo _].
  assert (Hlen : (1 <= List.length (factors_of (fired f)))%nat)
    by (destruct (factors_of (fired f)); [destruct Hfired | cbn; lia]).
  eexists. split; [exact Hscan | ].
  unfold get_complete_analysis, get_detailed_analysis, calculate_risk_score.
  cbn [key_features url_analysis_risk_factors score_details_feature_score
         analysis_recommendations feature_score recommendations].
  unfold _extract_key_features. rewrite Hfeat, Hl, Hk. cbn [uses_https].
  split; [rewrite Hhttps; reflexivity | ].
  split; [exact Hfired | ].
  split.
  - rewrite round_integer. change (inject_Z 5 <= inject_Z (Z.min (points_of (fired f)) 100))%Q.
    rewrite <- Zle_Qle. lia.
  - apply (https_recommendation_given _ _ https_factor).
    + unfold _collect_threat_indicators. rewrite Hl. apply in_or_app. right. exact Hfired.
    + reflexivity.
Qed.

End PlainHttp.

Lemma input_without_https_is_reported_witness :
  exists a,
    Main.scan_url (H := Sample.externals) Sample.only_urlhaus_safe "google.com"
    = ([Main.check_all_apis "http://google.com";
        Main.analyze_url_features "http://google.com";
        Main.get_complete_analysis "http://google.com"], Main.Report a)
    /\ In Rules.https_recommendation (Scorer.analysis_recommendations a).
Proof.
  destruct (input_without_https_is_reported (H := Sample.externals)
              Sample.only_urlhaus_safe "google.com" "http://google.com" []
              eq_refl eq_refl) as (a & Hscan & _ & _ & _ & Hrec).
  exists a. split; assumption.
Defined.


(** ** The summary and its indicators *)

Section Indicators.

Import ApiChecker.

Lemma tally_indicators (r : ProviderResult) (describe : ProviderResult -> str)
  (c : counters) :
  indicators (tally r describe c)
  = indicators c ++ (if is_available r && negb (is_safe r) then [describe r] else []).
Proof.
  unfold tally. destruct (is_available r), (is_safe r); cbn;
    rewrite ?app_nil_r; reflexivity.
Qed.

Lemma summary_flags (results : ApiResults) :
  let s := _generate_summary results in
  Z.of_nat (List.length (threat_indicators s)) = apis_flagged_malicious s
  /\ (overall_assessment s = ("MALICIOUS" : str) <-> 0 < apis_flagged_malicious s)
  /\ (overall_assessment s = ("SAFE" : str) <-> apis_flagged_malicious s = 0)
  /\ (threat_indicators s = [] <-> apis_flagged_malicious s = 0).
Proof.
  intros s. subst s. unfold _generate_summary.
  cbn [threat_indicators apis_flagged_malicious overall_assessment].
  set (g := provider (google_safe_browsing results)).
  set (v := provider (virustotal results)).
  set (u := provider (urlhaus results)).
  set (c0 := {| total_apis := 0; apis_flagged := 0; apis_safe := 0;
                unavailable := 0; indicators := [] |}).
  rewrite !tally_indicators.
  destruct (tally_counts g describe_google c0) as (_ & F1 & _ & _).
  destruct (tally_counts v describe_virustotal (tally g describe_google c0))
    as (_ & F2 & _ & _).
  destruct (tally_counts u describe_urlhaus
              (tally v describe_virustotal (tally g describe_google c0)))
    as (_ & F3 & _ & _).
  rewrite F3, F2, F1. cbn [apis_flagged indicators c0 app].
  destruct (is_available g && negb (is_safe g)),
    (is_available v && negb (is_safe v)),
    (is_available u && negb (is_safe u)); cbn;
    repeat split; intros; try reflexivity; try lia; try discriminate.
Qed.

(** X12: the summary lists one threat indicator per flagging provider, in the
    order Google, VirusTotal, URLhaus, and its overall assessment is MALICIOUS
    exactly when some provider flagged, SAFE otherwise. *)
Theorem summary_indicators_match_flags (results : ApiResults) :
  let s := _generate_summary results in
  Z.of_nat (List.length (threat_indicators s)) = apis_flagged_malicious s
  /\ (overall_assessment s = ("MALICIOUS" : str) <-> 0 < apis_flagged_malicious s)
  /\ (overall_assessment s = ("SAFE" : str) <-> apis_flagged_malicious s = 0)
  /\ (threat_indicators s = [] <-> apis_flagged_malicious s = 0).
Proof. exact (summary_flags results). Qed.

(** X13: a provider task that raised is reported as unavailable with the
    text of the exception, and the summary is the one the provider would get
    for answering that it is not available; the other two providers are
    counted as they answered. *)
Theorem raised_task_counts_as_unavailable (msg : str) (t1 t2 : settled) :
  let dict := Result (Providers.unavailable msg) in
  (Scorer._format_api_result
     (provider (google_safe_browsing (check_all_apis (Exception msg, t1, t2))))
   = Scorer.Unavailable msg
   /\ summary (check_all_apis (Exception msg, t1, t2))
      = summary (check_all_apis (dict, t1, t2)))
  /\ (Scorer._format_api_result
        (provider (virustotal (check_all_apis (t1, Exception msg, t2))))
      = Scorer.Unavailable msg
      /\ summary (check_all_apis (t1, Exception msg, t2))
         = summary (check_all_apis (t1, dict, t2)))
  /\ (Scorer._format_api_result
        (provider (urlhaus (check_all_apis (t1, t2, Exception msg))))
      = Scorer.Unavailable msg
      /\ summary (check_all_apis (t1, t2, Exception msg))
         = summary (check_all_apis (t1, t2, dict))).
Proof.
  cbv zeta. repeat split; reflexivity.
Qed.

End Indicators.

(** ** Range of the API score and the confidence *)

Section ScoreRange.

Import ApiChecker Scorer.
Open Scope Q_scope.

(** X14: for a summary with at most as many flags as providers checked, the
    API score lies between 0 and 100, as the docstring of
    [_calculate_api_score] says. *)
Theorem api_score_between_0_and_100 (r : ApiResults) (s : Summary) :
  summary r = Some s ->
  (0 <= apis_flagged_malicious s)%Z ->
  (apis_flagged_malicious s <= total_apis_checked s)%Z ->
  0 <= _calculate_api_score r /\ _calculate_api_score r <= 100.
Proof.
  intros Hs Hf0 Hfc. rewrite (api_score_of_summary r s Hs).
  set (c := total_apis_checked s) in *. set (f := apis_flagged_malicious s) in *.
  destruct (Z.eqb_spec c 0) as [E | Hc]; [split; discriminate | ].
  assert (Hc1 : (1 <= c)%Z) by lia.
  pose proof (percentage_nonneg f c Hc1 Hf0) as Hlo.
  pose proof (percentage_at_most_100 f c Hc1 Hfc) as Hhi.
  destruct (Z.ltb_spec 1 f) as [L | L].
  - split; [ | apply min_le_r].
    apply min_glb; [ | discriminate].
    assert (0 <= inject_Z ((f - 1) * 10)).
    { change 0 with (inject_Z 0). rewrite <- Zle_Qle. lia. }
    lra.
  - split; assumption.
Qed.

Lemma api_score_between_0_and_100_witness :
  let r := check_all_apis (Result (Sample.answer true false),
                           Result (Sample.answer true true),
                           Result (Sample.answer true true)) in
  0 <= _calculate_api_score r /\ _calculate_api_score r <= 100.
Proof.
  intros r.
  apply (api_score_between_0_and_100 r (_generate_summary r) eq_refl);
    vm_compute; discriminate.
Defined.

(** X15: the parts of the score breakdown add up to the final score, up to
    the rounding of the three numbers: the difference is at most 0.015. *)
Theorem breakdown_adds_up (api_results : ApiResults)
  (feature_results : UrlFeatures.FeatureResults) :
  let r := calculate_risk_score api_results feature_results in
  Qabs (final_score r
        - (api_contribution (score_breakdown r)
           + feature_contribution (score_breakdown r)))
  <= 3 # 200.
Proof.
  intros r. subst r. unfold calculate_risk_score.
  cbn [final_score score_breakdown api_contribution feature_contribution].
  set (a := _calculate_api_score api_results * WEIGHTS_api_score).
  set (f := match UrlFeatures.feature_risk_score feature_results with
            | Some x => x
            | None => 0
            end * WEIGHTS_feature_score).
  pose proof (round2_near (a + f)) as [H1 H2].
  pose proof (round2_near a) as [Ha1 Ha2].
  pose proof (round2_near f) as [Hf1 Hf2].
  apply Qabs_Qle_condition. split; lra.
Qed.

End ScoreRange.

Section Confidence.

Import ApiChecker Scorer.

(** X16: the confidence of the scorer read on a summary of the aggregator:
    VERY_LOW when no provider is available, LOW with one, HIGH with two or
    three that all flag or all do not, MEDIUM with two or three that disagree. *)
Theorem confidence_follows_agreement (tasks : settled * settled * settled) :
  let r := check_all_apis tasks in
  let available := Spec.providers_where is_available r in
  let flagging :=
    Spec.providers_where (fun d => is_available d && negb (is_safe d)) r in
  (available = 0 -> _calculate_confidence r = ("VERY_LOW" : str))
  /\ (available = 1 -> _calculate_confidence r = ("LOW" : str))
  /\ (2 <= available -> flagging = 0 \/ flagging = available ->
      _calculate_confidence r = ("HIGH" : str))
  /\ (2 <= available -> 0 < flagging < available ->
      _calculate_confidence r = ("MEDIUM" : str)).
Proof.
  destruct tasks as [[t0 t1] t2]. cbv zeta.
  unfold _calculate_confidence, apis_checked_of, apis_flagged_of, check_all_apis.
  cbn [summary].
  match goal with
  | |- context [_generate_summary ?res] =>
      destruct (summary_counts res) as (T & F & _ & _); rewrite T, F
  end.
  unfold Spec.providers_where.
  cbn [google_safe_browsing virustotal urlhaus provider filter].
  destruct (is_available (unwrap t0)), (is_safe (unwrap t0)),
    (is_available (unwrap t1)), (is_safe (unwrap t1)),
    (is_available (unwrap t2)), (is_safe (unwrap t2)); cbn;
    repeat split; intros; try reflexivity; try lia.
Qed.

End Confidence.

(** ** The threats of a report *)

Section ReportThreats.

Import ApiChecker UrlFeatures Scorer.
Context `{Externals}.

Lemma report_summary (net : Main.network) (raw : str) (calls : list Main.call)
  (a : Analysis) :
  Main.scan_url net raw = (calls, Main.Report a) ->
  exists s k factors,
    api_checks_summary a = Some s
    /\ In (total_apis_checked s, apis_flagged_malicious s) Spec.reachable_counts
    /\ 0 <= k <= 100
    /\ risk_assessment_level a
       = _determine_risk_level
           (Spec.fused_score (total_apis_checked s) (apis_flagged_malicious s) k)
    /\ url_analysis_risk_factors a = factors
    /\ threats_indicators a = ApiChecker.threat_indicators s ++ factors
    /\ threats_count a = List.length (threats_indicators a)
    /\ Z.of_nat (List.length (ApiChecker.threat_indicators s))
       = apis_flagged_malicious s.
Proof.
  intros Hscan.
  destruct (scan_url_report_inv net raw calls a Hscan) as (u & e & fr & Hv & Hfr & ->).
  destruct (analyze_feature_score u fr Hfr) as (k & Hk & Hscore).
  destruct (report_score_and_level (net u) fr u k Hscore) as [_ Hl].
  destruct (net u) as [[t0 t1] t2].
  cbn [check_all_apis google_safe_browsing virustotal urlhaus] in *.
  set (results := {| google_safe_browsing := Some (unwrap t0);
                     virustotal := Some (unwrap t1);
                     urlhaus := Some (unwrap t2);
                     summary := None |}) in *.
  exists (_generate_summary results), k,
    (match risk_factors fr with Some l => l | None => [] end).
  split; [reflexivity | ].
  split; [apply counts_reachable | ].
  split; [exact Hk | ].
  split; [exact Hl | ].
  split; [reflexivity | ].
  split; [reflexivity | ].
  split; [reflexivity | ].
  apply (summary_flags results).
Qed.

(** X17: the threats of a report are the indicators of the flagging
    providers followed by the risk factors of the URL, and their count is the
    number of flags plus the number of factors. *)
Theorem threats_are_flags_and_factors (net : Main.network) (raw : str)
  (calls : list Main.call) (a : Analysis) :
  Main.scan_url net raw = (calls, Main.Report a) ->
  exists s,
    api_checks_summary a = Some s
    /\ threats_indicators a
       = ApiChecker.threat_indicators s ++ url_analysis_risk_factors a
    /\ Z.of_nat (threats_count a)
       = apis_flagged_malicious s
         + Z.of_nat (List.length (url_analysis_risk_factors a)).
Proof.
  intros Hscan.
  destruct (report_summary net raw calls a Hscan)
    as (s & k & factors & Hs & _ & _ & _ & Hfac & Hind & Hcount & Hflags).
  exists s. split; [exact Hs | ]. rewrite Hfac. split; [exact Hind | ].
  rewrite Hcount, Hind, length_app, Nat2Z.inj_add, Hflags. reflexivity.
Qed.

End ReportThreats.

Lemma threats_are_flags_and_factors_witness :
  exists calls a s,
    Main.scan_url (H := Sample.externals) Sample.only_urlhaus_safe "google.com"
    = (calls, Main.Report a)
    /\ Scorer.api_checks_summary a = Some s
    /\ Z.of_nat (Scorer.threats_count a)
       = ApiChecker.apis_flagged_malicious s
         + Z.of_nat (List.length (Scorer.url_analysis_risk_factors a)).
Proof.
  destruct (scan_url_reports (H := Sample.externals) Sample.only_urlhaus_safe
              "google.com" "http://google.com" [] eq_refl) as (fr & _ & Hscan).
  destruct (threats_are_flags_and_factors (H := Sample.externals) _ _ _ _ Hscan)
    as (s & Hs & _ & Hcount).
  eexists. eexists. exists s. split; [exact Hscan | split; [exact Hs | exact Hcount]].
Defined.


(** ** The provider checks *)

Section ProviderChecks.

Import ApiChecker Providers.


Lemma unavailable_well_formed (msg : str) : well_formed (unavailable msg).
Proof. right. cbn. repeat split. exists msg. reflexivity. Qed.

Lemma caught_raised_well_formed (e : exn) : well_formed (caught (Raised e)).
Proof. destruct e; apply unavailable_well_formed. Qed.

Lemma available_and_safe_well_formed : well_formed available_and_safe.
Proof. left. cbn. repeat split. exists true. reflexivity. Qed.

Lemma google_well_formed (self : APIChecker) (http : Http) (url : str) :
  well_formed (check_google_safe_browsing self http url).
Proof.
  unfold check_google_safe_browsing.
  destruct (configured (google_api_key self)) as [key | ];
    [ | apply unavailable_well_formed].
  destruct (post_google http key url) as [e | response];
    [apply caught_raised_well_formed | ].
  cbn [await]. destruct (status response =? 200).
  - destruct (json response) as [e | data]; [apply caught_raised_well_formed | ].
    cbn [await]. destruct (matches data) as [[ | m ms] | ]; cbn [caught];
      left; cbn; repeat split; eexists; reflexivity.
  - destruct (text response) as [e | error_text];
      [apply caught_raised_well_formed | apply unavailable_well_formed].
Qed.

Lemma well_formed_await {A : Type} (m : attempt A)
  (k : A -> attempt ProviderResult) :
  (forall a, well_formed (caught (k a))) -> well_formed (caught (await m k)).
Proof.
  intros Hk. destruct m as [e | a]; [apply caught_raised_well_formed | apply Hk].
Qed.

Lemma virustotal_well_formed (self : APIChecker) (http : Http) (url : str) :
  well_formed (check_virustotal self http url).
Proof.
  unfold check_virustotal.
  destruct (configured (virustotal_api_key self)) as [key | ];
    [ | apply unavailable_well_formed].
  apply well_formed_await. intros response.
  destruct (status response =? 200).
  - apply well_formed_await. intros data.
    destruct (configured (analysis_id data)) as [id | ];
      [ | apply available_and_safe_well_formed].
    apply well_formed_await. intros analysis_response.
    destruct (status analysis_response =? 200);
      [ | apply available_and_safe_well_formed].
    apply well_formed_await. intros stats. cbv zeta.
    do 5 (apply well_formed_await; intros ?).
    left. cbn. repeat split. eexists. reflexivity.
  - apply well_formed_await. intros error_text. apply unavailable_well_formed.
Qed.

Lemma urlhaus_well_formed (http : Http) (url : str) :
  well_formed (check_urlhaus http url).
Proof.
  unfold check_urlhaus.
  destruct (post_urlhaus http url) as [e | response];
    [apply caught_raised_well_formed | ].
  cbn [await]. destruct (status response =? 200);
    [ | apply unavailable_well_formed].
  destruct (json response) as [e | data]; [apply caught_raised_well_formed | ].
  cbn [await]. destruct (query_status data) as [q | ];
    [ | apply available_and_safe_well_formed].
  destruct (Py.eqb q "ok"); [left; cbn; repeat split; eexists; reflexivity | ].
  destruct (Py.eqb q "no_results"); apply available_and_safe_well_formed.
Qed.






(** X18: whatever the network answers, each of the three checks returns a
    dict that says whether the provider is available; an available one says
    whether the URL is safe and has no error, an unavailable one has an error
    text and no verdict.  A raised exception never leaves a check. *)
Theorem provider_dicts_are_well_formed (self : APIChecker) (http : Http)
  (url : str) :
  well_formed (check_google_safe_browsing self http url)
  /\ well_formed (check_virustotal self http url)
  /\ well_formed (check_urlhaus http url).
Proof.
  split; [apply google_well_formed | ].
  split; [apply virustotal_well_formed | apply urlhaus_well_formed].
Qed.


End ProviderChecks.


(** ** The route over the provider checks *)

Section RouteOverProviders.

Import ApiChecker UrlFeatures Scorer Providers.
Context `{Externals}.

Lemma every_level_is_tabled :
  forallb (fun cf => forallb (Policy.level_is_tabled (fst cf) (snd cf))
                       Spec.feature_scores)
    Spec.reachable_counts = true.
Proof. vm_compute. reflexivity. Qed.

Lemma report_counts_and_feature (net : Main.network) (raw : str)
  (calls : list Main.call) (a : Analysis) :
  Main.scan_url net raw = (calls, Main.Report a) ->
  exists u fr s k,
    a = get_complete_analysis u (check_all_apis (net u)) fr
    /\ summary (check_all_apis (net u)) = Some s
    /\ api_checks_summary a = Some s
    /\ In (total_apis_checked s, apis_flagged_malicious s) Spec.reachable_counts
    /\ 0 <= k <= 100
    /\ (score_details_feature_score a == inject_Z k)%Q
    /\ risk_assessment_level a
       = _determine_risk_level
           (Spec.fused_score (total_apis_checked s) (apis_flagged_malicious s) k).
Proof.
  intros Hscan.
  destruct (scan_url_report_inv net raw calls a Hscan) as (u & e & fr & Hv & Hfr & ->).
  destruct (analyze_feature_score u fr Hfr) as (k & Hk & Hscore).
  destruct (report_score_and_level (net u) fr u k Hscore) as [_ Hl].
  exists u, fr.
  destruct (net u) as [[t0 t1] t2].
  cbn [check_all_apis google_safe_browsing virustotal urlhaus] in *.
  set (results := {| google_safe_browsing := Some (unwrap t0);
                     virustotal := Some (unwrap t1);
                     urlhaus := Some (unwrap t2);
                     summary := None |}) in *.
  exists (_generate_summary results), k.
  split; [reflexivity | ].
  split; [reflexivity | ].
  split; [reflexivity | ].
  split; [apply counts_reachable | ].
  split; [exact Hk | ].
  split; [ | exact Hl].
  unfold get_complete_analysis, get_detailed_analysis, calculate_risk_score.
  cbn [score_details_feature_score feature_score]. rewrite Hscore.
  apply round_integer.
Qed.

(** X20: the level of every report, as a table of the counts of the summary
    and the feature score.  No provider checked: SUSPICIOUS.  Providers
    checked and none flagging: SAFE.  All checked providers flagging:
    MALICIOUS, but SUSPICIOUS at feature score 0.  One of two flagging:
    SUSPICIOUS.  One of three: SAFE up to feature score 22, SUSPICIOUS above.
    Two of three: SUSPICIOUS up to feature score 54, MALICIOUS above. *)
Theorem level_decision_table (net : Main.network) (raw : str)
  (calls : list Main.call) (a : Analysis) :
  Main.scan_url net raw = (calls, Main.Report a) ->
  exists s k,
    api_checks_summary a = Some s
    /\ (score_details_feature_score a == inject_Z k)%Q
    /\ risk_assessment_level a
       = Policy.level_table (total_apis_checked s) (apis_flagged_malicious s) k.
Proof.
  intros Hscan.
  destruct (report_counts_and_feature net raw calls a Hscan)
    as (u & fr & s & k & _ & _ & Hs & Hcounts & Hk & Hfeat & Hlevel).
  exists s, k. split; [exact Hs | ]. split; [exact Hfeat | ].
  pose proof every_level_is_tabled as Hall.
  rewrite forallb_forall in Hall. specialize (Hall _ Hcounts). cbn [fst snd] in Hall.
  rewrite forallb_forall in Hall. specialize (Hall k (feature_score_listed k Hk)).
  unfold Policy.level_is_tabled in Hall. apply Py_eqb_eq in Hall.
  rewrite Hlevel. exact Hall.
Qed.

Lemma key_not_configured (key : option str) :
  configured key = None <-> key = None \/ key = Some [].
Proof.
  unfold configured. destruct key as [[ | c k] | ]; cbn; split; intros Hk;
    try reflexivity; try discriminate; try (left; reflexivity);
    try (right; reflexivity).
  destruct Hk as [Hk | Hk]; discriminate Hk.
Qed.

(** X21: with neither API key set, Google and VirusTotal are reported
    unavailable with the text [API key not configured] whatever the network
    would answer, the summary counts URLhaus alone, and the confidence is LOW
    when URLhaus answers and VERY_LOW when it does not. *)
Theorem without_keys_only_urlhaus_counts (self : APIChecker) (http : Http)
  (url : str) :
  (google_api_key self = None \/ google_api_key self = Some []) ->
  (virustotal_api_key self = None \/ virustotal_api_key self = Some []) ->
  let r := check_all_apis (tasks self http url) in
  let uh := check_urlhaus http url in
  google_safe_browsing r = Some (unavailable "API key not configured")
  /\ virustotal r = Some (unavailable "API key not configured")
  /\ (exists s,
        summary r = Some s
        /\ total_apis_checked s = (if is_available uh then 1 else 0)
        /\ apis_flagged_malicious s = (if flags uh then 1 else 0)
        /\ apis_unavailable s = (if is_available uh then 2 else 3))
  /\ _calculate_confidence r
     = (if is_available uh then "LOW" : str else "VERY_LOW" : str).
Proof.
  intros Hg Hv. apply key_not_configured in Hg, Hv. cbv zeta.
  unfold tasks, check_google_safe_browsing, check_virustotal. rewrite Hg, Hv.
  set (uh := check_urlhaus http url).
  split; [reflexivity | ]. split; [reflexivity | ].
  unfold _calculate_confidence, apis_checked_of, apis_flagged_of, check_all_apis.
  cbn [summary unwrap].
  match goal with
  | |- context [_generate_summary ?res] =>
      destruct (summary_counts res) as (T & F & _ & U); rewrite T, F
  end.
  split.
  - eexists. split; [reflexivity | ]. rewrite T, F, U.
    unfold Spec.providers_where, flags.
    cbn [google_safe_browsing virustotal urlhaus provider filter].
    destruct (is_available uh), (is_safe uh); cbn; repeat split; reflexivity.
  - unfold Spec.providers_where.
    cbn [google_safe_browsing virustotal urlhaus provider filter].
    destruct (is_available uh), (is_safe uh); cbn; reflexivity.
Qed.

Lemma raised_check (e : exn) :
  exists msg, caught (Raised e) = unavailable msg.
Proof. destruct e as [ | msg]; eexists; reflexivity. Qed.

Lemma checks_without_network (self : APIChecker) (http : Http) (url : str) :
  (forall key u, exists e, post_google http key u = Raised e) ->
  (forall key u, exists e, post_virustotal http key u = Raised e) ->
  (forall u, exists e, post_urlhaus http u = Raised e) ->
  exists m1 m2 m3,
    tasks self http url
    = (Result (unavailable m1), Result (unavailable m2), Result (unavailable m3)).
Proof.
  intros Hg Hv Hu. unfold tasks.
  assert (G : exists m, check_google_safe_browsing self http url = unavailable m).
  { unfold check_google_safe_browsing.
    destruct (configured (google_api_key self)) as [key | ];
      [ | eexists; reflexivity].
    destruct (Hg key url) as [e ->]. apply raised_check. }
  assert (V : exists m, check_virustotal self http url = unavailable m).
  { unfold check_virustotal.
    destruct (configured (virustotal_api_key self)) as [key | ];
      [ | eexists; reflexivity].
    destruct (Hv key url) as [e ->]. apply raised_check. }
  assert (U : exists m, check_urlhaus http url = unavailable m).
  { unfold check_urlhaus. destruct (Hu url) as [e ->]. apply raised_check. }
  destruct G as [m1 ->], V as [m2 ->], U as [m3 ->].
  exists m1, m2, m3. reflexivity.
Qed.

(** X22: when every request to the three providers fails, every report of
    the route has level SUSPICIOUS and confidence VERY_LOW, whatever the URL:
    the three providers are shown unavailable, the API score is the neutral
    50, and the threats are the risk factors of the URL alone. *)
Theorem without_network_every_report_is_suspicious (self : APIChecker)
  (http : Http) (raw : str) (calls : list Main.call) (a : Analysis) :
  (forall key u, exists e, post_google http key u = Raised e) ->
  (forall key u, exists e, post_virustotal http key u = Raised e) ->
  (forall u, exists e, post_urlhaus http u = Raised e) ->
  Main.scan_url (network self http) raw = (calls, Main.Report a) ->
  risk_assessment_level a = ("SUSPICIOUS" : str)
  /\ risk_assessment_confidence a = ("VERY_LOW" : str)
  /\ (score_details_api_score a == 50)%Q
  /\ threats_indicators a = url_analysis_risk_factors a
  /\ exists m1 m2 m3,
       api_checks_google_safe_browsing a = Unavailable m1
       /\ api_checks_virustotal a = Unavailable m2
       /\ api_checks_urlhaus a = Unavailable m3.
Proof.
  intros Hg Hv Hu Hscan.
  destruct (report_counts_and_feature _ raw calls a Hscan)
    as (u & fr & s & k & Ha & Hsum & Hs & Hcounts & Hk & Hfeat & Hlevel).
  unfold network in Ha, Hsum.
  destruct (checks_without_network self http u Hg Hv Hu) as (m1 & m2 & m3 & Ht).
  rewrite Ht in Ha, Hsum.
  injection Hsum as <-. cbn in Hlevel.
  pose proof every_level_is_tabled as Hall.
  rewrite forallb_forall in Hall.
  specialize (Hall (0, 0) (or_introl eq_refl)). cbn [fst snd] in Hall.
  rewrite forallb_forall in Hall. specialize (Hall k (feature_score_listed k Hk)).
  unfold Policy.level_is_tabled in Hall. apply Py_eqb_eq in Hall.
  split; [rewrite Hlevel; exact Hall | ].
  rewrite Ha.
  split; [reflexivity | ].
  split; [vm_compute; reflexivity | ].
  split; [reflexivity | ].
  exists m1, m2, m3. repeat split; reflexivity.
Qed.

End RouteOverProviders.

Lemma level_decision_table_witness :
  exists calls a s k,
    Main.scan_url (H := Sample.externals) Sample.only_urlhaus_safe "google.com"
    = (calls, Main.Report a)
    /\ Scorer.api_checks_summary a = Some s
    /\ Scorer.risk_assessment_level a
       = Policy.level_table (ApiChecker.total_apis_checked s)
           (ApiChecker.apis_flagged_malicious s) k.
Proof.
  destruct (scan_url_reports (H := Sample.externals) Sample.only_urlhaus_safe
              "google.com" "http://google.com" [] eq_refl) as (fr & _ & Hscan).
  destruct (level_decision_table (H := Sample.externals) _ _ _ _ Hscan)
    as (s & k & Hs & _ & Hlevel).
  eexists. eexists. exists s, k.
  split; [exact Hscan | split; [exact Hs | exact Hlevel]].
Defined.

Lemma without_keys_only_urlhaus_counts_witness :
  Scorer._calculate_confidence
    (ApiChecker.check_all_apis
       (Providers.tasks
          {| Providers.google_api_key := None;
             Providers.virustotal_api_key := Some [] |}
          Providers.offline "http://google.com"))
  = ("VERY_LOW" : str).
Proof.
  exact (proj2 (proj2 (proj2
    (without_keys_only_urlhaus_counts
       {| Providers.google_api_key := None;
          Providers.virustotal_api_key := Some [] |}
       Providers.offline "http://google.com"
       (or_introl eq_refl) (or_intror eq_refl))))).
Defined.

Lemma without_network_every_report_is_suspicious_witness :
  exists calls a,
    Main.scan_url (H := Sample.externals)
      (Providers.network
         {| Providers.google_api_key := Some ("key" : str);
            Providers.virustotal_api_key := None |}
         Providers.offline) "google.com"
    = (calls, Main.Report a)
    /\ Scorer.risk_assessment_level a = ("SUSPICIOUS" : str).
Proof.
  destruct (scan_url_reports (H := Sample.externals)
              (Providers.network
                 {| Providers.google_api_key := Some ("key" : str);
                    Providers.virustotal_api_key := None |}
                 Providers.offline)
              "google.com" "http://google.com" [] eq_refl) as (fr & _ & Hscan).
  eexists. eexists. split; [exact Hscan | ].
  apply (without_network_every_report_is_suspicious (H := Sample.externals)
           _ Providers.offline _ _ _
           (fun _ _ => ex_intro _ Providers.TimeoutError eq_refl)
           (fun _ _ => ex_intro _ Providers.TimeoutError eq_refl)
           (fun _ => ex_intro _ Providers.TimeoutError eq_refl)
           Hscan).
Defined.


(** ** Monotonicity of the score and the level *)

Section Monotone.

Import ApiChecker UrlFeatures Scorer.
Open Scope Q_scope.

(** At a tie the rounding goes to the even neighbour. *)
Lemma round_half_even_ties (q : Q) :
  (inject_Z (round_half_even q) < q + (1 # 2)
   \/ Z.even (round_half_even q) = true)
  /\ (q - (1 # 2) < inject_Z (round_half_even q)
      \/ Z.even (round_half_even q) = true).
Proof.
  destruct q as [n d]. unfold round_half_even. cbn [Qnum Qden].
  pose proof (Z.div_mod n (Z.pos d) ltac:(lia)) as Hdm.
  pose proof (Z.mod_pos_bound n (Z.pos d) ltac:(lia)) as Hb.
  set (fl := (n / Z.pos d)%Z) in *. set (r := (n mod Z.pos d)%Z) in *.
  destruct (Z.compare_spec (2 * r) (Z.pos d)) as [He | Hl | Hg].
  - destruct (Z.even fl) eqn:E.
    + split; right; exact E.
    + split; right; rewrite Z.even_add, E; reflexivity.
  - split; left; unfold Qlt, Qminus, Qplus, Qopp, inject_Z; cbn [Qnum Qden]; lia.
  - split; left; unfold Qlt, Qminus, Qplus, Qopp, inject_Z; cbn [Qnum Qden]; lia.
Qed.

Lemma round_half_even_monotone (q1 q2 : Q) :
  q1 <= q2 -> (round_half_even q1 <= round_half_even q2)%Z.
Proof.
  intros Hle.
  destruct (Z.le_gt_cases (round_half_even q1) (round_half_even q2)) as [L | G];
    [exact L | exfalso].
  pose proof (round_half_even_near q1) as [_ Hup].
  pose proof (round_half_even_near q2) as [Hlo _].
  destruct (round_half_even_ties q1) as [[T1 | E1] _].
  - assert (Hz : inject_Z (round_half_even q2) + 1 <= inject_Z (round_half_even q1)).
    { change 1 with (inject_Z 1). rewrite <- inject_Z_plus, <- Zle_Qle. lia. }
    lra.
  - destruct (round_half_even_ties q2) as [_ [T2 | E2]].
    + assert (Hz : inject_Z (round_half_even q2) + 1
                   <= inject_Z (round_half_even q1)).
      { change 1 with (inject_Z 1). rewrite <- inject_Z_plus, <- Zle_Qle. lia. }
      lra.
    + assert (Hz : inject_Z (round_half_even q1)
                   <= inject_Z (round_half_even q2) + 1) by lra.
      change 1 with (inject_Z 1) in Hz.
      rewrite <- inject_Z_plus, <- Zle_Qle in Hz.
      assert (Heq : round_half_even q1 = (round_half_even q2 + 1)%Z) by lia.
      rewrite Heq, Z.even_add, E2 in E1. discriminate E1.
Qed.

Lemma round_monotone (q1 q2 : Q) : q1 <= q2 -> round q1 2 <= round q2 2.
Proof.
  intros Hle. unfold round. change (inject_Z (10 ^ Z.of_nat 2)) with 100.
  unfold Qdiv. apply Qmult_le_compat_r; [ | discriminate].
  rewrite <- Zle_Qle. apply round_half_even_monotone.
  apply Qmult_le_compat_r; [exact Hle | discriminate].
Qed.

Lemma level_rank_monotone (x y : Q) :
  x <= y ->
  (Policy.level_rank (_determine_risk_level x)
   <= Policy.level_rank (_determine_risk_level y))%nat.
Proof.
  intros Hle. unfold _determine_risk_level, SAFE_THRESHOLD, SUSPICIOUS_THRESHOLD.
  destruct (Qle_bool x 30) eqn:X1; [cbn; lia | ].
  assert (Hx : 30 < x).
  { apply Qnot_le_lt. intros A. apply Qle_bool_iff in A. congruence. }
  destruct (Qle_bool y 30) eqn:Y1; [apply Qle_bool_iff in Y1; lra | ].
  destruct (Qle_bool x 70) eqn:X2; [destruct (Qle_bool y 70); cbn; lia | ].
  assert (Hx' : 70 < x).
  { apply Qnot_le_lt. intros A. apply Qle_bool_iff in A. congruence. }
  destruct (Qle_bool y 70) eqn:Y2; [apply Qle_bool_iff in Y2; lra | ].
  cbn. lia.
Qed.

Lemma api_score_grows (c f1 f2 : Z) :
  (1 <= c)%Z -> (0 <= f1)%Z -> (f1 <= f2)%Z -> (f2 <= c)%Z ->
  Spec.api_score_of_counts c f1 <= Spec.api_score_of_counts c f2.
Proof.
  intros Hpos Hf0 Hf12 Hf2. unfold Spec.api_score_of_counts.
  destruct (Z.eqb_spec c 0) as [E | _]; [lia | ].
  pose proof (percentage_monotone f1 f2 c Hpos Hf12) as Hmono.
  pose proof (percentage_at_most_100 f1 c Hpos ltac:(lia)) as Hcap.
  assert (Hboost : (1 < f1)%Z ->
                   inject_Z ((f1 - 1) * 10) <= inject_Z ((f2 - 1) * 10)).
  { intros _. rewrite <- Zle_Qle. lia. }
  destruct (Z.ltb_spec 1 f1) as [L1 | L1];
    destruct (Z.ltb_spec 1 f2) as [L2 | L2]; try lia.
  - apply min_glb.
    + eapply Qle_trans; [apply min_le_l | ].
      specialize (Hboost L1). lra.
    + apply min_le_r.
  - apply min_glb; [ | exact Hcap ].
    assert (0 <= inject_Z ((f2 - 1) * 10)).
    { change 0 with (inject_Z 0). rewrite <- Zle_Qle. lia. }
    lra.
  - exact Hmono.
Qed.

(** X23: with the number of providers checked fixed and at least one, a
    verdict with more flags and a feature score that is not lower never gets
    a lower final score nor a lower level (SAFE below SUSPICIOUS below
    MALICIOUS): the rounding of the score keeps the order. *)
Theorem score_and_level_are_monotone (r1 r2 : ApiResults) (s1 s2 : Summary)
  (fr1 fr2 : FeatureResults) (k1 k2 : Q) :
  summary r1 = Some s1 -> summary r2 = Some s2 ->
  total_apis_checked s1 = total_apis_checked s2 ->
  (1 <= total_apis_checked s1)%Z ->
  (0 <= apis_flagged_malicious s1)%Z ->
  (apis_flagged_malicious s1 <= apis_flagged_malicious s2)%Z ->
  (apis_flagged_malicious s2 <= total_apis_checked s1)%Z ->
  feature_risk_score fr1 = Some k1 -> feature_risk_score fr2 = Some k2 ->
  k1 <= k2 ->
  final_score (calculate_risk_score r1 fr1)
  <= final_score (calculate_risk_score r2 fr2)
  /\ (Policy.level_rank (risk_level (calculate_risk_score r1 fr1))
      <= Policy.level_rank (risk_level (calculate_risk_score r2 fr2)))%nat.
Proof.
  intros H1 H2 Hc Hpos Hf0 Hf12 Hf2 Hk1 Hk2 Hk.
  unfold calculate_risk_score. cbn [final_score risk_level].
  rewrite Hk1, Hk2.
  assert (Hapi : _calculate_api_score r1 <= _calculate_api_score r2).
  { rewrite (api_score_of_summary r1 s1 H1), (api_score_of_summary r2 s2 H2).
    rewrite <- Hc.
    exact (api_score_grows _ _ _ Hpos Hf0 Hf12 Hf2). }
  assert (Hraw : _calculate_api_score r1 * WEIGHTS_api_score
                 + k1 * WEIGHTS_feature_score
                 <= _calculate_api_score r2 * WEIGHTS_api_score
                    + k2 * WEIGHTS_feature_score).
  { unfold WEIGHTS_api_score, WEIGHTS_feature_score. lra. }
  split; [apply round_monotone | apply level_rank_monotone]; exact Hraw.
Qed.

Lemma score_and_level_are_monotone_witness :
  let one := check_all_apis (Result (Sample.answer true false),
                             Result (Sample.answer true true),
                             Result (Sample.answer true true)) in
  let two := check_all_apis (Result (Sample.answer true false),
                             Result (Sample.answer true false),
                             Result (Sample.answer true true)) in
  let low := {| features := None; feature_risk_score := Some 10;
                risk_factors := None; total_features := None |} in
  let high := {| features := None; feature_risk_score := Some 35;
                 risk_factors := None; total_features := None |} in
  final_score (calculate_risk_score one low)
  <= final_score (calculate_risk_score two high).
Proof.
  intros one two low high.
  refine (proj1 (score_and_level_are_monotone one two
                   (_generate_summary one) (_generate_summary two)
                   low high 10 35 eq_refl eq_refl eq_refl _ _ _ _
                   eq_refl eq_refl _));
    vm_compute; discriminate.
Defined.

End Monotone.
